(** * auth-jwt: token issuance, verification, rotation and revocation

    A shallow embedding of the authentication core of the repository:
    [JWTService] and [PasswordService] (services/jwtService.js,
    services/passwordService.js), [AuthService] (services/authService.js),
    [OAuthService] (services/oauthService.js), the status mapping of the
    controllers and the token middleware (middleware/auth.js).

    Conventions of the embedding.
    - JavaScript strings are [string]: sequences of code units below
      256, the Latin-1 range of UTF-16; an absent argument ([undefined],
      [null]) and the empty string take the same branch of every [!x]
      guard of the source, and both are represented by the empty string.
    - Dates are integers, milliseconds since the epoch, within the range
      of [Date].  One service call reads the clock once: the parameter
      [now].
    - A thrown [Error] is a record of its [name] and [message]; a function
      that may throw returns a sum, [inl] for the thrown value.
    - The database behind the Prisma client is a record of two tables, and
      every service call returns the database it leaves behind. *)

From Stdlib Require Import ZArith List String Ascii Bool Lia DecimalString.
From Stdlib Require DecimalNat DecimalFacts.
Import ListNotations.

Local Open Scope string_scope.
Local Open Scope Z_scope.

(** ** JavaScript values *)

Module Js.

Record Error := mkError { name : string; message : string }.

(** [new Error(msg)] *)
Definition error (msg : string) : Error := mkError "Error" msg.

Definition Result (A : Type) : Type := (Error + A)%type.

Definition throw {A} (e : Error) : Result A := inl e.
Definition ret {A} (a : A) : Result A := inr a.

Definition bind {A B} (m : Result A) (k : A -> Result B) : Result B :=
  match m with
  | inl e => inl e
  | inr a => k a
  end.

(** [!s] on a string *)
Definition falsy (s : string) : bool := (s =? "")%string.

(** [hay.includes(needle)] *)
Definition includes (hay needle : string) : bool :=
  match index 0 needle hay with
  | Some _ => true
  | None => false
  end.

Definition isUpper (c : ascii) : bool :=
  let n := nat_of_ascii c in (65 <=? n)%nat && (n <=? 90)%nat.
Definition isLower (c : ascii) : bool :=
  let n := nat_of_ascii c in (97 <=? n)%nat && (n <=? 122)%nat.
Definition isDigit (c : ascii) : bool :=
  let n := nat_of_ascii c in (48 <=? n)%nat && (n <=? 57)%nat.

(** [\s]: tab, line feed, vertical tab, form feed, carriage return, space
    and the no-break space. *)
Definition isSpace (c : ascii) : bool :=
  let n := nat_of_ascii c in
  ((9 <=? n)%nat && (n <=? 13)%nat) || (n =? 32)%nat || (n =? 160)%nat.

(** The capital letters of the upper half of Latin-1, U+00C0 to U+00DE
    without the multiplication sign U+00D7 *)
Definition isUpperLatin1 (c : ascii) : bool :=
  let n := nat_of_ascii c in
  (192 <=? n)%nat && (n <=? 222)%nat && negb (n =? 215)%nat.

Definition lowerChar (c : ascii) : ascii :=
  if isUpper c || isUpperLatin1 c then ascii_of_nat (nat_of_ascii c + 32)
  else c.

(** [s.toLowerCase()] *)
Fixpoint toLowerCase (s : string) : string :=
  match s with
  | EmptyString => EmptyString
  | String c r => String (lowerChar c) (toLowerCase r)
  end.

(** [re.test(s)] for a regular expression that is one character class *)
Fixpoint existsb (p : ascii -> bool) (s : string) : bool :=
  match s with
  | EmptyString => false
  | String c r => p c || existsb p r
  end.

Fixpoint trimStart (s : string) : string :=
  match s with
  | EmptyString => EmptyString
  | String c r => if isSpace c then trimStart r else s
  end.

Fixpoint trimEnd (s : string) : string :=
  match s with
  | EmptyString => EmptyString
  | String c r =>
      match trimEnd r with
      | EmptyString => if isSpace c then EmptyString else String c EmptyString
      | r' => String c r'
      end
  end.

(** [s.trim()] *)
Definition trim (s : string) : string := trimEnd (trimStart s).

(** [arr.join(', ')] *)
Fixpoint join (sep : string) (l : list string) : string :=
  match l with
  | [] => ""
  | [x] => x
  | x :: r => x ++ sep ++ join sep r
  end.

(** The time zone of the process, as the function LocalTZA of ECMAScript:
    the offset of local time from UTC in milliseconds, at an instant that
    is given in UTC ([true]) or read off the local clock ([false]). *)
Definition TimeZone : Type := Z -> bool -> Z.

Definition utc : TimeZone := fun _ _ => 0.

Definition msPerDay : Z := 24 * 60 * 60 * 1000.

(** [d.setDate(d.getDate() + n)]: the date is taken apart on the local
    clock, its day of the month is moved by [n], which the calendar
    carries over into the months, and the local date and time of day are
    read as an instant again. *)
Definition addDays (tz : TimeZone) (t n : Z) : Z :=
  let t := t + tz t true in
  let newDate := t + n * msPerDay in
  newDate - tz newDate false.

(** No zone is a day or more away from UTC. *)
Definition zoneWithinADay (tz : TimeZone) : Prop :=
  forall t isUTC, - msPerDay < tz t isUTC < msPerDay.

End Js.

Notation "x <- m ;; k" := (Js.bind m (fun x => k))
  (at level 61, m at next level, right associativity).

(** ** PasswordService (services/passwordService.js) *)

Module PasswordService.

Record Validation := mkValidation { isValid : bool; errors : list string }.

(** The character class of the last test of [validatePasswordStrength],
    in the order the source lists it; the double quote is character 34. *)
Definition specialChars : list ascii :=
  list_ascii_of_string "!@#$%^&*()_+-=[]{};':"
    ++ ["034"%char]
    ++ list_ascii_of_string "\|,.<>/?".

Definition isSpecial (c : ascii) : bool :=
  List.existsb (fun d => (c =? d)%char) specialChars.

(** [if (cond) { errors.push(msg) }] *)
Definition pushIf (cond : bool) (msg : string) (errors : list string)
  : list string :=
  if cond then errors ++ [msg] else errors.

Definition validatePasswordStrength (password : string) : Validation :=
  let errors : list string := [] in
  if Js.falsy password then
    mkValidation false (errors ++ ["Password must be a string"])
  else
    let len := Z.of_nat (String.length password) in
    let errors :=
      pushIf (len <? 8)
             "Password must be at least 8 characters long" errors in
    let errors :=
      pushIf (len >? 128)
             "Password must be less than 128 characters long" errors in
    let errors :=
      pushIf (negb (Js.existsb Js.isLower password))
             "Password must contain at least one lowercase letter" errors in
    let errors :=
      pushIf (negb (Js.existsb Js.isUpper password))
             "Password must contain at least one uppercase letter" errors in
    let errors :=
      pushIf (negb (Js.existsb Js.isDigit password))
             "Password must contain at least one number" errors in
    let errors :=
      pushIf (negb (Js.existsb isSpecial password))
             "Password must contain at least one special character" errors in
    mkValidation (List.length errors =? 0)%nat errors.

Section Bcrypt.

(** The bcrypt library: [bcrypt.hash(plain, rounds)] with the salt it
    draws made explicit, and [bcrypt.compare(plain, hashed)]. *)
Variable bcrypt_hash : string -> string -> Z -> string.
Variable bcrypt_compare : string -> string -> bool.

Definition SALT_ROUNDS : Z := 12.

Definition hashPassword (salt plainPassword : string) : Js.Result string :=
  if Js.falsy plainPassword then
    Js.throw (Js.error "Password must be a non-empty string")
  else if (Z.of_nat (String.length plainPassword) <? 6) then
    Js.throw (Js.error "Password must be at least 6 characters long")
  else Js.ret (bcrypt_hash salt plainPassword SALT_ROUNDS).

Definition comparePassword (plainPassword hashedPassword : string)
  : Js.Result bool :=
  if Js.falsy plainPassword then
    Js.throw (Js.error "Plain password must be a non-empty string")
  else if Js.falsy hashedPassword then
    Js.throw (Js.error "Hashed password must be a non-empty string")
  else Js.ret (bcrypt_compare plainPassword hashedPassword).

End Bcrypt.

(** The six rules of the strength policy, as the specification lists
    them, and what it means for a password to violate each. *)
Inductive Rule :=
| TooShort | TooLong | NoLowercase | NoUppercase | NoDigit | NoSymbol.

Definition allRules : list Rule :=
  [TooShort; TooLong; NoLowercase; NoUppercase; NoDigit; NoSymbol].

Definition violated (r : Rule) (password : string) : bool :=
  match r with
  | TooShort => (String.length password <? 8)%nat
  | TooLong => (128 <? String.length password)%nat
  | NoLowercase => negb (Js.existsb Js.isLower password)
  | NoUppercase => negb (Js.existsb Js.isUpper password)
  | NoDigit => negb (Js.existsb Js.isDigit password)
  | NoSymbol => negb (Js.existsb isSpecial password)
  end.

Definition ruleMessage (r : Rule) : string :=
  match r with
  | TooShort => "Password must be at least 8 characters long"
  | TooLong => "Password must be less than 128 characters long"
  | NoLowercase => "Password must contain at least one lowercase letter"
  | NoUppercase => "Password must contain at least one uppercase letter"
  | NoDigit => "Password must contain at least one number"
  | NoSymbol => "Password must contain at least one special character"
  end.

End PasswordService.

(** ** The jsonwebtoken library

    A signed token is modelled symbolically: the claims it carries and the
    key it was signed with.  Two tokens are the same string exactly when
    both agree, which is what an HMAC over the serialized claims gives: the
    library adds no nonce, so signing equal claims with an equal key in the
    same clock second yields the same string.  Any other string is
    [Opaque]. *)

Module Jwt.

Record Claims := mkClaims {
  userId : string;
  email : string;
  role : option string;
  type : string;
  iat : Z;
  exp : Z;
  iss : string;
  aud : string
}.

Inductive Token :=
| Signed (c : Claims) (key : string)
| Opaque (s : string).

Definition option_eqb (a b : option string) : bool :=
  match a, b with
  | Some x, Some y => (x =? y)%string
  | None, None => true
  | _, _ => false
  end.

Definition claims_eqb (a b : Claims) : bool :=
  (userId a =? userId b)%string && (email a =? email b)%string
  && option_eqb (role a) (role b) && (type a =? type b)%string
  && (iat a =? iat b) && (exp a =? exp b)
  && (iss a =? iss b)%string && (aud a =? aud b)%string.

(** String equality of two tokens *)
Definition eqb (a b : Token) : bool :=
  match a, b with
  | Signed c k, Signed c' k' => claims_eqb c c' && (k =? k')%string
  | Opaque s, Opaque s' => (s =? s')%string
  | _, _ => false
  end.

(** [!token]: only the empty string is falsy *)
Definition falsy (t : Token) : bool :=
  match t with
  | Opaque s => Js.falsy s
  | Signed _ _ => false
  end.

(** The payload handed to [jwt.sign] *)
Record Body := mkBody {
  b_userId : string;
  b_email : string;
  b_role : option string;
  b_type : string
}.

(** Seconds since the epoch: [Math.floor(Date.now() / 1000)] *)
Definition seconds (now : Z) : Z := now / 1000.

(** [jwt.sign(body, secret, { expiresIn, issuer, audience })], with
    [expiresIn] in seconds *)
Definition sign (now : Z) (body : Body) (secret : string)
           (expiresIn : Z) (issuer audience : string) : Token :=
  Signed (mkClaims (b_userId body) (b_email body) (b_role body)
                   (b_type body) (seconds now) (seconds now + expiresIn)
                   issuer audience)
         secret.

(** [jwt.verify(token, secret, { issuer, audience })]: the signature is
    checked first, then the expiry, then audience and issuer. *)
Definition verify (now : Z) (token : Token) (secret : string)
           (issuer audience : string) : Js.Result Claims :=
  match token with
  | Opaque _ => Js.throw (Js.mkError "JsonWebTokenError" "jwt malformed")
  | Signed c key =>
      if negb (key =? secret)%string then
        Js.throw (Js.mkError "JsonWebTokenError" "invalid signature")
      else if exp c <=? seconds now then
        Js.throw (Js.mkError "TokenExpiredError" "jwt expired")
      else if negb (aud c =? audience)%string then
        Js.throw (Js.mkError "JsonWebTokenError"
                             ("jwt audience invalid. expected: " ++ audience))
      else if negb (iss c =? issuer)%string then
        Js.throw (Js.mkError "JsonWebTokenError"
                             ("jwt issuer invalid. expected: " ++ issuer))
      else Js.ret c
  end.

(** [jwt.decode(token, { complete: true })], of which the callers read
    the payload only: the claims of a well-formed token, whoever signed
    it, and [null] for any other string. *)
Definition decode (token : Token) : option Claims :=
  match token with
  | Signed c _ => Some c
  | Opaque _ => None
  end.

(** [jwt.verify(token, secret, callback)] without options: the signature
    and the expiry, nothing else. *)
Definition verifyPlain (now : Z) (token : Token) (secret : string)
  : Js.Result Claims :=
  match token with
  | Opaque _ => Js.throw (Js.mkError "JsonWebTokenError" "jwt malformed")
  | Signed c key =>
      if Js.falsy secret then
        Js.throw (Js.mkError "JsonWebTokenError"
                             "secret or public key must be provided")
      else if negb (key =? secret)%string then
        Js.throw (Js.mkError "JsonWebTokenError" "invalid signature")
      else if exp c <=? seconds now then
        Js.throw (Js.mkError "TokenExpiredError" "jwt expired")
      else Js.ret c
  end.

End Jwt.

(** ** The process environment

    The four variables the services read, and the time zone the process
    runs in ([TZ], or the zone of the host), which decides what the local
    calendar of [Date] is.  An unset secret is the empty string, which
    the [!secret] guards treat alike. *)

Record Env := mkEnv {
  JWT_ACCESS_SECRET : string;
  JWT_REFRESH_SECRET : string;
  (** the two life-times, already parsed to seconds; [None] when unset *)
  JWT_ACCESS_EXPIRES_IN : option Z;
  JWT_REFRESH_EXPIRES_IN : option Z;
  TZ : Js.TimeZone
}.

(** ** JWTService (services/jwtService.js)

    A payload is a record, so the first guard of the two generators, on a
    payload that is not an object, has no counterpart here; [jwt.sign]
    does not throw in the model, so neither has the handler around it. *)

Module JWTService.

Record Payload := mkPayload {
  userId : string;
  email : string;
  role : string
}.

Record TokenPair := mkTokenPair {
  accessToken : Jwt.Token;
  refreshToken : Jwt.Token
}.

(** [x || d] on a string *)
Definition orElse (x d : string) : string := if Js.falsy x then d else x.

Definition generateAccessToken (env : Env) (now : Z) (payload : Payload)
  : Js.Result Jwt.Token :=
  if Js.falsy (userId payload) then
    Js.throw (Js.error "Payload must include userId")
  else if Js.falsy (email payload) then
    Js.throw (Js.error "Payload must include email")
  else
    let secret := JWT_ACCESS_SECRET env in
    if Js.falsy secret then
      Js.throw
        (Js.error "JWT_ACCESS_SECRET environment variable is required")
    else
      let expiresIn :=
        match JWT_ACCESS_EXPIRES_IN env with
        | Some s => s
        | None => 15 * 60
        end in
      Js.ret (Jwt.sign now
                (Jwt.mkBody (userId payload) (email payload)
                            (Some (orElse (role payload) "user")) "access")
                secret expiresIn "auth-service" "auth-client").

Definition generateRefreshToken (env : Env) (now : Z) (payload : Payload)
  : Js.Result Jwt.Token :=
  if Js.falsy (userId payload) then
    Js.throw (Js.error "Payload must include userId")
  else if Js.falsy (email payload) then
    Js.throw (Js.error "Payload must include email")
  else
    let secret := JWT_REFRESH_SECRET env in
    if Js.falsy secret then
      Js.throw
        (Js.error "JWT_REFRESH_SECRET environment variable is required")
    else
      let expiresIn :=
        match JWT_REFRESH_EXPIRES_IN env with
        | Some s => s
        | None => 7 * 24 * 60 * 60
        end in
      Js.ret (Jwt.sign now
                (Jwt.mkBody (userId payload) (email payload) None "refresh")
                secret expiresIn "auth-service" "auth-client").

Definition generateTokenPair (env : Env) (now : Z) (payload : Payload)
  : Js.Result TokenPair :=
  a <- generateAccessToken env now payload ;;
  r <- generateRefreshToken env now payload ;;
  Js.ret (mkTokenPair a r).

Definition verifyAccessToken (env : Env) (now : Z) (token : Jwt.Token)
  : Js.Result Jwt.Claims :=
  if Jwt.falsy token then
    Js.throw (Js.error "Token must be a non-empty string")
  else
    let secret := JWT_ACCESS_SECRET env in
    if Js.falsy secret then
      Js.throw
        (Js.error "JWT_ACCESS_SECRET environment variable is required")
    else
      let body :=
        decoded <- Jwt.verify now token secret "auth-service" "auth-client" ;;
        if negb (Jwt.type decoded =? "access")%string then
          Js.throw (Js.error "Invalid token type")
        else Js.ret decoded in
      match body with
      | inr decoded => Js.ret decoded
      | inl e =>
          if (Js.name e =? "TokenExpiredError")%string then
            Js.throw (Js.error "Access token has expired")
          else if (Js.name e =? "JsonWebTokenError")%string then
            Js.throw (Js.error "Invalid access token")
          else
            Js.throw (Js.error ("Failed to verify access token: "
                                  ++ Js.message e))
      end.

Definition verifyRefreshToken (env : Env) (now : Z) (token : Jwt.Token)
  : Js.Result Jwt.Claims :=
  if Jwt.falsy token then
    Js.throw (Js.error "Token must be a non-empty string")
  else
    let secret := JWT_REFRESH_SECRET env in
    if Js.falsy secret then
      Js.throw
        (Js.error "JWT_REFRESH_SECRET environment variable is required")
    else
      let body :=
        decoded <- Jwt.verify now token secret "auth-service" "auth-client" ;;
        if negb (Jwt.type decoded =? "refresh")%string then
          Js.throw (Js.error "Invalid token type")
        else Js.ret decoded in
      match body with
      | inr decoded => Js.ret decoded
      | inl e =>
          if (Js.name e =? "TokenExpiredError")%string then
            Js.throw (Js.error "Refresh token has expired")
          else if (Js.name e =? "JsonWebTokenError")%string then
            Js.throw (Js.error "Invalid refresh token")
          else
            Js.throw (Js.error ("Failed to verify refresh token: "
                                  ++ Js.message e))
      end.

(** [decodeToken]: [jwt.decode] does not throw, so the handler around it
    is never entered. *)
Definition decodeToken (token : Jwt.Token) : Js.Result (option Jwt.Claims) :=
  if Jwt.falsy token then
    Js.throw (Js.error "Token must be a non-empty string")
  else Js.ret (Jwt.decode token).

(** [isTokenExpired]: a payload whose [exp] is 0 counts as having none. *)
Definition isTokenExpired (now : Z) (token : Jwt.Token) : bool :=
  match decodeToken token with
  | inl _ => true
  | inr None => true
  | inr (Some payload) =>
      if Jwt.exp payload =? 0 then true
      else
        let currentTime := Jwt.seconds now in
        Jwt.exp payload <? currentTime
  end.

(** [getTokenExpiration]: the date [new Date(exp * 1000)], or [null] *)
Definition getTokenExpiration (token : Jwt.Token) : option Z :=
  match decodeToken token with
  | inl _ => None
  | inr None => None
  | inr (Some payload) =>
      if Jwt.exp payload =? 0 then None
      else Some (Jwt.exp payload * 1000)
  end.

(** [refreshTokens]: the rotation that does not look at the database *)
Definition refreshTokens (env : Env) (now : Z) (refreshToken : Jwt.Token)
  : Js.Result TokenPair :=
  decoded <- verifyRefreshToken env now refreshToken ;;
  let payload :=
    mkPayload (Jwt.userId decoded) (Jwt.email decoded)
              (match Jwt.role decoded with
               | Some r => r
               | None => ""
               end) in
  generateTokenPair env now payload.

End JWTService.

(** ** The database behind the Prisma client

    Two tables.  [email] is unique among users and [token] among refresh
    tokens (both are looked up with [findUnique]); a refresh token names
    its owner, who must exist.  Primary keys come from a counter: a user
    id is the string [cuid n], the key of a refresh-token row, which the
    services never read, is the number itself.  A nullable string column
    holds the empty string for [null]. *)

Module Prisma.

Record User := mkUser {
  id : string;
  email : string;
  password : string;
  firstName : string;
  lastName : string;
  profilePicture : string;
  provider : string;
  providerId : string;
  isEmailVerified : bool;
  lastLoginAt : option Z;
  createdAt : Z;
  updatedAt : Z
}.

Record RefreshToken := mkRefreshToken {
  rt_id : nat;
  token : Jwt.Token;
  userId : string;
  expiresAt : Z;
  isRevoked : bool;
  rt_createdAt : Z
}.

Record Db := mkDb {
  users : list User;
  refreshTokens : list RefreshToken;
  nextId : nat
}.

Definition cuid (n : nat) : string :=
  String "c" (NilZero.string_of_uint (Nat.to_uint n)).

(** A call on the client: it may change the database and it may throw. *)
Definition M (A : Type) : Type := Db -> Db * Js.Result A.

Definition ret {A} (a : A) : M A := fun db => (db, inr a).
Definition throw {A} (e : Js.Error) : M A := fun db => (db, inl e).
Definition lift {A} (r : Js.Result A) : M A := fun db => (db, r).

Definition bind {A B} (m : M A) (k : A -> M B) : M B :=
  fun db =>
    match m db with
    | (db', inl e) => (db', inl e)
    | (db', inr a) => k a db'
    end.

(** [try { body } catch (error) { handler }] *)
Definition tryCatch {A} (body : M A) (handler : Js.Error -> M A) : M A :=
  fun db =>
    match body db with
    | (db', inl e) => handler e db'
    | (db', inr a) => (db', inr a)
    end.

Definition knownRequestError (msg : string) : Js.Error :=
  Js.mkError "PrismaClientKnownRequestError" msg.

(** *** prisma.user *)

(** [findUnique({ where: { email } })] *)
Definition user_findUnique_email (e : string) : M (option User) :=
  fun db => (db, inr (find (fun u => (email u =? e)%string) (users db))).

(** [findFirst({ where: { providerId, provider } })].  Prisma leaves a
    filter whose value is [undefined] out of the query: without a
    provider id the first user of the provider is found. *)
Definition user_findFirst_provider (pid prov : string) : M (option User) :=
  fun db =>
    (db, inr (find (fun u => (Js.falsy pid || (providerId u =? pid)%string)
                             && (provider u =? prov)%string) (users db))).

(** The columns a caller may give to [create]. *)
Record UserData := mkUserData {
  d_email : string;
  d_password : string;
  d_firstName : string;
  d_lastName : string;
  d_profilePicture : string;
  d_provider : string;
  d_providerId : string;
  d_isEmailVerified : bool;
  d_lastLoginAt : option Z
}.

(** [create({ data })] *)
Definition user_create (now : Z) (d : UserData) : M User :=
  fun db =>
    if List.existsb (fun u => (email u =? d_email d)%string) (users db) then
      (db, inl (knownRequestError
                  "Invalid `prisma.user.create()` invocation: Unique constraint failed on the fields: (`email`)"))
    else
      let u := mkUser (cuid (nextId db)) (d_email d) (d_password d)
                      (d_firstName d) (d_lastName d) (d_profilePicture d)
                      (d_provider d) (d_providerId d) (d_isEmailVerified d)
                      (d_lastLoginAt d) now now in
      (mkDb (users db ++ [u]) (refreshTokens db) (S (nextId db)), inr u).

(** [update({ where: { id }, data })], the new columns given as a
    function of the old row *)
Definition user_update (now : Z) (i : string) (f : User -> User) : M User :=
  fun db =>
    match find (fun u => (id u =? i)%string) (users db) with
    | None =>
        (db, inl (knownRequestError
                    "Invalid `prisma.user.update()` invocation: Record to update not found."))
    | Some old =>
        let u := f old in
        let u := mkUser (id old) (email u) (password u) (firstName u)
                        (lastName u) (profilePicture u) (provider u)
                        (providerId u) (isEmailVerified u) (lastLoginAt u)
                        (createdAt old) now in
        (mkDb (map (fun x => if (id x =? i)%string then u else x) (users db))
              (refreshTokens db) (nextId db), inr u)
    end.

(** *** prisma.refreshToken *)

Definition revoke (r : RefreshToken) : RefreshToken :=
  mkRefreshToken (rt_id r) (token r) (userId r) (expiresAt r) true
                 (rt_createdAt r).

(** [findUnique({ where: { token } })] *)
Definition refreshToken_findUnique (t : Jwt.Token) : M (option RefreshToken) :=
  fun db =>
    (db, inr (find (fun r => Jwt.eqb (token r) t) (refreshTokens db))).

(** [findUnique({ where: { token }, include: { user: true } })] *)
Definition refreshToken_findUnique_user (t : Jwt.Token)
  : M (option (RefreshToken * option User)) :=
  fun db =>
    (db, inr (match find (fun r => Jwt.eqb (token r) t) (refreshTokens db) with
              | None => None
              | Some r =>
                  Some (r, find (fun u => (id u =? userId r)%string) (users db))
              end)).

(** [create({ data: { token, userId, expiresAt } })] *)
Definition refreshToken_create (now : Z) (t : Jwt.Token) (uid : string)
           (expires : Z) : M RefreshToken :=
  fun db =>
    if List.existsb (fun r => Jwt.eqb (token r) t) (refreshTokens db) then
      (db, inl (knownRequestError
                  "Invalid `prisma.refreshToken.create()` invocation: Unique constraint failed on the fields: (`token`)"))
    else if negb (List.existsb (fun u => (id u =? uid)%string) (users db)) then
      (db, inl (knownRequestError
                  "Invalid `prisma.refreshToken.create()` invocation: Foreign key constraint failed on the field: `userId`"))
    else
      let r := mkRefreshToken (nextId db) t uid expires false now in
      (mkDb (users db) (refreshTokens db ++ [r]) (S (nextId db)), inr r).

(** [update({ where: { token }, data: { isRevoked: true } })] *)
Definition refreshToken_update_revoke (t : Jwt.Token) : M RefreshToken :=
  fun db =>
    match find (fun r => Jwt.eqb (token r) t) (refreshTokens db) with
    | None =>
        (db, inl (knownRequestError
                    "Invalid `prisma.refreshToken.update()` invocation: Record to update not found."))
    | Some old =>
        (mkDb (users db)
              (map (fun r => if Jwt.eqb (token r) t then revoke r else r)
                   (refreshTokens db))
              (nextId db), inr (revoke old))
    end.

(** [updateMany({ where: { userId, isRevoked: false },
                  data: { isRevoked: true } })] *)
Definition refreshToken_updateMany_revoke (uid : string) : M nat :=
  fun db =>
    let hit r := (userId r =? uid)%string && negb (isRevoked r) in
    (mkDb (users db)
          (map (fun r => if hit r then revoke r else r) (refreshTokens db))
          (nextId db),
     inr (List.length (filter hit (refreshTokens db)))).

(** [deleteMany({ where: { OR: [{ expiresAt: { lt: now } },
                                 { isRevoked: true }] } })] *)
Definition refreshToken_deleteMany_stale (now : Z) : M nat :=
  fun db =>
    let hit r := (expiresAt r <? now) || isRevoked r in
    (mkDb (users db) (filter (fun r => negb (hit r)) (refreshTokens db))
          (nextId db),
     inr (List.length (filter hit (refreshTokens db)))).

(** [user.findUnique({ where: { id } })] *)
Definition user_findUnique_id (i : string) : M (option User) :=
  fun db => (db, inr (find (fun u => (id u =? i)%string) (users db))).

End Prisma.

Notation "x <~ m ;; k" := (Prisma.bind m (fun x => k))
  (at level 61, m at next level, right associativity).

(** ** AuthService (services/authService.js) *)

Module AuthService.

Import Prisma.

Record UserData := mkUserData {
  ud_email : string;
  ud_password : string;
  ud_firstName : string;
  ud_lastName : string
}.

Record Credentials := mkCredentials {
  cr_email : string;
  cr_password : string
}.

(** What the services answer: the message, and the user and the token
    pair when the answer carries them. *)
Record Response := mkResponse {
  message : string;
  user : option User;
  tokens : option JWTService.TokenPair;
  count : option nat
}.

(** The first [@] of a string and what stands on either side of it. *)
Fixpoint splitAtSign (s : string) : option (string * string) :=
  match s with
  | EmptyString => None
  | String c r =>
      if (c =? "@")%char then Some (EmptyString, r)
      else match splitAtSign r with
           | Some (a, b) => Some (String c a, b)
           | None => None
           end
  end.

(** [[^\s@]] *)
Definition plainChar (c : ascii) : bool :=
  negb (Js.isSpace c) && negb (c =? "@")%char.

Fixpoint allPlain (s : string) : bool :=
  match s with
  | EmptyString => true
  | String c r => plainChar c && allPlain r
  end.

(** A dot with at least one character after it. *)
Fixpoint dotBeforeLast (s : string) : bool :=
  match s with
  | EmptyString => false
  | String c r =>
      ((c =? ".")%char && negb (Js.falsy r)) || dotBeforeLast r
  end.

(** [/^[^\s@]+@[^\s@]+\.[^\s@]+$/.test(email)] *)
Definition emailRegex_test (email : string) : bool :=
  match splitAtSign email with
  | None => false
  | Some (loc, dom) =>
      negb (Js.falsy loc) && allPlain loc && allPlain dom
      && match dom with
         | EmptyString => false
         | String _ r => dotBeforeLast r
         end
  end.

Definition withoutPassword (u : User) : User :=
  mkUser (id u) (email u) "" (firstName u) (lastName u) (profilePicture u)
         (provider u) (providerId u) (isEmailVerified u) (lastLoginAt u)
         (createdAt u) (updatedAt u).

Definition decimal (n : nat) : string :=
  NilZero.string_of_uint (Nat.to_uint n).

Section Service.

Variable bcrypt_hash : string -> string -> Z -> string.
Variable bcrypt_compare : string -> string -> bool.
Variable env : Env.

(** [const refreshTokenExpiry = new Date();
     refreshTokenExpiry.setDate(refreshTokenExpiry.getDate() + 7)]:
    seven days on, by the local calendar. *)
Definition refreshTokenExpiry (now : Z) : Z := Js.addDays (TZ env) now 7.

Definition register (now : Z) (salt : string) (userData : UserData)
  : M Response :=
  let email := ud_email userData in
  let password := ud_password userData in
  let firstName := ud_firstName userData in
  let lastName := ud_lastName userData in
  if Js.falsy email || Js.falsy password
     || Js.falsy firstName || Js.falsy lastName then
    throw (Js.error "Email, password, firstName, and lastName are required")
  else if negb (emailRegex_test email) then
    throw (Js.error "Invalid email format")
  else
    let passwordValidation :=
      PasswordService.validatePasswordStrength password in
    if negb (PasswordService.isValid passwordValidation) then
      throw (Js.error
               ("Password validation failed: "
                  ++ Js.join ", " (PasswordService.errors passwordValidation)))
    else
      tryCatch
        (existingUser <~ user_findUnique_email (Js.toLowerCase email) ;;
         match existingUser with
         | Some _ => throw (Js.error "User with this email already exists")
         | None =>
             hashedPassword <~
               lift (PasswordService.hashPassword bcrypt_hash salt password) ;;
             user <~ user_create now
                       (Prisma.mkUserData (Js.toLowerCase email)
                          hashedPassword (Js.trim firstName)
                          (Js.trim lastName) "" "local" "" false None) ;;
             tokens <~
               lift (JWTService.generateTokenPair env now
                       (JWTService.mkPayload (id user) (Prisma.email user) "")) ;;
             _ <~ refreshToken_create now (JWTService.refreshToken tokens)
                    (id user) (refreshTokenExpiry now) ;;
             ret (mkResponse "User registered successfully"
                    (Some (withoutPassword user)) (Some tokens) None)
         end)
        (fun error =>
           if Js.includes (Js.message error) "already exists"
              || Js.includes (Js.message error) "validation failed"
              || Js.includes (Js.message error) "Invalid email" then
             throw error
           else
             throw (Js.error ("Registration failed: " ++ Js.message error))).

(** Inside the [try] block of [login] the name [password] is the constant
    the block declares at its end, [const { password,
    ...userWithoutPassword } = user], not the password of the caller: the
    constant is in scope from the top of the block, and reading it before
    its declaration has run throws. *)
Definition password_of_the_block : M string :=
  throw (Js.mkError "ReferenceError"
           "Cannot access 'password' before initialization").

Definition login (now : Z) (credentials : Credentials) : M Response :=
  let email := cr_email credentials in
  let password := cr_password credentials in
  if Js.falsy email || Js.falsy password then
    throw (Js.error "Email and password are required")
  else
    tryCatch
      (found <~ user_findUnique_email (Js.toLowerCase email) ;;
       match found with
       | None => throw (Js.error "Invalid email or password")
       | Some user =>
           if Js.falsy (Prisma.password user) then
             throw (Js.error
                      "This account uses OAuth authentication. Please login with Google.")
           else
             password <~ password_of_the_block ;;
             isPasswordValid <~
               lift (PasswordService.comparePassword bcrypt_compare
                       password (Prisma.password user)) ;;
             if negb isPasswordValid then
               throw (Js.error "Invalid email or password")
             else
               _ <~ user_update now (id user)
                      (fun u =>
                         mkUser (id u) (Prisma.email u) (Prisma.password u)
                                (Prisma.firstName u) (Prisma.lastName u)
                                (profilePicture u) (provider u)
                                (providerId u) (isEmailVerified u)
                                (Some now) (createdAt u) (updatedAt u)) ;;
               tokens <~
                 lift (JWTService.generateTokenPair env now
                         (JWTService.mkPayload (id user) (Prisma.email user) "")) ;;
               _ <~ refreshToken_create now (JWTService.refreshToken tokens)
                      (id user) (refreshTokenExpiry now) ;;
               ret (mkResponse "Login successful"
                      (Some (withoutPassword user)) (Some tokens) None)
       end)
      (fun error =>
         if Js.includes (Js.message error) "Invalid email"
            || Js.includes (Js.message error) "OAuth authentication" then
           throw error
         else throw (Js.error ("Login failed: " ++ Js.message error))).

Definition logout (now : Z) (refreshToken : Jwt.Token) : M Response :=
  if Jwt.falsy refreshToken then
    throw (Js.error "Refresh token is required")
  else
    tryCatch
      (_ <~ lift (JWTService.verifyRefreshToken env now refreshToken) ;;
       tokenRecord <~ refreshToken_findUnique refreshToken ;;
       match tokenRecord with
       | None => throw (Js.error "Invalid refresh token")
       | Some r =>
           if isRevoked r then throw (Js.error "Token already revoked")
           else
             _ <~ refreshToken_update_revoke refreshToken ;;
             ret (mkResponse "Logout successful" None None None)
       end)
      (fun error =>
         if Js.includes (Js.message error) "Invalid refresh token"
            || Js.includes (Js.message error) "already revoked" then
           throw error
         else throw (Js.error ("Logout failed: " ++ Js.message error))).

Definition refreshToken (now : Z) (refreshToken : Jwt.Token) : M Response :=
  if Jwt.falsy refreshToken then
    throw (Js.error "Refresh token is required")
  else
    tryCatch
      (_ <~ lift (JWTService.verifyRefreshToken env now refreshToken) ;;
       tokenRecord <~ refreshToken_findUnique_user refreshToken ;;
       match tokenRecord with
       | None => throw (Js.error "Invalid refresh token")
       | Some (r, owner) =>
           if isRevoked r then
             throw (Js.error "Refresh token has been revoked")
           else if expiresAt r <? now then
             throw (Js.error "Refresh token has expired")
           else
             _ <~ refreshToken_update_revoke refreshToken ;;
             match owner with
             | None =>
                 throw (Js.mkError "TypeError"
                          "Cannot read properties of null (reading 'id')")
             | Some u =>
                 newTokens <~
                   lift (JWTService.generateTokenPair env now
                           (JWTService.mkPayload (id u) (Prisma.email u) "")) ;;
                 _ <~ refreshToken_create now
                        (JWTService.refreshToken newTokens)
                        (id u) (refreshTokenExpiry now) ;;
                 ret (mkResponse "Token refreshed successfully"
                        None (Some newTokens) None)
             end
       end)
      (fun error =>
         if Js.includes (Js.message error) "Invalid refresh token"
            || Js.includes (Js.message error) "revoked"
            || Js.includes (Js.message error) "expired" then
           throw error
         else
           throw (Js.error ("Token refresh failed: " ++ Js.message error))).

Definition revokeAllTokens (userId : string) : M Response :=
  if Js.falsy userId then throw (Js.error "User ID is required")
  else
    tryCatch
      (n <~ refreshToken_updateMany_revoke userId ;;
       ret (mkResponse ("Revoked " ++ decimal n ++ " refresh tokens")
              None None (Some n)))
      (fun error =>
         throw (Js.error ("Failed to revoke tokens: " ++ Js.message error))).

Definition cleanupExpiredTokens (now : Z) : M Response :=
  tryCatch
    (n <~ refreshToken_deleteMany_stale now ;;
     ret (mkResponse
            ("Cleaned up " ++ decimal n ++ " expired/revoked tokens")
            None None (Some n)))
    (fun error =>
       throw (Js.error ("Failed to cleanup tokens: " ++ Js.message error))).

End Service.

End AuthService.

(** ** OAuthService (services/oauthService.js): from a profile to a user *)

Module OAuthService.

Import Prisma.

(** The profile passport hands over: its [id], the empty string when it
    has none, [emails] and [photos] as the lists of their [value]s,
    [name.givenName] and [name.familyName]. *)
Record Profile := mkProfile {
  p_id : string;
  emails : list string;
  givenName : string;
  familyName : string;
  displayName : string;
  photos : list string
}.

(** [s.split(' ')] *)
Fixpoint split (s : string) : list string :=
  match s with
  | EmptyString => [EmptyString]
  | String c r =>
      if (c =? " ")%char then EmptyString :: split r
      else match split r with
           | h :: t => String c h :: t
           | [] => [String c EmptyString]
           end
  end.

(** [profile.photos?.[0]?.value] *)
Definition photo (profile : Profile) : string := hd "" (photos profile).

Definition createOAuthUser (now : Z) (email providerId provider : string)
           (profile : Profile) : M User :=
  tryCatch
    (let userData :=
       Prisma.mkUserData email ""
         (JWTService.orElse (givenName profile)
            (JWTService.orElse (hd "" (split (displayName profile))) "User"))
         (JWTService.orElse (familyName profile)
            (Js.join " " (tl (split (displayName profile)))))
         (photo profile) provider providerId true (Some now) in
     u <~ user_create now userData ;;
     ret (AuthService.withoutPassword u))
    (fun error =>
       throw (Js.error ("OAuth user creation failed: " ++ Js.message error))).

Definition updateOAuthUser (now : Z) (userId : string) (profile : Profile)
  : M User :=
  tryCatch
    (u <~ user_update now userId
            (fun u =>
               mkUser (id u) (email u) (password u)
                      (JWTService.orElse (givenName profile) (firstName u))
                      (JWTService.orElse (familyName profile) (lastName u))
                      (JWTService.orElse (photo profile) (profilePicture u))
                      (provider u) (providerId u) (isEmailVerified u)
                      (Some now) (createdAt u) (updatedAt u)) ;;
     ret (AuthService.withoutPassword u))
    (fun error =>
       throw (Js.error ("OAuth user update failed: " ++ Js.message error))).

(** [update] skips the columns whose value in [data] is [undefined]:
    without a provider id the column stays as it is. *)
Definition linkOAuthAccount (now : Z) (userId providerId provider : string)
           (profile : Profile) : M User :=
  tryCatch
    (u <~ user_update now userId
            (fun u =>
               mkUser (id u) (email u) (password u) (firstName u) (lastName u)
                      (JWTService.orElse (photo profile) (profilePicture u))
                      provider
                      (if Js.falsy providerId then Prisma.providerId u
                       else providerId)
                      true
                      (Some now) (createdAt u) (updatedAt u)) ;;
     ret (AuthService.withoutPassword u))
    (fun error =>
       throw (Js.error ("OAuth account linking failed: " ++ Js.message error))).

Definition findOrCreateOAuthUser (now : Z) (email providerId provider : string)
           (profile : Profile) : M User :=
  tryCatch
    (byProvider <~ user_findFirst_provider providerId provider ;;
     match byProvider with
     | Some u => updateOAuthUser now (id u) profile
     | None =>
         byEmail <~ user_findUnique_email email ;;
         match byEmail with
         | Some u => linkOAuthAccount now (id u) providerId provider profile
         | None => createOAuthUser now email providerId provider profile
         end
     end)
    (fun error =>
       throw (Js.error ("User lookup/creation failed: " ++ Js.message error))).

Definition processOAuthProfile (now : Z) (profile : Profile)
           (provider : string) : M User :=
  tryCatch
    (if Js.falsy (hd "" (emails profile)) then
       throw (Js.error "Email is required from OAuth provider")
     else
       let email := hd "" (emails profile) in
       let providerId := p_id profile in
       findOrCreateOAuthUser now email providerId provider profile)
    (fun error =>
       throw (Js.error ("OAuth profile processing failed: "
                          ++ Js.message error))).

(** What [generateOAuthTokens] answers *)
Record OAuthTokens := mkOAuthTokens {
  accessToken : Jwt.Token;
  refreshToken : Jwt.Token;
  user : User
}.

(** The user object read as a token payload, as [generateOAuthTokens]
    passes it on: it has an [email], and neither a [userId] nor a [role]
    property. *)
Definition payloadOfUser (u : User) : JWTService.Payload :=
  JWTService.mkPayload "" (Prisma.email u) "".

Definition generateOAuthTokens (env : Env) (now : Z) (u : User)
  : M OAuthTokens :=
  tryCatch
    (a <~ lift (JWTService.generateAccessToken env now (payloadOfUser u)) ;;
     r <~ lift (JWTService.generateRefreshToken env now (payloadOfUser u)) ;;
     _ <~ refreshToken_create now r (id u) (now + 7 * 24 * 60 * 60 * 1000) ;;
     ret (mkOAuthTokens a r (AuthService.withoutPassword u)))
    (fun error =>
       throw (Js.error ("Token generation failed: " ++ Js.message error))).

Definition handleOAuthAuthentication (env : Env) (now : Z) (profile : Profile)
           (provider : string) : M OAuthTokens :=
  tryCatch
    (u <~ processOAuthProfile now profile provider ;;
     generateOAuthTokens env now u)
    (fun error =>
       throw (Js.error ("OAuth authentication failed: " ++ Js.message error))).

Definition unlinkOAuthAccount (now : Z) (userId : string) : M User :=
  tryCatch
    (found <~ user_findUnique_id userId ;;
     match found with
     | None => throw (Js.error "User not found")
     | Some u =>
         if Js.falsy (password u) then
           throw (Js.error
                    "Cannot unlink OAuth account without setting a password first")
         else
           updatedUser <~ user_update now userId
                            (fun u =>
                               mkUser (id u) (email u) (password u)
                                      (firstName u) (lastName u)
                                      (profilePicture u) "local" ""
                                      (isEmailVerified u) (lastLoginAt u)
                                      (createdAt u) (updatedAt u)) ;;
           ret (AuthService.withoutPassword updatedUser)
     end)
    (fun error =>
       throw (Js.error ("OAuth account unlinking failed: "
                          ++ Js.message error))).

End OAuthService.

(** ** AuthController.refreshToken: the status of a failed refresh *)

Module AuthController.

Definition refreshStatus (error : Js.Error) : Z :=
  if Js.includes (Js.message error) "Invalid refresh token"
     || Js.includes (Js.message error) "revoked"
     || Js.includes (Js.message error) "expired" then 401
  else 500.

(** The status of a failed login *)
Definition loginStatus (error : Js.Error) : Z :=
  if Js.includes (Js.message error) "Invalid email"
     || Js.includes (Js.message error) "OAuth authentication" then 401
  else if Js.includes (Js.message error) "required" then 400
  else 500.

(** The status of a failed logout *)
Definition logoutStatus (error : Js.Error) : Z :=
  if Js.includes (Js.message error) "Invalid refresh token"
     || Js.includes (Js.message error) "already revoked" then 400
  else 500.

(** The status of a failed registration *)
Definition registerStatus (error : Js.Error) : Z :=
  if Js.includes (Js.message error) "already exists" then 409
  else if Js.includes (Js.message error) "validation failed"
          || Js.includes (Js.message error) "Invalid email"
          || Js.includes (Js.message error) "required" then 400
  else 500.

(** OAuthController.unlinkOAuthAccount: the status of a failed unlink *)
Definition unlinkStatus (error : Js.Error) : Z :=
  if Js.includes (Js.message error) "User not found" then 404
  else if Js.includes (Js.message error) "Cannot unlink"
          || Js.includes (Js.message error) "password first" then 400
  else 500.

End AuthController.

(** ** The authentication middleware (middleware/auth.js) *)

Module AuthMiddleware.

(** The two places a request carries its access token: the second word of
    the [Authorization] header and the [accessToken] cookie, each the
    empty string when there is none. *)
Record Request := mkRequest {
  bearer : Jwt.Token;
  cookie : Jwt.Token
}.

(** [req.user] *)
Record ReqUser := mkReqUser {
  id : string;
  email : string;
  iat : Z;
  exp : Z
}.

(** A middleware answers the request or hands it on, with or without a
    user. *)
Inductive Outcome :=
| Respond (status : Z) (code message : string)
| Next (user : option ReqUser).

Definition tokenOf (req : Request) : Jwt.Token :=
  if Jwt.falsy (bearer req) then cookie req else bearer req.

Definition reqUser (decoded : Jwt.Claims) : ReqUser :=
  mkReqUser (Jwt.userId decoded) (Jwt.email decoded)
            (Jwt.iat decoded) (Jwt.exp decoded).

Definition authenticateToken (env : Env) (now : Z) (req : Request) : Outcome :=
  let token := tokenOf req in
  if Jwt.falsy token then
    Respond 401 "MISSING_TOKEN" "Access token is required"
  else
    match Jwt.verifyPlain now token (JWT_ACCESS_SECRET env) with
    | inl err =>
        if (Js.name err =? "TokenExpiredError")%string then
          Respond 403 "TOKEN_EXPIRED" "Token has expired"
        else if (Js.name err =? "JsonWebTokenError")%string then
          Respond 403 "MALFORMED_TOKEN" "Malformed token"
        else Respond 403 "INVALID_TOKEN" "Invalid or expired token"
    | inr decoded => Next (Some (reqUser decoded))
    end.

Definition optionalAuth (env : Env) (now : Z) (req : Request) : Outcome :=
  let token := tokenOf req in
  if Jwt.falsy token then Next None
  else
    match Jwt.verifyPlain now token (JWT_ACCESS_SECRET env) with
    | inl _ => Next None
    | inr decoded => Next (Some (reqUser decoded))
    end.

End AuthMiddleware.

(** ** A concrete world to run the services in *)

Module Sample.

(** A stand-in for bcrypt: the hash records salt and plain text. *)
Definition bcrypt_hash (salt plain : string) (rounds : Z) : string :=
  "$2b$" ++ salt ++ "$" ++ plain.

Definition bcrypt_compare (plain hashed : string) : bool :=
  match index 0 "$" (substring 4 (String.length hashed) hashed) with
  | Some n =>
      (substring (4 + n + 1) (String.length hashed) hashed =? plain)%string
  | None => false
  end.

(** The test set-up of the repository, on a host that keeps UTC *)
Definition env : Env :=
  mkEnv "test-access-secret-key" "test-refresh-secret-key"
        (Some (15 * 60)) (Some (7 * 24 * 60 * 60)) Js.utc.

Definition empty : Prisma.Db := Prisma.mkDb [] [] 0.

Definition alice : AuthService.UserData :=
  AuthService.mkUserData "Alice@Example.com" "Aa1!aaaa" " Alice " "A".

Definition t0 : Z := 1700000000000.

Definition registration : Prisma.Db * Js.Result AuthService.Response :=
  AuthService.register bcrypt_hash env t0 "s" alice empty.

Definition registered : Prisma.Db := fst registration.

(** The refresh token of an answer *)
Definition refreshTokenOf (r : Js.Result AuthService.Response) : Jwt.Token :=
  match r with
  | inr resp =>
      match AuthService.tokens resp with
      | Some tp => JWTService.refreshToken tp
      | None => Jwt.Opaque ""
      end
  | inl _ => Jwt.Opaque ""
  end.

Definition token1 : Jwt.Token := refreshTokenOf (snd registration).

(** A second session, opened five seconds later by the registration of
    a second account ... *)
Definition carol : AuthService.UserData :=
  AuthService.mkUserData "carol@example.com" "Cc3#cccc" "Carol" "C".

Definition secondRegistration : Prisma.Db * Js.Result AuthService.Response :=
  AuthService.register bcrypt_hash env (t0 + 5000) "s" carol registered.

Definition twoSessions : Prisma.Db := fst secondRegistration.

Definition token2 : Jwt.Token := refreshTokenOf (snd secondRegistration).

(** ... and the first one closed. *)
Definition oneRevoked : Prisma.Db :=
  fst (AuthService.logout env (t0 + 6000) token1 twoSessions).

(** The access token of an answer *)
Definition accessTokenOf (r : Js.Result AuthService.Response) : Jwt.Token :=
  match r with
  | inr resp =>
      match AuthService.tokens resp with
      | Some tp => JWTService.accessToken tp
      | None => Jwt.Opaque ""
      end
  | inl _ => Jwt.Opaque ""
  end.

Definition access1 : Jwt.Token := accessTokenOf (snd registration).

(** An address that begins with a capital A with grave accent, U+00C0,
    and the same address with the small letter, U+00E0 *)
Definition ada : AuthService.UserData :=
  AuthService.mkUserData (String (ascii_of_nat 192) "da@Example.com")
                         "Aa1!aaaa" "Ada" "A".

Definition adaSmall : AuthService.UserData :=
  AuthService.mkUserData (String (ascii_of_nat 224) "da@example.com")
                         "Zz9?zzzz" "Ada" "A".

(** A deployment that signs both kinds of token with one secret *)
Definition sharedEnv : Env :=
  mkEnv "one-secret" "one-secret" None None Js.utc.




(** A first sign-in with Google *)
Definition bob : OAuthService.Profile :=
  OAuthService.mkProfile "google-bob" ["bob@example.com"]
                         "Bob" "Builder" "Bob Builder" ["https://pic/bob"].

Definition withBob : Prisma.Db :=
  fst (OAuthService.processOAuthProfile (t0 + 1000) bob "google" registered).

(** Alice signs in with Google under her registered address *)
Definition aliceGoogle : OAuthService.Profile :=
  OAuthService.mkProfile "google-alice" ["alice@example.com"]
                         "" "" "" [].

Definition aliceLinked : Prisma.Db :=
  fst (OAuthService.processOAuthProfile (t0 + 2000) aliceGoogle "google"
         registered).

End Sample.

(** ** The session protocol, in the words of the specification *)

Module Protocol.

Import Prisma.

(** A row is ACTIVE while it is not revoked and its expiry lies ahead. *)
Definition active (now : Z) (r : RefreshToken) : bool :=
  negb (isRevoked r) && (now <? expiresAt r).

(** What the maintenance sweep removes: revoked, or past its expiry. *)
Definition stale (now : Z) (r : RefreshToken) : bool :=
  (expiresAt r <? now) || isRevoked r.

(** The operations of the session manager. *)
Inductive Op :=
| Register (now : Z) (salt : string) (userData : AuthService.UserData)
| Login (now : Z) (credentials : AuthService.Credentials)
| Logout (now : Z) (refreshToken : Jwt.Token)
| Refresh (now : Z) (refreshToken : Jwt.Token)
| RevokeAllSessions (userId : string)
| PurgeExpired (now : Z).

Section Run.

Variable bcrypt_hash : string -> string -> Z -> string.
Variable bcrypt_compare : string -> string -> bool.
Variable env : Env.

Definition step (op : Op) : M AuthService.Response :=
  match op with
  | Register now salt userData =>
      AuthService.register bcrypt_hash env now salt userData
  | Login now credentials =>
      AuthService.login bcrypt_compare env now credentials
  | Logout now t => AuthService.logout env now t
  | Refresh now t => AuthService.refreshToken env now t
  | RevokeAllSessions userId => AuthService.revokeAllTokens userId
  | PurgeExpired now => AuthService.cleanupExpiredTokens now
  end.

(** The database after a sequence of operations, whatever each of them
    answered. *)
Fixpoint run (ops : list Op) (db : Db) : Db :=
  match ops with
  | [] => db
  | op :: rest => run rest (fst (step op db))
  end.

End Run.

(** Keys come from the counter and no two rows share one. *)
Definition wellKeyed (db : Db) : Prop :=
  (forall r, In r (refreshTokens db) -> (rt_id r < nextId db)%nat)
  /\ NoDup (map rt_id (refreshTokens db)).

(** The rows of [db'] that [db] knows, by key, are the rows of [db] with
    the same token, owner and expiry, and still revoked if they were. *)
Definition descends (db db' : Db) : Prop :=
  (nextId db <= nextId db')%nat
  /\ forall r', In r' (refreshTokens db') -> (rt_id r' < nextId db)%nat ->
       exists r, In r (refreshTokens db)
                 /\ rt_id r = rt_id r'
                 /\ token r' = token r
                 /\ userId r' = userId r
                 /\ expiresAt r' = expiresAt r
                 /\ (isRevoked r = true -> isRevoked r' = true).

(** The two constraints of the schema on the refresh-token table: every
    row has an owner among the users, and no two rows hold the same
    token. *)
Definition integrity (db : Db) : Prop :=
  (forall r, In r (refreshTokens db) ->
             exists u, In u (users db) /\ id u = userId r)
  /\ NoDup (map token (refreshTokens db)).

(** The ids of the users come from the counter and no two users share
    one. *)
Definition userKeyed (db : Db) : Prop :=
  (forall u, In u (users db) ->
             exists n, (n < nextId db)%nat /\ id u = cuid n)
  /\ NoDup (map id (users db)).

(** A client call keeps a property of the database. *)
Definition keeps (I : Db -> Prop) {A} (m : M A) : Prop :=
  forall db, I db -> I (fst (m db)).

(** A client call keeps the keys in order and every row it keeps
    descends from the row it was. *)
Definition preserves {A} (m : M A) : Prop :=
  forall db, wellKeyed db ->
             wellKeyed (fst (m db)) /\ descends db (fst (m db)).

End Protocol.

(** * Properties *)

(** ** Token equality *)

Lemma option_eqb_eq (a b : option string) :
  Jwt.option_eqb a b = true <-> a = b.
Proof.
  destruct a as [x|], b as [y|]; simpl; try (split; congruence).
  rewrite String.eqb_eq. split; congruence.
Qed.

Lemma claims_eqb_eq (a b : Jwt.Claims) : Jwt.claims_eqb a b = true <-> a = b.
Proof.
  unfold Jwt.claims_eqb. destruct a, b; simpl.
  rewrite !andb_true_iff, !String.eqb_eq, !Z.eqb_eq, option_eqb_eq.
  split.
  - intros [[[[[[[-> ->] ->] ->] ->] ->] ->] ->]. reflexivity.
  - intros H. injection H as -> -> -> -> -> -> -> ->. repeat split.
Qed.

Lemma token_eqb_eq (a b : Jwt.Token) : Jwt.eqb a b = true <-> a = b.
Proof.
  destruct a as [c k|s], b as [c' k'|s']; simpl;
    try (split; [discriminate | congruence]).
  - rewrite andb_true_iff, claims_eqb_eq, String.eqb_eq.
    split; [intros [-> ->]; reflexivity | intros H; injection H; auto].
  - rewrite String.eqb_eq. split; congruence.
Qed.

Lemma token_eqb_neq (a b : Jwt.Token) : Jwt.eqb a b = false <-> a <> b.
Proof.
  rewrite <- token_eqb_eq. destruct (Jwt.eqb a b); split; congruence.
Qed.

(** ** Password strength *)

Section Strength.

Import PasswordService.

Lemma length_lt_8 (s : string) :
  (Z.of_nat (String.length s) <? 8) = (String.length s <? 8)%nat.
Proof.
  destruct (Nat.ltb_spec (String.length s) 8);
    [apply Z.ltb_lt | apply Z.ltb_ge]; lia.
Qed.

Lemma length_gt_128 (s : string) :
  (Z.of_nat (String.length s) >? 128) = (128 <? String.length s)%nat.
Proof.
  rewrite Z.gtb_ltb.
  destruct (Nat.ltb_spec 128 (String.length s));
    [apply Z.ltb_lt | apply Z.ltb_ge]; lia.
Qed.

(** On a non-empty password the pushes of the source collect the
    messages of the violated rules, in the order of the rules. *)
Lemma validate_nonempty (password : string) :
  Js.falsy password = false ->
  errors (validatePasswordStrength password)
  = map ruleMessage (filter (fun r => violated r password) allRules).
Proof.
  intros Hne. unfold validatePasswordStrength. rewrite Hne.
  cbv zeta. rewrite length_lt_8, length_gt_128.
  unfold allRules, violated, filter.
  destruct (String.length password <? 8)%nat,
           (128 <? String.length password)%nat,
           (Js.existsb Js.isLower password),
           (Js.existsb Js.isUpper password),
           (Js.existsb Js.isDigit password),
           (Js.existsb isSpecial password); reflexivity.
Qed.

Lemma validate_isValid (password : string) :
  isValid (validatePasswordStrength password) = true
  <-> errors (validatePasswordStrength password) = [].
Proof.
  unfold validatePasswordStrength.
  destruct (Js.falsy password); simpl.
  - split; discriminate.
  - cbv zeta. cbn [isValid errors].
    rewrite Nat.eqb_eq. apply length_zero_iff_nil.
Qed.


End Strength.



(** ** Token kinds *)

Lemma generateRefreshToken_inv env now payload t :
  JWTService.generateRefreshToken env now payload = inr t ->
  Js.falsy (JWT_REFRESH_SECRET env) = false
  /\ exists c, t = Jwt.Signed c (JWT_REFRESH_SECRET env)
               /\ Jwt.type c = "refresh" /\ Jwt.role c = None
               /\ Jwt.userId c = JWTService.userId payload
               /\ Jwt.email c = JWTService.email payload
               /\ Jwt.iat c = Jwt.seconds now
               /\ Jwt.iss c = "auth-service" /\ Jwt.aud c = "auth-client".
Proof.
  unfold JWTService.generateRefreshToken.
  destruct (Js.falsy (JWTService.userId payload)); [discriminate |].
  destruct (Js.falsy (JWTService.email payload)); [discriminate |].
  destruct (Js.falsy (JWT_REFRESH_SECRET env)); [discriminate |].
  intros H. injection H as <-. split; [reflexivity |].
  eexists. split; [reflexivity |]. simpl. repeat split.
Qed.

Lemma generateAccessToken_inv env now payload t :
  JWTService.generateAccessToken env now payload = inr t ->
  Js.falsy (JWT_ACCESS_SECRET env) = false
  /\ exists c, t = Jwt.Signed c (JWT_ACCESS_SECRET env)
               /\ Jwt.type c = "access"
               /\ Jwt.role c
                  = Some (JWTService.orElse (JWTService.role payload) "user")
               /\ Jwt.userId c = JWTService.userId payload
               /\ Jwt.email c = JWTService.email payload
               /\ Jwt.iat c = Jwt.seconds now
               /\ Jwt.iss c = "auth-service" /\ Jwt.aud c = "auth-client".
Proof.
  unfold JWTService.generateAccessToken.
  destruct (Js.falsy (JWTService.userId payload)); [discriminate |].
  destruct (Js.falsy (JWTService.email payload)); [discriminate |].
  destruct (Js.falsy (JWT_ACCESS_SECRET env)); [discriminate |].
  intros H. injection H as <-. split; [reflexivity |].
  eexists. split; [reflexivity |]. simpl. repeat split.
Qed.

(** With two different secrets the signature check of [jwt.verify] rejects
    a token of the other kind before its [type] is looked at. *)
Lemma verifyAccessToken_of_refresh_token env now now' payload t :
  JWT_ACCESS_SECRET env <> JWT_REFRESH_SECRET env ->
  Js.falsy (JWT_ACCESS_SECRET env) = false ->
  JWTService.generateRefreshToken env now payload = inr t ->
  JWTService.verifyAccessToken env now' t
  = inl (Js.error "Invalid access token").
Proof.
  intros Hne Ha Hgen.
  destruct (generateRefreshToken_inv _ _ _ _ Hgen) as [_ [c [-> _]]].
  unfold JWTService.verifyAccessToken, Jwt.verify. simpl. rewrite Ha.
  destruct (String.eqb_spec (JWT_REFRESH_SECRET env) (JWT_ACCESS_SECRET env))
    as [E | _]; [congruence | reflexivity].
Qed.

Lemma verifyRefreshToken_of_access_token env now now' payload t :
  JWT_ACCESS_SECRET env <> JWT_REFRESH_SECRET env ->
  Js.falsy (JWT_REFRESH_SECRET env) = false ->
  JWTService.generateAccessToken env now payload = inr t ->
  JWTService.verifyRefreshToken env now' t
  = inl (Js.error "Invalid refresh token").
Proof.
  intros Hne Hr Hgen.
  destruct (generateAccessToken_inv _ _ _ _ Hgen) as [_ [c [-> _]]].
  unfold JWTService.verifyRefreshToken, Jwt.verify. simpl. rewrite Hr.
  destruct (String.eqb_spec (JWT_ACCESS_SECRET env) (JWT_REFRESH_SECRET env))
    as [E | _]; [congruence | reflexivity].
Qed.

(** When both kinds are signed with one secret the [type] test is reached;
    its error is caught by the handler of the same function and leaves as
    a failure to verify. *)
Lemma verifyAccessToken_of_refresh_token_shared_secret env now now' payload t :
  JWT_ACCESS_SECRET env = JWT_REFRESH_SECRET env ->
  Jwt.seconds now' < Jwt.seconds now
                     + match JWT_REFRESH_EXPIRES_IN env with
                       | Some s => s
                       | None => 7 * 24 * 60 * 60
                       end ->
  JWTService.generateRefreshToken env now payload = inr t ->
  JWTService.verifyAccessToken env now' t
  = inl (Js.error "Failed to verify access token: Invalid token type").
Proof.
  intros He Hlive Hgen.
  unfold JWTService.generateRefreshToken in Hgen.
  destruct (Js.falsy (JWTService.userId payload)); [discriminate |].
  destruct (Js.falsy (JWTService.email payload)); [discriminate |].
  destruct (Js.falsy (JWT_REFRESH_SECRET env)) eqn:Hs; [discriminate |].
  injection Hgen as <-.
  unfold JWTService.verifyAccessToken, Jwt.verify, Jwt.sign. simpl.
  rewrite He, Hs, String.eqb_refl. simpl.
  destruct (Z.leb_spec
              (Jwt.seconds now + match JWT_REFRESH_EXPIRES_IN env with
                                 | Some s => s
                                 | None => 604800
                                 end) (Jwt.seconds now')) as [Hle | _].
  - simpl in Hlive. lia.
  - reflexivity.
Qed.

(** C3, at the secrets of the repository's own test setup and its test
    subject: verifying a refresh token as an access token, and an access
    token as a refresh token, fails with the error of a malformed token,
    [Invalid access token] and [Invalid refresh token]; neither message
    mentions the token type. *)
Theorem wrong_kind_reported_as_malformed :
  let subject := JWTService.mkPayload "test-user-id" "test@example.com" "" in
  (exists r,
      JWTService.generateRefreshToken Sample.env Sample.t0 subject = inr r
      /\ JWTService.verifyAccessToken Sample.env Sample.t0 r
         = inl (Js.error "Invalid access token")
      /\ JWTService.verifyAccessToken Sample.env Sample.t0 r
         = JWTService.verifyAccessToken Sample.env Sample.t0
             (Jwt.Opaque "invalid.token.here"))
  /\ (exists a,
         JWTService.generateAccessToken Sample.env Sample.t0 subject = inr a
         /\ JWTService.verifyRefreshToken Sample.env Sample.t0 a
            = inl (Js.error "Invalid refresh token")
         /\ JWTService.verifyRefreshToken Sample.env Sample.t0 a
            = JWTService.verifyRefreshToken Sample.env Sample.t0
                (Jwt.Opaque "invalid.token.here"))
  /\ Js.includes "Invalid access token" "Invalid token type" = false
  /\ Js.includes "Invalid refresh token" "Invalid token type" = false.
Proof.
  cbv zeta. split; [| split; [| split]].
  - eexists. split; [reflexivity |]. split; reflexivity.
  - eexists. split; [reflexivity |]. split; reflexivity.
  - reflexivity.
  - reflexivity.
Qed.

(** ** Login failures *)

Ltac run_client :=
  unfold Prisma.tryCatch, Prisma.bind, Prisma.lift, Prisma.ret, Prisma.throw,
    Prisma.user_findUnique_email,
    Prisma.user_findFirst_provider, Prisma.refreshToken_findUnique,
    Prisma.refreshToken_findUnique_user in *.

Section LoginFailures.

Variable bcrypt_compare : string -> string -> bool.
Variable env : Env.

Lemma login_unknown_email now c db :
  Js.falsy (AuthService.cr_email c) = false ->
  Js.falsy (AuthService.cr_password c) = false ->
  find (fun u => (Prisma.email u =? Js.toLowerCase (AuthService.cr_email c))%string)
       (Prisma.users db) = None ->
  AuthService.login bcrypt_compare env now c db
  = (db, inl (Js.error "Invalid email or password")).
Proof.
  intros He Hp Hfind. unfold AuthService.login. rewrite He, Hp. simpl.
  run_client. rewrite Hfind. reflexivity.
Qed.

(** An account with a password: the comparison of the passwords is never
    reached, whatever the password. *)
Lemma login_password_account now c db u :
  Js.falsy (AuthService.cr_email c) = false ->
  Js.falsy (AuthService.cr_password c) = false ->
  find (fun u => (Prisma.email u =? Js.toLowerCase (AuthService.cr_email c))%string)
       (Prisma.users db) = Some u ->
  Js.falsy (Prisma.password u) = false ->
  AuthService.login bcrypt_compare env now c db
  = (db, inl (Js.error
                "Login failed: Cannot access 'password' before initialization")).
Proof.
  intros He Hp Hfind Hpw. unfold AuthService.login. rewrite He, Hp.
  simpl. run_client. rewrite Hfind, Hpw. reflexivity.
Qed.

(** The account without a password gets a message of its own, with the
    same status. *)
Lemma login_oauth_only_account now c db u :
  Js.falsy (AuthService.cr_email c) = false ->
  Js.falsy (AuthService.cr_password c) = false ->
  find (fun u => (Prisma.email u =? Js.toLowerCase (AuthService.cr_email c))%string)
       (Prisma.users db) = Some u ->
  Js.falsy (Prisma.password u) = true ->
  AuthService.login bcrypt_compare env now c db
  = (db, inl (Js.error
                "This account uses OAuth authentication. Please login with Google.")).
Proof.
  intros He Hp Hfind Hpw. unfold AuthService.login. rewrite He, Hp.
  simpl. run_client. rewrite Hfind, Hpw. reflexivity.
Qed.

End LoginFailures.

(** C4, at the account of a registration.  A login with an address that
    matches no account throws [Invalid email or password] (status 401).
    A login with the address of the registered account never reaches the
    comparison of the passwords: the [password] it would compare is the
    constant that the [try] block declares at its end, which cannot be
    read yet, so the call throws [Login failed: Cannot access 'password'
    before initialization] (status 500), with a wrong password and with
    the right one alike.  The two failures differ in wording and in
    status, so the caller learns that the address is registered.  Neither
    call changes the database. *)
Theorem login_reveals_registered_email :
  let unknown := AuthService.mkCredentials "nobody@example.com" "Bb2?bbbb" in
  let wrong := AuthService.mkCredentials "alice@example.com" "Bb2?bbbb" in
  let right := AuthService.mkCredentials "alice@example.com" "Aa1!aaaa" in
  let login := AuthService.login Sample.bcrypt_compare Sample.env
                 (Sample.t0 + 5000) in
  map Prisma.email (Prisma.users Sample.registered) = ["alice@example.com"]
  /\ exists e e',
      login unknown Sample.registered = (Sample.registered, inl e)
      /\ login wrong Sample.registered = (Sample.registered, inl e')
      /\ login right Sample.registered = (Sample.registered, inl e')
      /\ Js.message e = "Invalid email or password"
      /\ AuthController.loginStatus e = 401
      /\ Js.message e'
         = "Login failed: Cannot access 'password' before initialization"
      /\ AuthController.loginStatus e' = 500.
Proof.
  cbv zeta. split; [reflexivity |].
  exists (Js.error "Invalid email or password").
  exists (Js.error
            "Login failed: Cannot access 'password' before initialization").
  split; [vm_compute; reflexivity |].
  split; [vm_compute; reflexivity |].
  split; [vm_compute; reflexivity |].
  repeat split.
Qed.

(** ** The email of a new account *)

Lemma register_stores_lowercased_email :
  forall bcrypt_hash env now salt userData db db' resp,
    AuthService.register bcrypt_hash env now salt userData db = (db', inr resp) ->
    exists u,
      Prisma.users db' = (Prisma.users db ++ [u])%list
      /\ Prisma.email u = Js.toLowerCase (AuthService.ud_email userData)
      /\ Prisma.provider u = "local"
      /\ AuthService.user resp = Some (AuthService.withoutPassword u).
Proof.
  intros h env now salt d db db' resp. unfold AuthService.register.
  destruct (_ || _ || _ || _); [discriminate |].
  destruct (negb (AuthService.emailRegex_test _)); [discriminate |].
  destruct (negb (PasswordService.isValid _)); [discriminate |].
  run_client.
  destruct (find _ (Prisma.users db)); simpl; [discriminate |].
  destruct (PasswordService.hashPassword h salt _) as [e | hashed]; simpl;
    [destruct (_ || _ || _); discriminate |].
  unfold Prisma.user_create. simpl.
  destruct (List.existsb _ (Prisma.users db)); simpl;
    [discriminate |].
  destruct (JWTService.generateTokenPair _ _ _) as [e | pair]; simpl;
    [destruct (_ || _ || _); discriminate |].
  unfold Prisma.refreshToken_create. simpl.
  destruct (List.existsb _ (Prisma.refreshTokens db)); simpl;
    [discriminate |].
  destruct (negb (List.existsb _ (Prisma.users db ++ _))); simpl;
    [discriminate |].
  intros H. injection H as <- <-. eexists. simpl. repeat split.
Qed.

Lemma createOAuthUser_stores_email_verbatim :
  forall now email providerId provider profile db db' u,
    OAuthService.createOAuthUser now email providerId provider profile db
    = (db', inr u) ->
    exists row,
      Prisma.users db' = (Prisma.users db ++ [row])%list
      /\ Prisma.email row = email
      /\ u = AuthService.withoutPassword row.
Proof.
  intros now email pid prov profile db db' u.
  unfold OAuthService.createOAuthUser, Prisma.user_create. run_client. simpl.
  destruct (List.existsb _ (Prisma.users db)); simpl; [discriminate |].
  intros H. injection H as <- <-. eexists. simpl. repeat split.
Qed.

(** C5, on the OAuth path at a concrete profile: a first sign-in with the
    address [Alice@Example.com] creates an account whose stored email is
    that string, capitals included, which is not its lower-casing; the
    registration of the same address stores [alice@example.com]. *)
Theorem oauth_account_email_not_lowercased :
  let profile :=
    OAuthService.mkProfile "google-user-id" ["Alice@Example.com"]
                           "Alice" "Example" "Alice Example" [] in
  (exists db' u,
      OAuthService.processOAuthProfile Sample.t0 profile "google" Sample.empty
      = (db', inr u)
      /\ map Prisma.email (Prisma.users db') = ["Alice@Example.com"]
      /\ Prisma.email u <> Js.toLowerCase "Alice@Example.com")
  /\ map Prisma.email (Prisma.users Sample.registered)
     = [Js.toLowerCase "Alice@Example.com"].
Proof.
  cbv zeta. split.
  - eexists. eexists. split; [reflexivity |]. split; [reflexivity |].
    simpl. discriminate.
  - reflexivity.
Qed.

(** ** The maintenance sweep *)

Lemma filter_all_false {A} (p : A -> bool) (l : list A) :
  (forall x, In x l -> p x = false) -> filter p l = [].
Proof.
  induction l as [| a l IH]; intros H; simpl; [reflexivity |].
  rewrite (H a (or_introl eq_refl)). apply IH. intros x Hx. apply H. now right.
Qed.

Lemma filter_all_true {A} (p : A -> bool) (l : list A) :
  (forall x, In x l -> p x = true) -> filter p l = l.
Proof.
  induction l as [| a l IH]; intros H; simpl; [reflexivity |].
  rewrite (H a (or_introl eq_refl)). f_equal. apply IH.
  intros x Hx. apply H. now right.
Qed.

Lemma cleanupExpiredTokens_run now db :
  AuthService.cleanupExpiredTokens now db
  = (Prisma.mkDb (Prisma.users db)
       (filter (fun r => negb (Protocol.stale now r)) (Prisma.refreshTokens db))
       (Prisma.nextId db),
     inr (AuthService.mkResponse
            ("Cleaned up "
               ++ AuthService.decimal
                    (List.length (filter (Protocol.stale now)
                                         (Prisma.refreshTokens db)))
               ++ " expired/revoked tokens")
            None None
            (Some (List.length (filter (Protocol.stale now)
                                       (Prisma.refreshTokens db)))))).
Proof. reflexivity. Qed.

(** C8: [cleanupExpiredTokens] deletes exactly the rows that are revoked
    or past their expiry and answers their number; a second call, at a
    time by which no remaining row has expired, deletes nothing and
    answers 0; and a row that is ACTIVE at the time of the first call is
    still there after it. *)
Theorem cleanupExpiredTokens_idempotent :
  forall now now' db,
    let db1 := fst (AuthService.cleanupExpiredTokens now db) in
    (forall r, In r (Prisma.refreshTokens db1) -> now' <= Prisma.expiresAt r) ->
    Prisma.refreshTokens db1
    = filter (fun r => negb (Protocol.stale now r)) (Prisma.refreshTokens db)
    /\ Prisma.users db1 = Prisma.users db
    /\ (exists resp,
           snd (AuthService.cleanupExpiredTokens now db) = inr resp
           /\ AuthService.count resp
              = Some (List.length (filter (Protocol.stale now)
                                          (Prisma.refreshTokens db))))
    /\ AuthService.cleanupExpiredTokens now' db1
       = (db1, inr (AuthService.mkResponse
                      "Cleaned up 0 expired/revoked tokens" None None (Some 0%nat)))
    /\ (forall r, In r (Prisma.refreshTokens db) ->
                  Protocol.active now r = true ->
                  In r (Prisma.refreshTokens db1)).
Proof.
  intros now now' db db1 Hfresh. subst db1.
  rewrite cleanupExpiredTokens_run in *. simpl in *.
  split; [reflexivity |]. split; [reflexivity |]. split; [| split].
  - eexists. split; reflexivity.
  - rewrite cleanupExpiredTokens_run. simpl.
    assert (Hnone : forall r,
               In r (filter (fun r => negb (Protocol.stale now r))
                            (Prisma.refreshTokens db)) ->
               Protocol.stale now' r = false).
    { intros r Hr. specialize (Hfresh r Hr).
      apply filter_In in Hr. destruct Hr as [_ Hr].
      unfold Protocol.stale in *.
      apply negb_true_iff, orb_false_iff in Hr. destruct Hr as [_ Hrev].
      rewrite Hrev, orb_false_r. apply Z.ltb_ge. exact Hfresh. }
    rewrite (filter_all_false _ _ Hnone).
    rewrite filter_all_true; [reflexivity |].
    intros r Hr. rewrite (Hnone r Hr). reflexivity.
  - intros r Hin Hact. apply filter_In. split; [exact Hin |].
    unfold Protocol.active, Protocol.stale in *.
    apply andb_true_iff in Hact. destruct Hact as [Hrev Hexp].
    apply negb_true_iff in Hrev. apply Z.ltb_lt in Hexp.
    rewrite Hrev, orb_false_r. apply negb_true_iff, Z.ltb_ge. lia.
Qed.

Lemma cleanupExpiredTokens_idempotent_witness :
  let db1 := fst (AuthService.cleanupExpiredTokens (Sample.t0 + 7000)
                    Sample.oneRevoked) in
  (forall r, In r (Prisma.refreshTokens db1) ->
             Sample.t0 + 8000 <= Prisma.expiresAt r)
  /\ List.length (Prisma.refreshTokens Sample.oneRevoked) = 2%nat
  /\ List.length (Prisma.refreshTokens db1) = 1%nat
  /\ AuthService.cleanupExpiredTokens (Sample.t0 + 8000) db1
     = (db1, inr (AuthService.mkResponse
                    "Cleaned up 0 expired/revoked tokens" None None (Some 0%nat))).
Proof.
  cbv zeta.
  assert (H : forall r,
             In r (Prisma.refreshTokens
                     (fst (AuthService.cleanupExpiredTokens (Sample.t0 + 7000)
                             Sample.oneRevoked))) ->
             Sample.t0 + 8000 <= Prisma.expiresAt r).
  { vm_compute. intros r [<- | []]. vm_compute. discriminate. }
  split; [exact H |]. split; [reflexivity |]. split; [reflexivity |].
  exact (proj1 (proj2 (proj2 (proj2
           (cleanupExpiredTokens_idempotent (Sample.t0 + 7000)
              (Sample.t0 + 8000) Sample.oneRevoked H))))).
Defined.

(** ** Logout *)

Lemma logout_success_inv env now t db db' resp :
  AuthService.logout env now t db = (db', inr resp) ->
  (exists c, JWTService.verifyRefreshToken env now t = inr c)
  /\ (exists r, find (fun r => Jwt.eqb (Prisma.token r) t)
                     (Prisma.refreshTokens db) = Some r
                /\ Prisma.isRevoked r = false)
  /\ db' = Prisma.mkDb (Prisma.users db)
             (map (fun r => if Jwt.eqb (Prisma.token r) t
                            then Prisma.revoke r else r)
                  (Prisma.refreshTokens db))
             (Prisma.nextId db).
Proof.
  unfold AuthService.logout.
  destruct (Jwt.falsy t); [discriminate |].
  run_client. unfold Prisma.refreshToken_update_revoke.
  destruct (JWTService.verifyRefreshToken env now t) as [e | c]; simpl.
  { destruct (_ || _); discriminate. }
  destruct (find _ (Prisma.refreshTokens db)) as [r |] eqn:Hfind; simpl;
    [| discriminate].
  destruct (Prisma.isRevoked r) eqn:Hrev; simpl; [discriminate |].
  rewrite Hfind. simpl. intros H. injection H as <- _.
  split; [eauto |]. split; [eauto | reflexivity].
Qed.

Lemma logout_failure_inv env now t db db' e :
  AuthService.logout env now t db = (db', inl e) -> db' = db.
Proof.
  unfold AuthService.logout.
  destruct (Jwt.falsy t); [intros H; injection H; auto |].
  run_client. unfold Prisma.refreshToken_update_revoke.
  destruct (JWTService.verifyRefreshToken env now t) as [e0 | c]; simpl.
  { destruct (_ || _); intros H; injection H; auto. }
  destruct (find _ (Prisma.refreshTokens db)) as [r |] eqn:Hfind; simpl;
    [| intros H; injection H; auto].
  destruct (Prisma.isRevoked r) eqn:Hrev; simpl;
    [intros H; injection H; auto |].
  rewrite Hfind. simpl. discriminate.
Qed.

(** C6: a successful [logout] leaves every user row as it was, and of the
    refresh-token rows it changes only those whose token is the presented
    one, whose [isRevoked] goes from false to true; every other row, other
    sessions of the same account included, is the same row at the same
    place. *)
Theorem logout_touches_only_presented_token :
  forall env now t db db' resp,
    AuthService.logout env now t db = (db', inr resp) ->
    Prisma.users db' = Prisma.users db
    /\ Prisma.nextId db' = Prisma.nextId db
    /\ Prisma.refreshTokens db'
       = map (fun r => if Jwt.eqb (Prisma.token r) t then Prisma.revoke r else r)
             (Prisma.refreshTokens db)
    /\ (forall i r, nth_error (Prisma.refreshTokens db) i = Some r ->
                    Prisma.token r <> t ->
                    nth_error (Prisma.refreshTokens db') i = Some r)
    /\ (forall i r, nth_error (Prisma.refreshTokens db) i = Some r ->
                    Prisma.token r = t ->
                    nth_error (Prisma.refreshTokens db') i
                    = Some (Prisma.revoke r))
    /\ (exists r, In r (Prisma.refreshTokens db)
                  /\ Prisma.token r = t /\ Prisma.isRevoked r = false).
Proof.
  intros env now t db db' resp H.
  destruct (logout_success_inv _ _ _ _ _ _ H) as [_ [[r [Hfind Hrev]] ->]].
  simpl. repeat split.
  - intros i x Hi Hne. rewrite nth_error_map, Hi. simpl.
    apply token_eqb_neq in Hne. rewrite Hne. reflexivity.
  - intros i x Hi He. rewrite nth_error_map, Hi. simpl.
    apply token_eqb_eq in He. rewrite He. reflexivity.
  - exists r. apply find_some in Hfind. destruct Hfind as [Hin He].
    apply token_eqb_eq in He. auto.
Qed.

Lemma logout_touches_only_presented_token_witness :
  (exists resp,
      AuthService.logout Sample.env (Sample.t0 + 6000) Sample.token1
        Sample.twoSessions = (Sample.oneRevoked, inr resp))
  /\ Prisma.users Sample.oneRevoked = Prisma.users Sample.twoSessions
  /\ map Prisma.isRevoked (Prisma.refreshTokens Sample.twoSessions)
     = [false; false]
  /\ map Prisma.isRevoked (Prisma.refreshTokens Sample.oneRevoked)
     = [true; false].
Proof.
  split; [eexists; reflexivity |].
  split; [| split; reflexivity].
  exact (proj1 (logout_touches_only_presented_token Sample.env
                  (Sample.t0 + 6000) Sample.token1 Sample.twoSessions
                  Sample.oneRevoked
                  (AuthService.mkResponse "Logout successful" None None None)
                  eq_refl)).
Defined.

(** C9: [logout] verifies the token before it reads or writes the
    database.  For a token signed with the refresh secret whose expiry has
    passed it throws [Logout failed: Refresh token has expired] and the
    database is the one it was given, whatever rows it holds; and whenever
    [logout] throws, the database is unchanged. *)
Theorem logout_expired_token_changes_nothing :
  forall env now c db,
    Js.falsy (JWT_REFRESH_SECRET env) = false ->
    Jwt.exp c <= Jwt.seconds now ->
    AuthService.logout env now (Jwt.Signed c (JWT_REFRESH_SECRET env)) db
    = (db, inl (Js.error "Logout failed: Refresh token has expired"))
    /\ (forall t db' e,
           AuthService.logout env now t db = (db', inl e) -> db' = db).
Proof.
  intros env now c db Hs Hexp. split.
  - unfold AuthService.logout, JWTService.verifyRefreshToken, Jwt.verify.
    simpl. run_client. rewrite Hs, String.eqb_refl. simpl.
    apply Z.leb_le in Hexp. rewrite Hexp. reflexivity.
  - intros t db' e. apply logout_failure_inv.
Qed.

Lemma logout_expired_token_changes_nothing_witness :
  let now := Sample.t0 + 7 * Js.msPerDay in
  (exists r, find (fun r => Jwt.eqb (Prisma.token r) Sample.token1)
                  (Prisma.refreshTokens Sample.registered) = Some r
             /\ Prisma.isRevoked r = false
             /\ (Prisma.expiresAt r <? now) = false)
  /\ AuthService.logout Sample.env now Sample.token1 Sample.registered
     = (Sample.registered,
        inl (Js.error "Logout failed: Refresh token has expired")).
Proof.
  cbv zeta. split.
  - eexists. split; [reflexivity |]. split; reflexivity.
  - refine (proj1 (logout_expired_token_changes_nothing Sample.env
                     (Sample.t0 + 7 * Js.msPerDay)
                     (Jwt.mkClaims "c0" "alice@example.com" None "refresh"
                                   1700000000 1700604800
                                   "auth-service" "auth-client")
                     Sample.registered _ _)).
    + reflexivity.
    + vm_compute. discriminate.
Defined.

(** ** Rotation *)

Lemma existsb_token_map_revoke t t' rows :
  List.existsb (fun r => Jwt.eqb (Prisma.token r) t')
    (map (fun r => if Jwt.eqb (Prisma.token r) t then Prisma.revoke r else r)
         rows)
  = List.existsb (fun r => Jwt.eqb (Prisma.token r) t') rows.
Proof.
  induction rows as [| a rows IH]; simpl; [reflexivity |].
  rewrite IH. destruct (Jwt.eqb (Prisma.token a) t); reflexivity.
Qed.

Lemma refreshToken_success_inv env now t db db' resp :
  AuthService.refreshToken env now t db = (db', inr resp) ->
  exists c r u tp,
    JWTService.verifyRefreshToken env now t = inr c
    /\ find (fun r => Jwt.eqb (Prisma.token r) t) (Prisma.refreshTokens db)
       = Some r
    /\ Prisma.isRevoked r = false
    /\ (Prisma.expiresAt r <? now) = false
    /\ find (fun u => (Prisma.id u =? Prisma.userId r)%string) (Prisma.users db)
       = Some u
    /\ JWTService.generateTokenPair env now
         (JWTService.mkPayload (Prisma.id u) (Prisma.email u) "") = inr tp
    /\ List.existsb (fun r => Jwt.eqb (Prisma.token r) (JWTService.refreshToken tp))
                    (Prisma.refreshTokens db) = false
    /\ db' = Prisma.mkDb (Prisma.users db)
               (map (fun r => if Jwt.eqb (Prisma.token r) t
                              then Prisma.revoke r else r)
                    (Prisma.refreshTokens db)
                  ++ [Prisma.mkRefreshToken (Prisma.nextId db)
                        (JWTService.refreshToken tp) (Prisma.id u)
                        (AuthService.refreshTokenExpiry env now) false now])
               (S (Prisma.nextId db))
    /\ resp = AuthService.mkResponse "Token refreshed successfully"
                None (Some tp) None.
Proof.
  unfold AuthService.refreshToken.
  destruct (Jwt.falsy t); [discriminate |].
  run_client. unfold Prisma.refreshToken_update_revoke, Prisma.refreshToken_create.
  destruct (JWTService.verifyRefreshToken env now t) as [e | c]; simpl.
  { destruct (_ || _ || _); discriminate. }
  destruct (find _ (Prisma.refreshTokens db)) as [r |] eqn:Hfind; simpl;
    [| discriminate].
  destruct (Prisma.isRevoked r) eqn:Hrev; simpl; [discriminate |].
  destruct (Prisma.expiresAt r <? now) eqn:Hexp; simpl; [discriminate |].
  rewrite Hfind. simpl.
  destruct (find _ (Prisma.users db)) as [u |] eqn:Hu; simpl; [| discriminate].
  destruct (JWTService.generateTokenPair _ _ _) as [e | tp] eqn:Hgen; simpl.
  { destruct (_ || _ || _); discriminate. }
  rewrite existsb_token_map_revoke.
  destruct (List.existsb _ (Prisma.refreshTokens db)) eqn:Hdup; simpl;
    [discriminate |].
  destruct (negb (List.existsb _ (Prisma.users db))); simpl; [discriminate |].
  intros H. injection H as <- <-.
  exists c, r, u, tp. repeat split; assumption.
Qed.

Lemma generateTokenPair_inv env now payload tp :
  JWTService.generateTokenPair env now payload = inr tp ->
  JWTService.generateAccessToken env now payload
  = inr (JWTService.accessToken tp)
  /\ JWTService.generateRefreshToken env now payload
     = inr (JWTService.refreshToken tp).
Proof.
  unfold JWTService.generateTokenPair, Js.bind, Js.ret.
  destruct (JWTService.generateAccessToken env now payload) as [e | a];
    [discriminate |].
  destruct (JWTService.generateRefreshToken env now payload) as [e | r];
    [discriminate |].
  intros H. injection H as <-. split; reflexivity.
Qed.

(** C10: the access token of every successful refresh carries the role
    [user]: its claims are the id and the email of the stored owner of the
    presented token, the type [access] and that role, whatever any earlier
    access token of the account carried. *)
Theorem refreshToken_access_role_is_user :
  forall env now t db db' resp,
    AuthService.refreshToken env now t db = (db', inr resp) ->
    exists tp c r u,
      AuthService.tokens resp = Some tp
      /\ JWTService.accessToken tp = Jwt.Signed c (JWT_ACCESS_SECRET env)
      /\ Jwt.role c = Some "user"
      /\ Jwt.type c = "access"
      /\ In r (Prisma.refreshTokens db) /\ Prisma.token r = t
      /\ In u (Prisma.users db) /\ Prisma.id u = Prisma.userId r
      /\ Jwt.userId c = Prisma.id u
      /\ Jwt.email c = Prisma.email u.
Proof.
  intros env now t db db' resp H.
  destruct (refreshToken_success_inv _ _ _ _ _ _ H)
    as (c0 & r & u & tp & _ & Hfind & _ & _ & Hu & Hgen & _ & _ & ->).
  destruct (generateTokenPair_inv _ _ _ _ Hgen) as [Ha _].
  destruct (generateAccessToken_inv _ _ _ _ Ha)
    as (_ & c & Hc & Hty & Hrole & Huid & Hmail & _).
  apply find_some in Hfind. destruct Hfind as [Hin Heq].
  apply token_eqb_eq in Heq.
  apply find_some in Hu. destruct Hu as [Huin Hueq].
  apply String.eqb_eq in Hueq.
  exists tp, c, r, u. simpl in *. repeat split; assumption.
Qed.

Lemma refreshToken_access_role_is_user_witness :
  exists db' resp tp c,
    AuthService.refreshToken Sample.env (Sample.t0 + 5000) Sample.token1
      Sample.registered = (db', inr resp)
    /\ AuthService.tokens resp = Some tp
    /\ JWTService.accessToken tp
       = Jwt.Signed c (JWT_ACCESS_SECRET Sample.env)
    /\ Jwt.role c = Some "user".
Proof.
  destruct (refreshToken_access_role_is_user Sample.env (Sample.t0 + 5000)
              Sample.token1 Sample.registered
              (fst (AuthService.refreshToken Sample.env (Sample.t0 + 5000)
                      Sample.token1 Sample.registered))
              (AuthService.mkResponse "Token refreshed successfully" None
                 (AuthService.tokens
                    (match snd (AuthService.refreshToken Sample.env
                                  (Sample.t0 + 5000) Sample.token1
                                  Sample.registered) with
                     | inr resp => resp
                     | inl _ => AuthService.mkResponse "" None None None
                     end)) None)
              eq_refl)
    as (tp & c & r & u & Ht & Ha & Hr & _).
  eexists. eexists. exists tp, c.
  split; [reflexivity |]. split; [exact Ht |]. split; [exact Ha | exact Hr].
Defined.

(** ** Rows never come back *)

Section Monotone.

Import Prisma Protocol.

Lemma descends_refl db : descends db db.
Proof.
  split; [lia |]. intros r Hin _. exists r. repeat split; auto.
Qed.

Lemma descends_trans db1 db2 db3 :
  descends db1 db2 -> descends db2 db3 -> descends db1 db3.
Proof.
  intros [Hn12 H12] [Hn23 H23]. split; [lia |].
  intros r3 Hin3 Hlt.
  assert (Hlt2 : (rt_id r3 < nextId db2)%nat) by lia.
  destruct (H23 r3 Hin3 Hlt2) as (r2 & Hin2 & Hid2 & Ht2 & Hu2 & He2 & Hr2).
  assert (Hlt1 : (rt_id r2 < nextId db1)%nat) by lia.
  destruct (H12 r2 Hin2 Hlt1) as (r1 & Hin1 & Hid1 & Ht1 & Hu1 & He1 & Hr1).
  exists r1. repeat split; try congruence. auto.
Qed.

Lemma preserves_read {A} (f : Db -> Js.Result A) :
  preserves (fun db => (db, f db)).
Proof. intros db Hwk. simpl. split; [exact Hwk | apply descends_refl]. Qed.

Lemma preserves_ret {A} (a : A) : preserves (ret a).
Proof. apply (preserves_read (fun _ => inr a)). Qed.

Lemma preserves_throw {A} (e : Js.Error) : preserves (@throw A e).
Proof. apply (preserves_read (fun _ => inl e)). Qed.

Lemma preserves_lift {A} (r : Js.Result A) : preserves (lift r).
Proof. apply (preserves_read (fun _ => r)). Qed.

Lemma preserves_bind {A B} (m : M A) (k : A -> M B) :
  preserves m -> (forall a, preserves (k a)) -> preserves (bind m k).
Proof.
  intros Hm Hk db Hwk. unfold bind.
  destruct (Hm db Hwk) as [Hwk1 Hd1].
  destruct (m db) as [db1 [e | a]]; simpl in *; [auto |].
  destruct (Hk a db1 Hwk1) as [Hwk2 Hd2].
  split; [exact Hwk2 | eapply descends_trans; eauto].
Qed.

Lemma preserves_tryCatch {A} (body : M A) (handler : Js.Error -> M A) :
  preserves body -> (forall e, preserves (handler e)) ->
  preserves (tryCatch body handler).
Proof.
  intros Hm Hk db Hwk. unfold tryCatch.
  destruct (Hm db Hwk) as [Hwk1 Hd1].
  destruct (body db) as [db1 [e | a]]; simpl in *; [| auto].
  destruct (Hk e db1 Hwk1) as [Hwk2 Hd2].
  split; [exact Hwk2 | eapply descends_trans; eauto].
Qed.

(** The three ways a call writes: a change of the users only, a change of
    some rows to their revoked selves, the removal of some rows, one row
    more. *)
Lemma wellKeyed_users db us n :
  wellKeyed db -> (nextId db <= n)%nat ->
  wellKeyed (mkDb us (refreshTokens db) n)
  /\ descends db (mkDb us (refreshTokens db) n).
Proof.
  intros [Hlt Hnd] Hn. split; [split |]; simpl.
  - intros r Hr. specialize (Hlt r Hr). lia.
  - exact Hnd.
  - split; [exact Hn |]. intros r Hr _. exists r. repeat split; auto.
Qed.

Lemma wellKeyed_revoke_some db (p : RefreshToken -> bool) :
  wellKeyed db ->
  let db' := mkDb (users db)
                  (map (fun r => if p r then revoke r else r) (refreshTokens db))
                  (nextId db) in
  wellKeyed db' /\ descends db db'.
Proof.
  intros [Hlt Hnd]. cbv zeta. split; [split |]; simpl.
  - intros r' Hr'. apply in_map_iff in Hr'. destruct Hr' as (r & <- & Hr).
    specialize (Hlt r Hr). destruct (p r); simpl; exact Hlt.
  - rewrite map_map.
    rewrite (map_ext _ rt_id); [exact Hnd |].
    intros r. destruct (p r); reflexivity.
  - split; [simpl; lia |]. simpl. intros r' Hr' _.
    apply in_map_iff in Hr'. destruct Hr' as (r & <- & Hr).
    exists r. destruct (p r); simpl; repeat split; auto.
Qed.

Lemma kept_rows_distinct_keys (keep : RefreshToken -> bool) rows :
  NoDup (map rt_id rows) -> NoDup (map rt_id (filter keep rows)).
Proof.
  induction rows as [| row rows IH]; simpl; intros Hkeys; [constructor |].
  apply NoDup_cons_iff in Hkeys. destruct Hkeys as [Hfresh Hrest].
  destruct (keep row); simpl; [| exact (IH Hrest)].
  apply NoDup_cons; [| exact (IH Hrest)].
  rewrite in_map_iff. intros (other & Hkey & Hother).
  apply filter_In in Hother. apply Hfresh.
  rewrite <- Hkey. apply in_map, Hother.
Qed.

Lemma wellKeyed_delete_some db (p : RefreshToken -> bool) :
  wellKeyed db ->
  let db' := mkDb (users db) (filter p (refreshTokens db)) (nextId db) in
  wellKeyed db' /\ descends db db'.
Proof.
  intros [Hlt Hnd]. cbv zeta. split; [split |]; simpl.
  - intros r Hr. apply filter_In in Hr. apply Hlt, Hr.
  - apply kept_rows_distinct_keys, Hnd.
  - split; [simpl; lia |]. simpl. intros r Hr _. apply filter_In in Hr.
    exists r. repeat split; tauto.
Qed.

Lemma wellKeyed_insert db t uid expires now :
  wellKeyed db ->
  let db' := mkDb (users db)
                  (refreshTokens db
                     ++ [mkRefreshToken (nextId db) t uid expires false now])
                  (S (nextId db)) in
  wellKeyed db' /\ descends db db'.
Proof.
  intros [Hlt Hnd]. cbv zeta. split; [split |]; simpl.
  - intros r Hr. apply in_app_iff in Hr. destruct Hr as [Hr | [<- | []]].
    + specialize (Hlt r Hr). lia.
    + simpl. lia.
  - rewrite map_app. simpl. apply NoDup_app.
    + exact Hnd.
    + repeat constructor. simpl. tauto.
    + intros k Hk [<- | []]. apply in_map_iff in Hk.
      destruct Hk as (r & Hid & Hr). specialize (Hlt r Hr). lia.
  - split; [simpl; lia |]. simpl. intros r Hr Hid.
    apply in_app_iff in Hr. destruct Hr as [Hr | [<- | []]].
    + exists r. repeat split; auto.
    + simpl in Hid. lia.
Qed.

End Monotone.

Section Steps.

Import Prisma Protocol.

Lemma preserves_user_findUnique_email e : preserves (user_findUnique_email e).
Proof. unfold user_findUnique_email. apply preserves_read. Qed.

Lemma preserves_refreshToken_findUnique t :
  preserves (refreshToken_findUnique t).
Proof. unfold refreshToken_findUnique. apply preserves_read. Qed.

Lemma preserves_refreshToken_findUnique_user t :
  preserves (refreshToken_findUnique_user t).
Proof. unfold refreshToken_findUnique_user. apply preserves_read. Qed.

Lemma preserves_user_create now d : preserves (user_create now d).
Proof.
  intros db Hwk. unfold user_create.
  destruct (List.existsb _ (users db)); simpl.
  - split; [exact Hwk | apply descends_refl].
  - apply wellKeyed_users; [exact Hwk | lia].
Qed.

Lemma preserves_user_update now i f : preserves (user_update now i f).
Proof.
  intros db Hwk. unfold user_update.
  destruct (find _ (users db)); simpl.
  - apply wellKeyed_users; [exact Hwk | lia].
  - split; [exact Hwk | apply descends_refl].
Qed.

Lemma preserves_refreshToken_create now t uid expires :
  preserves (refreshToken_create now t uid expires).
Proof.
  intros db Hwk. unfold refreshToken_create.
  destruct (List.existsb _ (refreshTokens db)); simpl;
    [split; [exact Hwk | apply descends_refl] |].
  destruct (negb _); simpl; [split; [exact Hwk | apply descends_refl] |].
  apply wellKeyed_insert, Hwk.
Qed.

Lemma preserves_refreshToken_update_revoke t :
  preserves (refreshToken_update_revoke t).
Proof.
  intros db Hwk. unfold refreshToken_update_revoke.
  destruct (find _ (refreshTokens db)); simpl.
  - apply (wellKeyed_revoke_some db (fun r => Jwt.eqb (token r) t) Hwk).
  - split; [exact Hwk | apply descends_refl].
Qed.

Lemma preserves_refreshToken_updateMany_revoke uid :
  preserves (refreshToken_updateMany_revoke uid).
Proof.
  intros db Hwk. unfold refreshToken_updateMany_revoke. simpl.
  apply (wellKeyed_revoke_some db
           (fun r => (userId r =? uid)%string && negb (isRevoked r)) Hwk).
Qed.

Lemma preserves_refreshToken_deleteMany_stale now :
  preserves (refreshToken_deleteMany_stale now).
Proof.
  intros db Hwk. unfold refreshToken_deleteMany_stale. simpl.
  apply (wellKeyed_delete_some db
           (fun r => negb ((expiresAt r <? now) || isRevoked r)) Hwk).
Qed.

End Steps.

Ltac preserve :=
  repeat first
    [ apply preserves_ret
    | apply preserves_throw
    | apply preserves_lift
    | apply preserves_user_findUnique_email
    | apply preserves_refreshToken_findUnique
    | apply preserves_refreshToken_findUnique_user
    | apply preserves_user_create
    | apply preserves_user_update
    | apply preserves_refreshToken_create
    | apply preserves_refreshToken_update_revoke
    | apply preserves_refreshToken_updateMany_revoke
    | apply preserves_refreshToken_deleteMany_stale
    | apply preserves_bind; [| intros ?]
    | apply preserves_tryCatch; [| intros ?]
    | match goal with
      | |- Protocol.preserves (if ?c then _ else _) => destruct c
      | |- Protocol.preserves (match ?x with _ => _ end) => destruct x
      end ].

Section Sequences.

Import Prisma Protocol.

Variable bcrypt_hash : string -> string -> Z -> string.
Variable bcrypt_compare : string -> string -> bool.
Variable env : Env.

Lemma step_preserves op : preserves (step bcrypt_hash bcrypt_compare env op).
Proof.
  destruct op; simpl.
  - unfold AuthService.register. cbv zeta. preserve.
  - unfold AuthService.login. cbv zeta. preserve.
  - unfold AuthService.logout. preserve.
  - unfold AuthService.refreshToken. preserve.
  - unfold AuthService.revokeAllTokens. preserve.
  - unfold AuthService.cleanupExpiredTokens. preserve.
Qed.

Lemma run_preserves ops :
  forall db, wellKeyed db ->
             wellKeyed (run bcrypt_hash bcrypt_compare env ops db)
             /\ descends db (run bcrypt_hash bcrypt_compare env ops db).
Proof.
  induction ops as [| op ops IH]; intros db Hwk; simpl.
  - split; [exact Hwk | apply descends_refl].
  - destruct (step_preserves op db Hwk) as [Hwk1 Hd1].
    destruct (IH _ Hwk1) as [Hwk2 Hd2].
    split; [exact Hwk2 | eapply descends_trans; eauto].
Qed.

Lemma key_names_one_row db r r0 :
  wellKeyed db ->
  In r (refreshTokens db) -> In r0 (refreshTokens db) ->
  rt_id r0 = rt_id r -> r0 = r.
Proof.
  intros [_ Hnd]. generalize dependent Hnd.
  induction (refreshTokens db) as [| a l IH]; simpl; intros Hnd Hr Hr0 Hid;
    [contradiction |].
  inversion Hnd as [| x xs Hnotin Hnd']; subst.
  destruct Hr as [-> | Hr], Hr0 as [-> | Hr0]; auto.
  - exfalso. apply Hnotin. rewrite <- Hid. apply in_map, Hr0.
  - exfalso. apply Hnotin. rewrite Hid. apply in_map, Hr.
Qed.

End Sequences.

(** C2: over every sequence of register, login, logout, refresh,
    revoke-all and purge calls, whatever each of them answers, a
    refresh-token row that is still in the table is the row it was: same
    token, same owner, same [expiresAt], and [isRevoked] still true if it
    was true.  A successful refresh changes the table in two ways only:
    the rows of the presented token become revoked and one row with a new
    key, not revoked, is added. *)
Theorem revoked_flag_is_monotonic :
  forall bcrypt_hash bcrypt_compare env ops db r r',
    Protocol.wellKeyed db ->
    In r (Prisma.refreshTokens db) ->
    In r' (Prisma.refreshTokens
             (Protocol.run bcrypt_hash bcrypt_compare env ops db)) ->
    Prisma.rt_id r' = Prisma.rt_id r ->
    ((Prisma.isRevoked r = true -> Prisma.isRevoked r' = true)
     /\ Prisma.expiresAt r' = Prisma.expiresAt r
     /\ Prisma.token r' = Prisma.token r
     /\ Prisma.userId r' = Prisma.userId r)
    /\ (forall now t db' resp,
           AuthService.refreshToken env now t db = (db', inr resp) ->
           exists fresh,
             Prisma.refreshTokens db'
             = (map (fun x => if Jwt.eqb (Prisma.token x) t
                              then Prisma.revoke x else x)
                    (Prisma.refreshTokens db) ++ [fresh])%list
             /\ Prisma.rt_id fresh = Prisma.nextId db
             /\ Prisma.isRevoked fresh = false
             /\ Prisma.expiresAt fresh = AuthService.refreshTokenExpiry env now).
Proof.
  intros bh bc env ops db r r' Hwk Hr Hr' Hid. split.
  - destruct (run_preserves bh bc env ops db Hwk) as [_ [_ Hdesc]].
    destruct Hwk as [Hlt Hnd].
    assert (Hold : (Prisma.rt_id r' < Prisma.nextId db)%nat).
    { rewrite Hid. apply Hlt, Hr. }
    destruct (Hdesc r' Hr' Hold) as (r0 & Hr0 & Hid0 & Ht & Hu & He & Hrev).
    assert (r0 = r).
    { apply (key_names_one_row db); [split; assumption | assumption ..|].
      congruence. }
    subst r0. auto.
  - intros now t db' resp H.
    destruct (refreshToken_success_inv _ _ _ _ _ _ H)
      as (c & row & u & tp & _ & _ & _ & _ & _ & _ & _ & -> & _).
    eexists. simpl. repeat split.
Qed.

Lemma revoked_flag_is_monotonic_witness :
  let ops :=
    [Protocol.Refresh (Sample.t0 + 9000) Sample.token2;
     Protocol.Login (Sample.t0 + 10000)
       (AuthService.mkCredentials "alice@example.com" "Aa1!aaaa");
     Protocol.RevokeAllSessions "c0";
     Protocol.Logout (Sample.t0 + 11000) Sample.token1] in
  let final :=
    Protocol.run Sample.bcrypt_hash Sample.bcrypt_compare Sample.env ops
      Sample.oneRevoked in
  Protocol.wellKeyed Sample.oneRevoked
  /\ exists r r',
      In r (Prisma.refreshTokens Sample.oneRevoked)
      /\ In r' (Prisma.refreshTokens final)
      /\ Prisma.rt_id r' = Prisma.rt_id r
      /\ Prisma.isRevoked r = true
      /\ Prisma.isRevoked r' = true
      /\ Prisma.expiresAt r' = Prisma.expiresAt r.
Proof.
  cbv zeta.
  assert (Hwk : Protocol.wellKeyed Sample.oneRevoked).
  { split.
    - vm_compute. intros r [<- | [<- | []]]; lia.
    - vm_compute. repeat constructor; simpl; intuition discriminate. }
  split; [exact Hwk |].
  exists (Prisma.revoke
            (Prisma.mkRefreshToken 1 Sample.token1 "c0"
               (Sample.t0 + 7 * Js.msPerDay) false Sample.t0)).
  eexists.
  assert (Hr : In (Prisma.revoke
                     (Prisma.mkRefreshToken 1 Sample.token1 "c0"
                        (Sample.t0 + 7 * Js.msPerDay) false Sample.t0))
                  (Prisma.refreshTokens Sample.oneRevoked)).
  { vm_compute. left. reflexivity. }
  split; [exact Hr |].
  assert (Hr' : In (Prisma.revoke
                      (Prisma.mkRefreshToken 1 Sample.token1 "c0"
                         (Sample.t0 + 7 * Js.msPerDay) false Sample.t0))
                   (Prisma.refreshTokens
                      (Protocol.run Sample.bcrypt_hash Sample.bcrypt_compare
                         Sample.env
                         [Protocol.Refresh (Sample.t0 + 9000) Sample.token2;
                          Protocol.Login (Sample.t0 + 10000)
                            (AuthService.mkCredentials "alice@example.com"
                                                       "Aa1!aaaa");
                          Protocol.RevokeAllSessions "c0";
                          Protocol.Logout (Sample.t0 + 11000) Sample.token1]
                         Sample.oneRevoked))).
  { vm_compute. left. reflexivity. }
  split; [exact Hr' |]. split; [reflexivity |]. split; [reflexivity |].
  destruct (revoked_flag_is_monotonic Sample.bcrypt_hash Sample.bcrypt_compare
              Sample.env _ Sample.oneRevoked _ _ Hwk Hr Hr' eq_refl)
    as [[Hrev [Hexp _]] _].
  split; [apply Hrev; reflexivity | exact Hexp].
Defined.

(** ** Rotation, once *)

Lemma verifyRefreshToken_later env now now' t c :
  JWTService.verifyRefreshToken env now t = inr c ->
  JWTService.verifyRefreshToken env now' t = inr c
  \/ JWTService.verifyRefreshToken env now' t
     = inl (Js.error "Refresh token has expired").
Proof.
  unfold JWTService.verifyRefreshToken.
  destruct (Jwt.falsy t); [discriminate |].
  destruct (Js.falsy (JWT_REFRESH_SECRET env)); [discriminate |].
  destruct t as [c0 key | s]; [| discriminate].
  unfold Jwt.verify.
  destruct (key =? JWT_REFRESH_SECRET env)%string; [| discriminate].
  destruct (Jwt.aud c0 =? "auth-client")%string,
           (Jwt.iss c0 =? "auth-service")%string,
           (Jwt.exp c0 <=? Jwt.seconds now); simpl; try discriminate.
  destruct (Jwt.type c0 =? "refresh")%string eqn:Hty; simpl; [| discriminate].
  intros H.
  destruct (Jwt.exp c0 <=? Jwt.seconds now'); simpl;
    [right; reflexivity | left].
  rewrite Hty. exact H.
Qed.

Lemma find_token_after_rotation t rows r extra :
  find (fun x => Jwt.eqb (Prisma.token x) t) rows = Some r ->
  find (fun x => Jwt.eqb (Prisma.token x) t)
       (map (fun x => if Jwt.eqb (Prisma.token x) t then Prisma.revoke x else x)
            rows ++ extra)
  = Some (Prisma.revoke r).
Proof.
  induction rows as [| a rows IH]; simpl; [discriminate |].
  destruct (Jwt.eqb (Prisma.token a) t) eqn:E; simpl.
  - rewrite E. congruence.
  - rewrite E. exact IH.
Qed.

(** Seven days by the local calendar are seven days by the clock, give
    or take what the offset of the zone changes by in between. *)
Lemma addDays_week tz now :
  Js.zoneWithinADay tz ->
  now + 5 * Js.msPerDay < Js.addDays tz now 7 < now + 9 * Js.msPerDay.
Proof.
  intros Hz. unfold Js.addDays.
  pose proof (Hz now true) as H0.
  pose proof (Hz (now + tz now true + 7 * Js.msPerDay) false) as H1.
  unfold Js.msPerDay in *. lia.
Qed.

Section Rotation.

Variable env : Env.

(** What a refresh does when the token it mints is not in the table yet. *)
Lemma refreshToken_rotates now t db c r u tp :
  Jwt.falsy t = false ->
  JWTService.verifyRefreshToken env now t = inr c ->
  find (fun x => Jwt.eqb (Prisma.token x) t) (Prisma.refreshTokens db) = Some r ->
  Prisma.isRevoked r = false ->
  (Prisma.expiresAt r <? now) = false ->
  find (fun x => (Prisma.id x =? Prisma.userId r)%string) (Prisma.users db)
  = Some u ->
  JWTService.generateTokenPair env now
    (JWTService.mkPayload (Prisma.id u) (Prisma.email u) "") = inr tp ->
  List.existsb (fun x => Jwt.eqb (Prisma.token x) (JWTService.refreshToken tp))
               (Prisma.refreshTokens db) = false ->
  AuthService.refreshToken env now t db
  = (Prisma.mkDb (Prisma.users db)
       (map (fun x => if Jwt.eqb (Prisma.token x) t then Prisma.revoke x else x)
            (Prisma.refreshTokens db)
          ++ [Prisma.mkRefreshToken (Prisma.nextId db)
                (JWTService.refreshToken tp) (Prisma.id u)
                (AuthService.refreshTokenExpiry env now) false now])
       (S (Prisma.nextId db)),
     inr (AuthService.mkResponse "Token refreshed successfully"
            None (Some tp) None)).
Proof.
  intros Hf Hv Hfind Hrev Hexp Hu Hgen Hnew.
  unfold AuthService.refreshToken. rewrite Hf. run_client.
  unfold Prisma.refreshToken_update_revoke, Prisma.refreshToken_create.
  rewrite Hv. simpl. rewrite Hfind. simpl. rewrite Hrev, Hexp. simpl.
  rewrite Hfind, Hu. simpl. rewrite Hgen. simpl.
  rewrite existsb_token_map_revoke, Hnew. simpl.
  assert (Hfk : List.existsb (fun x => (Prisma.id x =? Prisma.id u)%string)
                             (Prisma.users db) = true).
  { apply existsb_exists. exists u. apply find_some in Hu.
    split; [apply Hu | apply String.eqb_refl]. }
  rewrite Hfk. reflexivity.
Qed.

(** The presented token is dead from then on. *)
Lemma refreshToken_replay_rejected now now' t c r rows users extra n :
  Jwt.falsy t = false ->
  JWTService.verifyRefreshToken env now t = inr c ->
  find (fun x => Jwt.eqb (Prisma.token x) t) rows = Some r ->
  let db1 :=
    Prisma.mkDb users
      (map (fun x => if Jwt.eqb (Prisma.token x) t then Prisma.revoke x else x)
           rows ++ extra) n in
  exists e,
    AuthService.refreshToken env now' t db1 = (db1, inl e)
    /\ AuthController.refreshStatus e = 401.
Proof.
  intros Hf Hv Hfind db1. unfold AuthService.refreshToken. rewrite Hf.
  run_client.
  destruct (verifyRefreshToken_later env now now' t c Hv) as [-> | ->]; simpl.
  - subst db1. simpl. rewrite (find_token_after_rotation _ _ _ _ Hfind).
    simpl. eexists. split; reflexivity.
  - eexists. split; reflexivity.
Qed.

(** Both together: outside the collision a valid token is exchanged once,
    in every time zone.  The first call succeeds and adds exactly one row, ACTIVE and owned by
    the owner of the presented token; the second call, at any time, is
    refused with status 401 and changes nothing. *)
Lemma refreshToken_exactly_once now now' t db c r u tp :
  Js.zoneWithinADay (TZ env) ->
  Jwt.falsy t = false ->
  JWTService.verifyRefreshToken env now t = inr c ->
  find (fun x => Jwt.eqb (Prisma.token x) t) (Prisma.refreshTokens db) = Some r ->
  Prisma.isRevoked r = false ->
  (Prisma.expiresAt r <? now) = false ->
  find (fun x => (Prisma.id x =? Prisma.userId r)%string) (Prisma.users db)
  = Some u ->
  JWTService.generateTokenPair env now
    (JWTService.mkPayload (Prisma.id u) (Prisma.email u) "") = inr tp ->
  List.existsb (fun x => Jwt.eqb (Prisma.token x) (JWTService.refreshToken tp))
               (Prisma.refreshTokens db) = false ->
  exists db1 resp fresh e,
    AuthService.refreshToken env now t db = (db1, inr resp)
    /\ AuthService.tokens resp = Some tp
    /\ Prisma.refreshTokens db1
       = (map (fun x => if Jwt.eqb (Prisma.token x) t then Prisma.revoke x else x)
              (Prisma.refreshTokens db) ++ [fresh])%list
    /\ Prisma.token fresh = JWTService.refreshToken tp
    /\ Prisma.userId fresh = Prisma.userId r
    /\ Protocol.active now fresh = true
    /\ AuthService.refreshToken env now' t db1 = (db1, inl e)
    /\ AuthController.refreshStatus e = 401.
Proof.
  intros Hz Hf Hv Hfind Hrev Hexp Hu Hgen Hnew.
  pose proof (refreshToken_rotates now t db c r u tp
                Hf Hv Hfind Hrev Hexp Hu Hgen Hnew) as Hfirst.
  destruct (refreshToken_replay_rejected now now' t c r
              (Prisma.refreshTokens db) (Prisma.users db)
              [Prisma.mkRefreshToken (Prisma.nextId db)
                 (JWTService.refreshToken tp) (Prisma.id u)
                 (AuthService.refreshTokenExpiry env now) false now]
              (S (Prisma.nextId db)) Hf Hv Hfind) as (e & Hsecond & Hstatus).
  do 3 eexists. exists e.
  split; [exact Hfirst |]. simpl.
  split; [reflexivity |]. split; [reflexivity |]. split; [reflexivity |].
  split; [apply find_some in Hu; apply String.eqb_eq, Hu |].
  split; [| split; [exact Hsecond | exact Hstatus]].
  unfold Protocol.active. simpl. apply Z.ltb_lt.
  unfold AuthService.refreshTokenExpiry.
  pose proof (addDays_week (TZ env) now Hz) as Hweek.
  unfold Js.msPerDay in Hweek. lia.
Qed.

End Rotation.

(** C1, at a refresh within the clock second in which the token was
    issued.  The token of a registration at [t0] is valid half a second
    later: verified, stored, not revoked, not expired.  Its refresh mints
    the very same refresh-token string (same owner, same second), the
    insert of the new row hits the unique constraint, and the call throws
    [Token refresh failed: ...] with status 500 after the old row has been
    revoked: the account is left with no ACTIVE row at all. *)
Theorem refreshToken_same_second_loses_session :
  let now := Sample.t0 + 500 in
  let T := Sample.token1 in
  (exists c r,
      JWTService.verifyRefreshToken Sample.env now T = inr c
      /\ find (fun x => Jwt.eqb (Prisma.token x) T)
              (Prisma.refreshTokens Sample.registered) = Some r
      /\ Prisma.isRevoked r = false
      /\ now < Prisma.expiresAt r)
  /\ (exists tp,
         JWTService.generateTokenPair Sample.env now
           (JWTService.mkPayload "c0" "alice@example.com" "") = inr tp
         /\ JWTService.refreshToken tp = T)
  /\ exists db1 e,
      AuthService.refreshToken Sample.env now T Sample.registered = (db1, inl e)
      /\ Js.message e
         = "Token refresh failed: Invalid `prisma.refreshToken.create()` invocation: Unique constraint failed on the fields: (`token`)"
      /\ AuthController.refreshStatus e = 500
      /\ map Prisma.isRevoked (Prisma.refreshTokens db1) = [true]
      /\ filter (Protocol.active now) (Prisma.refreshTokens db1) = [].
Proof.
  cbv zeta. split; [| split].
  - eexists. eexists. split; [vm_compute; reflexivity |].
    split; [vm_compute; reflexivity |]. split; reflexivity.
  - eexists. split; vm_compute; reflexivity.
  - eexists. eexists. split; [vm_compute; reflexivity |].
    split; [reflexivity |]. split; vm_compute; auto.
Qed.

(** Five seconds after the registration the same token is exchanged as
    intended: one new ACTIVE row, and the replay is refused. *)
Example refreshToken_exactly_once_later_second :
  exists db1 resp fresh e,
    AuthService.refreshToken Sample.env (Sample.t0 + 5000) Sample.token1
      Sample.registered = (db1, inr resp)
    /\ map Prisma.isRevoked (Prisma.refreshTokens db1) = [true; false]
    /\ filter (Protocol.active (Sample.t0 + 5000)) (Prisma.refreshTokens db1)
       = [fresh]
    /\ Prisma.token fresh <> Sample.token1
    /\ AuthService.refreshToken Sample.env (Sample.t0 + 6000) Sample.token1 db1
       = (db1, inl e)
    /\ Js.message e = "Refresh token has been revoked"
    /\ AuthController.refreshStatus e = 401.
Proof.
  do 4 eexists.
  split; [vm_compute; reflexivity |].
  split; [reflexivity |]. split; [vm_compute; reflexivity |].
  split; [simpl; discriminate |].
  split; [vm_compute; reflexivity |]. split; reflexivity.
Qed.

(** * Further properties of the services *)

(** ** What the verifiers accept *)

Lemma verifyAccessToken_inv env now t c :
  JWTService.verifyAccessToken env now t = inr c ->
  Js.falsy (JWT_ACCESS_SECRET env) = false
  /\ t = Jwt.Signed c (JWT_ACCESS_SECRET env)
  /\ Jwt.type c = "access"
  /\ Jwt.seconds now < Jwt.exp c
  /\ Jwt.iss c = "auth-service" /\ Jwt.aud c = "auth-client".
Proof.
  unfold JWTService.verifyAccessToken.
  destruct (Jwt.falsy t); [discriminate |].
  destruct (Js.falsy (JWT_ACCESS_SECRET env)); [discriminate |].
  destruct t as [c0 key | s]; [| discriminate].
  unfold Jwt.verify.
  destruct (String.eqb_spec key (JWT_ACCESS_SECRET env)) as [-> | _];
    [| discriminate].
  destruct (String.eqb_spec (Jwt.aud c0) "auth-client") as [Haud | _],
           (String.eqb_spec (Jwt.iss c0) "auth-service") as [Hiss | _],
           (Z.leb_spec (Jwt.exp c0) (Jwt.seconds now)) as [_ | Hexp];
    simpl; try discriminate.
  destruct (String.eqb_spec (Jwt.type c0) "access") as [Hty | _]; simpl;
    [| discriminate].
  intros H. injection H as <-. repeat split; assumption.
Qed.

Lemma verifyRefreshToken_inv env now t c :
  JWTService.verifyRefreshToken env now t = inr c ->
  Js.falsy (JWT_REFRESH_SECRET env) = false
  /\ t = Jwt.Signed c (JWT_REFRESH_SECRET env)
  /\ Jwt.type c = "refresh"
  /\ Jwt.seconds now < Jwt.exp c
  /\ Jwt.iss c = "auth-service" /\ Jwt.aud c = "auth-client".
Proof.
  unfold JWTService.verifyRefreshToken.
  destruct (Jwt.falsy t); [discriminate |].
  destruct (Js.falsy (JWT_REFRESH_SECRET env)); [discriminate |].
  destruct t as [c0 key | s]; [| discriminate].
  unfold Jwt.verify.
  destruct (String.eqb_spec key (JWT_REFRESH_SECRET env)) as [-> | _];
    [| discriminate].
  destruct (String.eqb_spec (Jwt.aud c0) "auth-client") as [Haud | _],
           (String.eqb_spec (Jwt.iss c0) "auth-service") as [Hiss | _],
           (Z.leb_spec (Jwt.exp c0) (Jwt.seconds now)) as [_ | Hexp];
    simpl; try discriminate.
  destruct (String.eqb_spec (Jwt.type c0) "refresh") as [Hty | _]; simpl;
    [| discriminate].
  intros H. injection H as <-. repeat split; assumption.
Qed.

(** X1: a verifier returns claims only for a token that carries exactly
    those claims, is signed with the verifier's own, non-empty secret, is
    of the verifier's kind, names the service as issuer and its clients as
    audience, and has not reached its expiry; [verifyAccessToken] and
    [verifyRefreshToken] alike. *)
Theorem verifiers_accept_only_genuine_tokens :
  forall env now t c,
    (JWTService.verifyAccessToken env now t = inr c ->
     Js.falsy (JWT_ACCESS_SECRET env) = false
     /\ t = Jwt.Signed c (JWT_ACCESS_SECRET env)
     /\ Jwt.type c = "access"
     /\ Jwt.seconds now < Jwt.exp c
     /\ Jwt.iss c = "auth-service" /\ Jwt.aud c = "auth-client")
    /\ (JWTService.verifyRefreshToken env now t = inr c ->
        Js.falsy (JWT_REFRESH_SECRET env) = false
        /\ t = Jwt.Signed c (JWT_REFRESH_SECRET env)
        /\ Jwt.type c = "refresh"
        /\ Jwt.seconds now < Jwt.exp c
        /\ Jwt.iss c = "auth-service" /\ Jwt.aud c = "auth-client").
Proof.
  intros env now t c. split.
  - apply verifyAccessToken_inv.
  - apply verifyRefreshToken_inv.
Qed.

Lemma verifiers_accept_only_genuine_tokens_witness :
  exists c c',
    JWTService.verifyAccessToken Sample.env (Sample.t0 + 60000) Sample.access1
    = inr c
    /\ Sample.access1 = Jwt.Signed c (JWT_ACCESS_SECRET Sample.env)
    /\ Jwt.type c = "access"
    /\ JWTService.verifyRefreshToken Sample.env (Sample.t0 + 60000)
         Sample.token1 = inr c'
    /\ Sample.token1 = Jwt.Signed c' (JWT_REFRESH_SECRET Sample.env)
    /\ Jwt.type c' = "refresh".
Proof.
  eexists. eexists.
  split; [vm_compute; reflexivity |].
  split.
  { refine (proj1 (proj2 (proj1
             (verifiers_accept_only_genuine_tokens Sample.env
                (Sample.t0 + 60000) Sample.access1 _) _))).
    vm_compute. reflexivity. }
  split; [reflexivity |].
  split; [vm_compute; reflexivity |].
  split.
  { refine (proj1 (proj2 (proj2
             (verifiers_accept_only_genuine_tokens Sample.env
                (Sample.t0 + 60000) Sample.token1 _) _))).
    vm_compute. reflexivity. }
  reflexivity.
Defined.

(** ** Issue, then verify *)

Lemma verifyAccessToken_signed env now c :
  Js.falsy (JWT_ACCESS_SECRET env) = false ->
  Jwt.type c = "access" ->
  Jwt.iss c = "auth-service" -> Jwt.aud c = "auth-client" ->
  JWTService.verifyAccessToken env now (Jwt.Signed c (JWT_ACCESS_SECRET env))
  = if Jwt.exp c <=? Jwt.seconds now
    then inl (Js.error "Access token has expired")
    else inr c.
Proof.
  intros Hs Hty Hiss Haud.
  unfold JWTService.verifyAccessToken, Jwt.verify. simpl.
  rewrite Hs, String.eqb_refl, Haud, Hiss. simpl.
  destruct (Jwt.exp c <=? Jwt.seconds now); simpl; [reflexivity |].
  rewrite Hty. reflexivity.
Qed.

Lemma verifyRefreshToken_signed env now c :
  Js.falsy (JWT_REFRESH_SECRET env) = false ->
  Jwt.type c = "refresh" ->
  Jwt.iss c = "auth-service" -> Jwt.aud c = "auth-client" ->
  JWTService.verifyRefreshToken env now (Jwt.Signed c (JWT_REFRESH_SECRET env))
  = if Jwt.exp c <=? Jwt.seconds now
    then inl (Js.error "Refresh token has expired")
    else inr c.
Proof.
  intros Hs Hty Hiss Haud.
  unfold JWTService.verifyRefreshToken, Jwt.verify. simpl.
  rewrite Hs, String.eqb_refl, Haud, Hiss. simpl.
  destruct (Jwt.exp c <=? Jwt.seconds now); simpl; [reflexivity |].
  rewrite Hty. reflexivity.
Qed.

Lemma generateRefreshToken_exp env now payload c :
  JWTService.generateRefreshToken env now payload
  = inr (Jwt.Signed c (JWT_REFRESH_SECRET env)) ->
  Jwt.exp c = Jwt.seconds now
              + match JWT_REFRESH_EXPIRES_IN env with
                | Some s => s
                | None => 7 * 24 * 60 * 60
                end.
Proof.
  unfold JWTService.generateRefreshToken.
  destruct (Js.falsy (JWTService.userId payload)); [discriminate |].
  destruct (Js.falsy (JWTService.email payload)); [discriminate |].
  destruct (Js.falsy (JWT_REFRESH_SECRET env)); [discriminate |].
  unfold Jwt.sign. intros H. injection H as <-. reflexivity.
Qed.

Lemma generateAccessToken_exp env now payload c :
  JWTService.generateAccessToken env now payload
  = inr (Jwt.Signed c (JWT_ACCESS_SECRET env)) ->
  Jwt.exp c = Jwt.seconds now
              + match JWT_ACCESS_EXPIRES_IN env with
                | Some s => s
                | None => 15 * 60
                end.
Proof.
  unfold JWTService.generateAccessToken.
  destruct (Js.falsy (JWTService.userId payload)); [discriminate |].
  destruct (Js.falsy (JWTService.email payload)); [discriminate |].
  destruct (Js.falsy (JWT_ACCESS_SECRET env)); [discriminate |].
  unfold Jwt.sign. intros H. injection H as <-. reflexivity.
Qed.

(** X2: an access token issued at [now] verifies at [now'] exactly while
    the clock second of [now'] is below the second of issue plus the
    configured life-time (15 minutes when unset); it then yields the
    subject's id and email, the type [access] and the payload's role or
    [user].  From that second on the answer is [Access token has
    expired]. *)
Theorem access_token_round_trip :
  forall env now now' payload t,
    JWTService.generateAccessToken env now payload = inr t ->
    let ttl := match JWT_ACCESS_EXPIRES_IN env with
               | Some s => s
               | None => 15 * 60
               end in
    exists c,
      t = Jwt.Signed c (JWT_ACCESS_SECRET env)
      /\ Jwt.userId c = JWTService.userId payload
      /\ Jwt.email c = JWTService.email payload
      /\ Jwt.role c = Some (JWTService.orElse (JWTService.role payload) "user")
      /\ Jwt.exp c = Jwt.seconds now + ttl
      /\ JWTService.verifyAccessToken env now' t
         = if Jwt.seconds now' <? Jwt.seconds now + ttl
           then inr c
           else inl (Js.error "Access token has expired").
Proof.
  intros env now now' payload t Hgen ttl.
  destruct (generateAccessToken_inv _ _ _ _ Hgen)
    as (Hs & c & -> & Hty & Hrole & Hu & He & _ & Hiss & Haud).
  pose proof (generateAccessToken_exp _ _ _ _ Hgen) as Hexp.
  exists c. repeat split; try assumption.
  rewrite (verifyAccessToken_signed env now' c Hs Hty Hiss Haud), Hexp.
  subst ttl.
  destruct (Z.leb_spec
              (Jwt.seconds now + match JWT_ACCESS_EXPIRES_IN env with
                                 | Some s => s
                                 | None => 15 * 60
                                 end) (Jwt.seconds now')) as [H | H].
  - apply Z.ltb_ge in H. rewrite H. reflexivity.
  - apply Z.ltb_lt in H. rewrite H. reflexivity.
Qed.

Lemma access_token_round_trip_witness :
  exists t c,
    JWTService.generateAccessToken Sample.env Sample.t0
      (JWTService.mkPayload "u1" "u1@example.com" "admin") = inr t
    /\ Jwt.role c = Some "admin"
    /\ JWTService.verifyAccessToken Sample.env (Sample.t0 + 899000) t = inr c
    /\ JWTService.verifyAccessToken Sample.env (Sample.t0 + 900000) t
       = inl (Js.error "Access token has expired").
Proof.
  destruct (access_token_round_trip Sample.env Sample.t0 (Sample.t0 + 899000)
              (JWTService.mkPayload "u1" "u1@example.com" "admin")
              (Jwt.sign Sample.t0
                 (Jwt.mkBody "u1" "u1@example.com" (Some "admin") "access")
                 "test-access-secret-key" 900 "auth-service" "auth-client")
              eq_refl)
    as (c & Ht & _ & _ & Hrole & _ & Hv).
  eexists. exists c.
  split; [reflexivity |]. split; [exact Hrole |]. split; [exact Hv |].
  vm_compute. reflexivity.
Defined.




(** ** Two tokens for one subject *)

Lemma generateRefreshToken_eq env now payload t :
  JWTService.generateRefreshToken env now payload = inr t ->
  t = Jwt.sign now
        (Jwt.mkBody (JWTService.userId payload) (JWTService.email payload)
                    None "refresh")
        (JWT_REFRESH_SECRET env)
        (match JWT_REFRESH_EXPIRES_IN env with
         | Some s => s
         | None => 7 * 24 * 60 * 60
         end) "auth-service" "auth-client".
Proof.
  unfold JWTService.generateRefreshToken.
  destruct (Js.falsy (JWTService.userId payload)); [discriminate |].
  destruct (Js.falsy (JWTService.email payload)); [discriminate |].
  destruct (Js.falsy (JWT_REFRESH_SECRET env)); [discriminate |].
  intros H. injection H as <-. reflexivity.
Qed.

Lemma generateRefreshToken_same_token env now now' payload t t' :
  JWTService.generateRefreshToken env now payload = inr t ->
  JWTService.generateRefreshToken env now' payload = inr t' ->
  t' = t <-> Jwt.seconds now' = Jwt.seconds now.
Proof.
  intros H H'. apply generateRefreshToken_eq in H, H'. subst t t'.
  unfold Jwt.sign. simpl. split.
  - intros E. injection E. intros _ Hs. exact Hs.
  - intros ->. reflexivity.
Qed.

(** X4: [refreshTokens], given a refresh token this service issued,
    returns a pair for the same subject whose access token has the role
    [user]; its refresh token is the presented token itself exactly when
    the call falls into the clock second in which that token was issued,
    and a different string in every other second. *)
Theorem refreshTokens_new_token_iff_new_second :
  forall env now now' payload t tp,
    JWTService.generateRefreshToken env now payload = inr t ->
    JWTService.refreshTokens env now' t = inr tp ->
    (JWTService.refreshToken tp = t <-> Jwt.seconds now' = Jwt.seconds now)
    /\ exists c,
        JWTService.accessToken tp = Jwt.Signed c (JWT_ACCESS_SECRET env)
        /\ Jwt.userId c = JWTService.userId payload
        /\ Jwt.email c = JWTService.email payload
        /\ Jwt.role c = Some "user".
Proof.
  intros env now now' payload t tp Hgen Hre.
  unfold JWTService.refreshTokens, Js.bind in Hre.
  destruct (JWTService.verifyRefreshToken env now' t) as [e | c] eqn:Hv;
    [discriminate |].
  destruct (verifyRefreshToken_inv _ _ _ _ Hv) as (_ & Ht & _).
  destruct (generateRefreshToken_inv _ _ _ _ Hgen)
    as (_ & c0 & Ht0 & _ & Hrole & Hu & He & _).
  assert (c0 = c) by congruence. subst c0.
  rewrite Hrole, Hu, He in Hre.
  destruct (generateTokenPair_inv _ _ _ _ Hre) as [Ha Hr].
  split.
  - apply (generateRefreshToken_same_token env now now'
             (JWTService.mkPayload (JWTService.userId payload)
                                   (JWTService.email payload) "")).
    + rewrite <- Hgen. unfold JWTService.generateRefreshToken. reflexivity.
    + exact Hr.
  - destruct (generateAccessToken_inv _ _ _ _ Ha)
      as (_ & ca & Hca & _ & Hrole' & Hu' & He' & _).
    exists ca. repeat split; assumption.
Qed.

Lemma refreshTokens_new_token_iff_new_second_witness :
  exists same other,
    JWTService.refreshTokens Sample.env (Sample.t0 + 999) Sample.token1
    = inr same
    /\ JWTService.refreshToken same = Sample.token1
    /\ JWTService.refreshTokens Sample.env (Sample.t0 + 1000) Sample.token1
       = inr other
    /\ JWTService.refreshToken other <> Sample.token1.
Proof.
  eexists. eexists.
  split; [vm_compute; reflexivity |].
  split.
  { apply (proj1 (refreshTokens_new_token_iff_new_second Sample.env Sample.t0
                    (Sample.t0 + 999)
                    (JWTService.mkPayload "c0" "alice@example.com" "")
                    Sample.token1 _ eq_refl eq_refl)).
    reflexivity. }
  split; [vm_compute; reflexivity |].
  intros E.
  apply (proj1 (refreshTokens_new_token_iff_new_second Sample.env Sample.t0
                  (Sample.t0 + 1000)
                  (JWTService.mkPayload "c0" "alice@example.com" "")
                  Sample.token1 _ eq_refl eq_refl)) in E.
  vm_compute in E. discriminate E.
Defined.

(** ** Inspection without verification *)

(** X5: on a clock at or after the epoch, [isTokenExpired] is false for
    every token one of the verifiers accepts.  The converse fails in the
    very second of the expiry: there [isTokenExpired] is still false for a
    token that [verifyAccessToken] already refuses as expired, because the
    one compares with [<] and the other with [<=]. *)
Theorem isTokenExpired_and_the_verifiers :
  forall env now t c,
    0 <= now ->
    (JWTService.verifyAccessToken env now t = inr c ->
     JWTService.isTokenExpired now t = false)
    /\ (JWTService.verifyRefreshToken env now t = inr c ->
        JWTService.isTokenExpired now t = false)
    /\ (Js.falsy (JWT_ACCESS_SECRET env) = false ->
        Jwt.type c = "access" ->
        Jwt.iss c = "auth-service" -> Jwt.aud c = "auth-client" ->
        Jwt.exp c = Jwt.seconds now -> Jwt.exp c <> 0 ->
        JWTService.isTokenExpired now (Jwt.Signed c (JWT_ACCESS_SECRET env))
        = false
        /\ JWTService.verifyAccessToken env now
             (Jwt.Signed c (JWT_ACCESS_SECRET env))
           = inl (Js.error "Access token has expired")).
Proof.
  intros env now t c Hnow.
  assert (Hsec : 0 <= Jwt.seconds now).
  { unfold Jwt.seconds. apply Z.div_pos; lia. }
  assert (Hlive : forall k, Jwt.seconds now < Jwt.exp c ->
                            JWTService.isTokenExpired now (Jwt.Signed c k)
                            = false).
  { intros k Hlt. unfold JWTService.isTokenExpired. simpl.
    destruct (Z.eqb_spec (Jwt.exp c) 0) as [E | _]; [lia |].
    apply Z.ltb_ge. lia. }
  split; [| split].
  - intros Hv. destruct (verifyAccessToken_inv _ _ _ _ Hv) as (_ & -> & _ & Hlt & _).
    apply Hlive, Hlt.
  - intros Hv. destruct (verifyRefreshToken_inv _ _ _ _ Hv) as (_ & -> & _ & Hlt & _).
    apply Hlive, Hlt.
  - intros Hs Hty Hiss Haud Hexp Hnz. split.
    + unfold JWTService.isTokenExpired. simpl.
      destruct (Z.eqb_spec (Jwt.exp c) 0) as [E | _]; [contradiction |].
      apply Z.ltb_ge. lia.
    + rewrite (verifyAccessToken_signed env now c Hs Hty Hiss Haud).
      replace (Jwt.exp c <=? Jwt.seconds now) with true; [reflexivity |].
      symmetry. apply Z.leb_le. lia.
Qed.

Lemma isTokenExpired_and_the_verifiers_witness :
  let last := Sample.t0 + 900000 in
  JWTService.isTokenExpired (Sample.t0 + 60000) Sample.access1 = false
  /\ JWTService.isTokenExpired last Sample.access1 = false
  /\ JWTService.verifyAccessToken Sample.env last Sample.access1
     = inl (Js.error "Access token has expired")
  /\ JWTService.isTokenExpired (last + 1000) Sample.access1 = true.
Proof.
  cbv zeta.
  pose proof (isTokenExpired_and_the_verifiers Sample.env (Sample.t0 + 60000)
                Sample.access1
                (Jwt.mkClaims "c0" "alice@example.com" (Some "user") "access"
                              1700000000 1700000900
                              "auth-service" "auth-client")
                ltac:(vm_compute; discriminate)) as [Hlive _].
  pose proof (isTokenExpired_and_the_verifiers Sample.env (Sample.t0 + 900000)
                Sample.access1
                (Jwt.mkClaims "c0" "alice@example.com" (Some "user") "access"
                              1700000000 1700000900
                              "auth-service" "auth-client")
                ltac:(vm_compute; discriminate)) as [_ [_ Hedge]].
  split; [apply Hlive; vm_compute; reflexivity |].
  destruct Hedge as [H1 H2];
    try reflexivity; try (vm_compute; discriminate).
  split; [exact H1 |]. split; [exact H2 |]. vm_compute. reflexivity.
Defined.

(** X6: for a refresh token issued at [now], on a clock at or after the
    epoch and with a positive life-time, [getTokenExpiration] is the issue
    time cut to its whole second plus the life-time: a date at most the
    issue time plus the life-time, and less than a second before it. *)
Theorem getTokenExpiration_of_issued_token :
  forall env now payload t,
    0 <= now ->
    let ttl := match JWT_REFRESH_EXPIRES_IN env with
               | Some s => s
               | None => 7 * 24 * 60 * 60
               end in
    0 < ttl ->
    JWTService.generateRefreshToken env now payload = inr t ->
    exists date,
      JWTService.getTokenExpiration t = Some date
      /\ date = (Jwt.seconds now + ttl) * 1000
      /\ now + ttl * 1000 - 1000 < date <= now + ttl * 1000.
Proof.
  intros env now payload t Hnow ttl Httl Hgen.
  destruct (generateRefreshToken_inv _ _ _ _ Hgen) as (_ & c & -> & _).
  pose proof (generateRefreshToken_exp _ _ _ _ Hgen) as Hexp. fold ttl in Hexp.
  assert (Hsec : 0 <= Jwt.seconds now).
  { unfold Jwt.seconds. apply Z.div_pos; lia. }
  exists ((Jwt.seconds now + ttl) * 1000).
  unfold JWTService.getTokenExpiration. simpl. rewrite Hexp.
  destruct (Z.eqb_spec (Jwt.seconds now + ttl) 0) as [E | _]; [lia |].
  split; [reflexivity |]. split; [reflexivity |].
  unfold Jwt.seconds.
  pose proof (Z.div_mod now 1000 ltac:(lia)) as Hd.
  pose proof (Z.mod_pos_bound now 1000 ltac:(lia)) as Hr.
  lia.
Qed.

Lemma getTokenExpiration_of_issued_token_witness :
  JWTService.getTokenExpiration
    (Sample.refreshTokenOf
       (snd (AuthService.refreshToken Sample.env (Sample.t0 + 5432)
               Sample.token1 Sample.registered)))
  = Some (Sample.t0 + 5000 + 7 * Js.msPerDay).
Proof.
  destruct (getTokenExpiration_of_issued_token Sample.env (Sample.t0 + 5432)
              (JWTService.mkPayload "c0" "alice@example.com" "")
              (Sample.refreshTokenOf
                 (snd (AuthService.refreshToken Sample.env (Sample.t0 + 5432)
                         Sample.token1 Sample.registered))))
    as (date & Hd & -> & _).
  - vm_compute. discriminate.
  - vm_compute. reflexivity.
  - vm_compute. reflexivity.
  - rewrite Hd. vm_compute. reflexivity.
Defined.

(** ** Strength policy and hashing *)

(** X7: a password that [validatePasswordStrength] accepts is one that
    [hashPassword] hashes: neither of its two guards (empty, shorter than
    6) can fire, and the answer is the bcrypt hash with 12 rounds. *)
Theorem strong_password_is_hashed :
  forall bcrypt_hash salt password,
    PasswordService.isValid
      (PasswordService.validatePasswordStrength password) = true ->
    PasswordService.hashPassword bcrypt_hash salt password
    = inr (bcrypt_hash salt password 12).
Proof.
  intros h salt password Hvalid.
  apply validate_isValid in Hvalid.
  destruct (Js.falsy password) eqn:Hne.
  { unfold PasswordService.validatePasswordStrength in Hvalid.
    rewrite Hne in Hvalid. discriminate Hvalid. }
  rewrite (validate_nonempty _ Hne) in Hvalid.
  unfold PasswordService.allRules in Hvalid. simpl filter in Hvalid.
  destruct (String.length password <? 8)%nat eqn:Hlen;
    [simpl in Hvalid; discriminate Hvalid |].
  apply Nat.ltb_ge in Hlen.
  unfold PasswordService.hashPassword. rewrite Hne.
  replace (Z.of_nat (String.length password) <? 6) with false;
    [reflexivity |].
  symmetry. apply Z.ltb_ge. lia.
Qed.

Lemma strong_password_is_hashed_witness :
  PasswordService.hashPassword Sample.bcrypt_hash "s" "Aa1!aaaa"
  = inr "$2b$s$Aa1!aaaa".
Proof.
  exact (strong_password_is_hashed Sample.bcrypt_hash "s" "Aa1!aaaa" eq_refl).
Defined.

(** ** After a logout *)

Lemma verified_token_is_truthy env now t c :
  JWTService.verifyRefreshToken env now t = inr c -> Jwt.falsy t = false.
Proof.
  unfold JWTService.verifyRefreshToken.
  destruct (Jwt.falsy t); [discriminate | reflexivity].
Qed.

Lemma logout_of_revoked_token env now now' t c r rows users extra n :
  JWTService.verifyRefreshToken env now t = inr c ->
  find (fun x => Jwt.eqb (Prisma.token x) t) rows = Some r ->
  let db1 :=
    Prisma.mkDb users
      (map (fun x => if Jwt.eqb (Prisma.token x) t then Prisma.revoke x else x)
           rows ++ extra) n in
  AuthService.logout env now' t db1
  = (db1, inl (Js.error
                 (if Jwt.exp c <=? Jwt.seconds now'
                  then "Logout failed: Refresh token has expired"
                  else "Token already revoked"))).
Proof.
  intros Hv Hfind db1.
  pose proof (verified_token_is_truthy _ _ _ _ Hv) as Hf.
  destruct (verifyRefreshToken_inv _ _ _ _ Hv)
    as (Hs & -> & Hty & _ & Hiss & Haud).
  unfold AuthService.logout. rewrite Hf. run_client.
  rewrite (verifyRefreshToken_signed env now' c Hs Hty Hiss Haud).
  destruct (Jwt.exp c <=? Jwt.seconds now'); simpl; [reflexivity |].
  subst db1. simpl. rewrite (find_token_after_rotation _ _ _ _ Hfind).
  reflexivity.
Qed.

(** X8: a token that has been logged out is dead.  After a successful
    [logout], a further [logout] with it throws [Token already revoked]
    (status 400) while the token's own expiry lies ahead and [Logout
    failed: Refresh token has expired] (status 500) afterwards; a
    [refreshToken] with it is refused with status 401 at any time; and
    neither call changes the database. *)
Theorem logged_out_token_is_dead :
  forall env now now' t db db' resp,
    AuthService.logout env now t db = (db', inr resp) ->
    exists c e e',
      JWTService.verifyRefreshToken env now t = inr c
      /\ AuthService.logout env now' t db' = (db', inl e)
      /\ Js.message e = (if Jwt.exp c <=? Jwt.seconds now'
                         then "Logout failed: Refresh token has expired"
                         else "Token already revoked")
      /\ AuthController.logoutStatus e
         = (if Jwt.exp c <=? Jwt.seconds now' then 500 else 400)
      /\ AuthService.refreshToken env now' t db' = (db', inl e')
      /\ AuthController.refreshStatus e' = 401.
Proof.
  intros env now now' t db db' resp H.
  destruct (logout_success_inv _ _ _ _ _ _ H)
    as [[c Hv] [[r [Hfind Hrev]] ->]].
  pose proof (verified_token_is_truthy _ _ _ _ Hv) as Hf.
  pose proof (logout_of_revoked_token env now now' t c r
                (Prisma.refreshTokens db) (Prisma.users db) []
                (Prisma.nextId db) Hv Hfind) as Hout.
  destruct (refreshToken_replay_rejected env now now' t c r
              (Prisma.refreshTokens db) (Prisma.users db) []
              (Prisma.nextId db) Hf Hv Hfind) as (e' & Hre & Hst).
  cbv zeta in Hout. rewrite app_nil_r in Hout, Hre.
  exists c. eexists. exists e'.
  split; [exact Hv |]. split; [exact Hout |].
  split; [reflexivity |].
  split; [destruct (Jwt.exp c <=? Jwt.seconds now'); reflexivity |].
  split; assumption.
Qed.

Lemma logged_out_token_is_dead_witness :
  exists e e',
    AuthService.logout Sample.env (Sample.t0 + 7000) Sample.token1
      Sample.oneRevoked = (Sample.oneRevoked, inl e)
    /\ Js.message e = "Token already revoked"
    /\ AuthService.refreshToken Sample.env (Sample.t0 + 7000) Sample.token1
         Sample.oneRevoked = (Sample.oneRevoked, inl e')
    /\ AuthController.refreshStatus e' = 401.
Proof.
  destruct (logged_out_token_is_dead Sample.env (Sample.t0 + 6000)
              (Sample.t0 + 7000) Sample.token1 Sample.twoSessions
              Sample.oneRevoked
              (AuthService.mkResponse "Logout successful" None None None)
              eq_refl)
    as (c & e & e' & Hv & Hout & Hmsg & _ & Hre & Hst).
  exists e, e'. split; [exact Hout |]. split; [| split; assumption].
  rewrite Hmsg. vm_compute in Hv. injection Hv as <-. reflexivity.
Defined.

(** ** Revoking every session of a user *)

Lemma revoke_revoked r : Prisma.isRevoked r = true -> Prisma.revoke r = r.
Proof. destruct r; simpl; intros ->; reflexivity. Qed.

Lemma revoke_owned_rows uid rows :
  map (fun r => if (Prisma.userId r =? uid)%string && negb (Prisma.isRevoked r)
                then Prisma.revoke r else r) rows
  = map (fun r => if (Prisma.userId r =? uid)%string
                  then Prisma.revoke r else r) rows.
Proof.
  apply map_ext. intros r.
  destruct (Prisma.userId r =? uid)%string; simpl; [| reflexivity].
  destruct (Prisma.isRevoked r) eqn:E; simpl; [| reflexivity].
  symmetry. apply revoke_revoked, E.
Qed.

Lemma no_open_rows_after_revocation uid rows :
  filter (fun r => (Prisma.userId r =? uid)%string && negb (Prisma.isRevoked r))
         (map (fun r => if (Prisma.userId r =? uid)%string
                        then Prisma.revoke r else r) rows)
  = [].
Proof.
  apply filter_all_false. intros r' Hin.
  apply in_map_iff in Hin. destruct Hin as (r & <- & _).
  destruct (Prisma.userId r =? uid)%string eqn:E; simpl.
  - rewrite E. reflexivity.
  - rewrite E. reflexivity.
Qed.

(** X9: [revokeAllTokens] for a non-empty user id always succeeds.  It
    leaves the users alone, turns every refresh-token row of that user
    into its revoked self, keeps every row of every other user as it was,
    and answers the number of rows of the user that were not yet revoked;
    called again at once it changes nothing and answers 0. *)
Theorem revokeAllTokens_revokes_the_users_rows :
  forall userId db,
    Js.falsy userId = false ->
    let db' :=
      Prisma.mkDb (Prisma.users db)
        (map (fun r => if (Prisma.userId r =? userId)%string
                       then Prisma.revoke r else r)
             (Prisma.refreshTokens db))
        (Prisma.nextId db) in
    let n := List.length
               (filter (fun r => (Prisma.userId r =? userId)%string
                                 && negb (Prisma.isRevoked r))
                       (Prisma.refreshTokens db)) in
    AuthService.revokeAllTokens userId db
    = (db', inr (AuthService.mkResponse
                   ("Revoked " ++ AuthService.decimal n ++ " refresh tokens")
                   None None (Some n)))
    /\ AuthService.revokeAllTokens userId db'
       = (db', inr (AuthService.mkResponse "Revoked 0 refresh tokens"
                      None None (Some 0%nat)))
    /\ (forall r, In r (Prisma.refreshTokens db') ->
                  Prisma.userId r = userId -> Prisma.isRevoked r = true)
    /\ (forall i r, nth_error (Prisma.refreshTokens db) i = Some r ->
                    Prisma.userId r <> userId ->
                    nth_error (Prisma.refreshTokens db') i = Some r).
Proof.
  intros uid db Hne db' n.
  assert (Hrun : forall d,
             AuthService.revokeAllTokens uid d
             = (Prisma.mkDb (Prisma.users d)
                  (map (fun r => if (Prisma.userId r =? uid)%string
                                 then Prisma.revoke r else r)
                       (Prisma.refreshTokens d))
                  (Prisma.nextId d),
                inr (AuthService.mkResponse
                       ("Revoked "
                          ++ AuthService.decimal
                               (List.length
                                  (filter (fun r =>
                                             (Prisma.userId r =? uid)%string
                                             && negb (Prisma.isRevoked r))
                                          (Prisma.refreshTokens d)))
                          ++ " refresh tokens")
                       None None
                       (Some (List.length
                                (filter (fun r =>
                                           (Prisma.userId r =? uid)%string
                                           && negb (Prisma.isRevoked r))
                                        (Prisma.refreshTokens d))))))).
  { intros d. unfold AuthService.revokeAllTokens. rewrite Hne.
    unfold Prisma.tryCatch, Prisma.bind, Prisma.ret,
      Prisma.refreshToken_updateMany_revoke. simpl.
    rewrite revoke_owned_rows. reflexivity. }
  split; [apply Hrun |]. split; [| split].
  - rewrite Hrun. subst db'. simpl.
    rewrite no_open_rows_after_revocation. simpl.
    f_equal. f_equal. rewrite map_map. apply map_ext. intros r.
    destruct (Prisma.userId r =? uid)%string eqn:E; simpl; rewrite E;
      reflexivity.
  - subst db'. simpl. intros r' Hin Hu.
    apply in_map_iff in Hin. destruct Hin as (r & <- & _).
    destruct (Prisma.userId r =? uid)%string eqn:E; [reflexivity |].
    apply String.eqb_neq in E. contradiction.
  - subst db'. simpl. intros i r Hi Hu.
    rewrite nth_error_map, Hi. simpl.
    apply String.eqb_neq in Hu. rewrite Hu. reflexivity.
Qed.

Lemma revokeAllTokens_revokes_the_users_rows_witness :
  exists db' resp,
    AuthService.revokeAllTokens "c0" Sample.twoSessions = (db', inr resp)
    /\ AuthService.count resp = Some 1%nat
    /\ map Prisma.userId (Prisma.refreshTokens db') = ["c0"; "c2"]
    /\ map Prisma.isRevoked (Prisma.refreshTokens db') = [true; false]
    /\ AuthService.revokeAllTokens "c0" db'
       = (db', inr (AuthService.mkResponse "Revoked 0 refresh tokens"
                      None None (Some 0%nat))).
Proof.
  destruct (revokeAllTokens_revokes_the_users_rows "c0" Sample.twoSessions
              eq_refl) as (Hfirst & Hsecond & _).
  eexists. eexists. split; [exact Hfirst |].
  split; [vm_compute; reflexivity |]. split; [vm_compute; reflexivity |].
  split; [vm_compute; reflexivity |].
  exact Hsecond.
Defined.

Lemma find_token_after_revocation uid t rows r :
  find (fun x => Jwt.eqb (Prisma.token x) t) rows = Some r ->
  find (fun x => Jwt.eqb (Prisma.token x) t)
       (map (fun x => if (Prisma.userId x =? uid)%string
                      then Prisma.revoke x else x) rows)
  = Some (if (Prisma.userId r =? uid)%string then Prisma.revoke r else r).
Proof.
  induction rows as [| a rows IH]; simpl; [discriminate |].
  destruct (Jwt.eqb (Prisma.token a) t) eqn:E.
  - intros H. injection H as <-.
    destruct (Prisma.userId a =? uid)%string; simpl; rewrite E; reflexivity.
  - intros H. destruct (Prisma.userId a =? uid)%string; simpl; rewrite E;
      apply IH, H.
Qed.

(** X10: after [revokeAllTokens] for a user, no refresh token of that user
    can be exchanged or logged out any more: for every token stored for
    the user, [refreshToken] and [logout] both throw and leave the database
    as it is, and when the token itself still verifies the errors are
    [Refresh token has been revoked] and [Token already revoked]. *)
Theorem revokeAllTokens_ends_every_session :
  forall env now userId t db r,
    Js.falsy userId = false ->
    Jwt.falsy t = false ->
    find (fun x => Jwt.eqb (Prisma.token x) t) (Prisma.refreshTokens db)
    = Some r ->
    Prisma.userId r = userId ->
    let db' := fst (AuthService.revokeAllTokens userId db) in
    exists e e',
      AuthService.refreshToken env now t db' = (db', inl e)
      /\ AuthService.logout env now t db' = (db', inl e')
      /\ (forall c, JWTService.verifyRefreshToken env now t = inr c ->
                    e = Js.error "Refresh token has been revoked"
                    /\ e' = Js.error "Token already revoked").
Proof.
  intros env now uid t db r Hne Hf Hfind Hu db'.
  destruct (revokeAllTokens_revokes_the_users_rows uid db Hne) as (Hrun & _).
  subst db'. rewrite Hrun. simpl.
  pose proof (find_token_after_revocation uid t _ r Hfind) as Hfind'.
  apply String.eqb_eq in Hu. rewrite Hu in Hfind'.
  unfold AuthService.refreshToken, AuthService.logout. rewrite Hf.
  run_client. simpl.
  destruct (JWTService.verifyRefreshToken env now t) as [e0 | c]; simpl.
  - destruct (_ || _ || _); destruct (_ || _);
      eexists; eexists;
      (split; [reflexivity | split; [reflexivity | intros c Hc; discriminate Hc]]).
  - rewrite Hfind'. simpl.
    eexists. eexists. split; [reflexivity |]. split; [reflexivity |].
    intros c' _. split; reflexivity.
Qed.

Lemma revokeAllTokens_ends_every_session_witness :
  let db' := fst (AuthService.revokeAllTokens "c0" Sample.twoSessions) in
  AuthService.refreshToken Sample.env (Sample.t0 + 9000) Sample.token1 db'
  = (db', inl (Js.error "Refresh token has been revoked"))
  /\ AuthService.logout Sample.env (Sample.t0 + 9000) Sample.token1 db'
     = (db', inl (Js.error "Token already revoked")).
Proof.
  cbv zeta.
  destruct (revokeAllTokens_ends_every_session Sample.env (Sample.t0 + 9000)
              "c0" Sample.token1 Sample.twoSessions
              (Prisma.mkRefreshToken 1 Sample.token1 "c0"
                 (Sample.t0 + 7 * Js.msPerDay) false Sample.t0)
              eq_refl eq_refl eq_refl eq_refl)
    as (e & e' & Hre & Hout & Hmsg).
  destruct (Hmsg (Jwt.mkClaims "c0" "alice@example.com" None "refresh"
                               1700000000 1700604800
                               "auth-service" "auth-client") eq_refl)
    as [-> ->].
  split; assumption.
Defined.

(** ** Registration *)

Lemma find_of_member {A} (p : A -> bool) (l : list A) (x : A) :
  In x l -> p x = true -> exists y, find p l = Some y /\ p y = true.
Proof.
  induction l as [| a l IH]; simpl; [contradiction |].
  intros Hin Hp. destruct (p a) eqn:E.
  - exists a. split; [reflexivity | exact E].
  - destruct Hin as [-> | Hin]; [congruence | apply IH; assumption].
Qed.

Lemma generateTokenPair_error env now payload e :
  JWTService.generateTokenPair env now payload = inl e ->
  e = Js.error "Payload must include userId"
  \/ e = Js.error "Payload must include email"
  \/ e = Js.error "JWT_ACCESS_SECRET environment variable is required"
  \/ e = Js.error "JWT_REFRESH_SECRET environment variable is required".
Proof.
  unfold JWTService.generateTokenPair, JWTService.generateAccessToken,
    JWTService.generateRefreshToken, Js.bind, Js.throw, Js.ret.
  destruct (Js.falsy (JWTService.userId payload));
    [intros H; injection H as <-; auto |].
  destruct (Js.falsy (JWTService.email payload));
    [intros H; injection H as <-; auto |].
  destruct (Js.falsy (JWT_ACCESS_SECRET env));
    [intros H; injection H as <-; auto |].
  destruct (Js.falsy (JWT_REFRESH_SECRET env));
    [intros H; injection H as <-; auto | discriminate].
Qed.

Section Registration.

Variable bcrypt_hash : string -> string -> Z -> string.
Variable env : Env.

(** The guards of [register] that look at the input alone. *)
Let wellFormed (d : AuthService.UserData) : Prop :=
  Js.falsy (AuthService.ud_email d) = false
  /\ Js.falsy (AuthService.ud_password d) = false
  /\ Js.falsy (AuthService.ud_firstName d) = false
  /\ Js.falsy (AuthService.ud_lastName d) = false
  /\ AuthService.emailRegex_test (AuthService.ud_email d) = true
  /\ PasswordService.isValid
       (PasswordService.validatePasswordStrength (AuthService.ud_password d))
     = true.

Lemma register_taken_email now salt d db u :
  wellFormed d ->
  In u (Prisma.users db) ->
  Prisma.email u = Js.toLowerCase (AuthService.ud_email d) ->
  AuthService.register bcrypt_hash env now salt d db
  = (db, inl (Js.error "User with this email already exists")).
Proof.
  intros (He & Hp & Hf & Hl & Hre & Hv) Hin Hmail.
  unfold AuthService.register. rewrite He, Hp, Hf, Hl, Hre, Hv. simpl.
  run_client.
  destruct (find_of_member
              (fun x => (Prisma.email x
                         =? Js.toLowerCase (AuthService.ud_email d))%string)
              (Prisma.users db) u Hin) as (y & -> & _).
  { apply String.eqb_eq, Hmail. }
  reflexivity.
Qed.

Lemma register_failure_effects now salt d db db' e :
  AuthService.register bcrypt_hash env now salt d db = (db', inl e) ->
  Prisma.refreshTokens db' = Prisma.refreshTokens db
  /\ (db' = db
      \/ exists u m,
          Prisma.users db' = (Prisma.users db ++ [u])%list
          /\ Prisma.email u = Js.toLowerCase (AuthService.ud_email d)
          /\ Js.message e = "Registration failed: " ++ m).
Proof.
  unfold AuthService.register.
  destruct (_ || _ || _ || _); [intros H; injection H as <- _; auto |].
  destruct (negb (AuthService.emailRegex_test _));
    [intros H; injection H as <- _; auto |].
  destruct (negb (PasswordService.isValid _));
    [intros H; injection H as <- _; auto |].
  run_client.
  destruct (find _ (Prisma.users db)); simpl;
    [intros H; injection H as <- _; auto |].
  destruct (PasswordService.hashPassword bcrypt_hash salt _) as [e0 | hashed];
    simpl; [destruct (_ || _ || _); intros H; injection H as <- _; auto |].
  unfold Prisma.user_create. simpl.
  destruct (List.existsb _ (Prisma.users db)); simpl;
    [intros H; injection H as <- _; auto |].
  destruct (JWTService.generateTokenPair _ _ _) as [e0 | tp] eqn:Hgen; simpl.
  { apply generateTokenPair_error in Hgen.
    destruct Hgen as [-> | [-> | [-> | ->]]]; simpl;
      intros H; injection H as <- <-; (split; [reflexivity |]);
      right; eexists; eexists; simpl; repeat split. }
  unfold Prisma.refreshToken_create. simpl.
  destruct (List.existsb _ (Prisma.refreshTokens db)); simpl.
  { intros H; injection H as <- <-. split; [reflexivity |].
    right. eexists. eexists. simpl. repeat split. }
  destruct (negb (List.existsb _ (Prisma.users db ++ _))); simpl;
    [| discriminate].
  intros H; injection H as <- <-. split; [reflexivity |].
  right. eexists. eexists. simpl. repeat split.
Qed.

End Registration.

(** X11: an email is registered once, whatever its capitals.  After a
    successful [register], every further [register] with well-formed data
    whose email has the same lower-casing throws [User with this email
    already exists] (status 409) and leaves the database unchanged. *)
Theorem register_rejects_registered_email :
  forall bcrypt_hash env now salt d db db1 resp,
    AuthService.register bcrypt_hash env now salt d db = (db1, inr resp) ->
    forall bcrypt_hash' env' now' salt' d',
      Js.falsy (AuthService.ud_email d') = false ->
      Js.falsy (AuthService.ud_password d') = false ->
      Js.falsy (AuthService.ud_firstName d') = false ->
      Js.falsy (AuthService.ud_lastName d') = false ->
      AuthService.emailRegex_test (AuthService.ud_email d') = true ->
      PasswordService.isValid
        (PasswordService.validatePasswordStrength (AuthService.ud_password d'))
      = true ->
      Js.toLowerCase (AuthService.ud_email d')
      = Js.toLowerCase (AuthService.ud_email d) ->
      AuthService.register bcrypt_hash' env' now' salt' d' db1
      = (db1, inl (Js.error "User with this email already exists"))
      /\ AuthController.registerStatus
           (Js.error "User with this email already exists") = 409.
Proof.
  intros h env now salt d db db1 resp Hreg h' env' now' salt' d'
         He Hp Hf Hl Hre Hv Hsame.
  destruct (register_stores_lowercased_email _ _ _ _ _ _ _ _ Hreg)
    as (u & Husers & Hmail & _).
  split; [| reflexivity].
  apply (register_taken_email h' env' now' salt' d' db1 u).
  - repeat split; assumption.
  - rewrite Husers. apply in_or_app. right. left. reflexivity.
  - congruence.
Qed.

Lemma register_rejects_registered_email_witness :
  AuthService.register Sample.bcrypt_hash Sample.env (Sample.t0 + 3000) "s2"
    (AuthService.mkUserData "ALICE@EXAMPLE.COM" "Zz9?zzzz" "Al" "Ice")
    Sample.registered
  = (Sample.registered, inl (Js.error "User with this email already exists"))
  /\ (let db1 := fst (AuthService.register Sample.bcrypt_hash Sample.env
                        Sample.t0 "s" Sample.ada Sample.empty) in
      map Prisma.email (Prisma.users db1)
      = [AuthService.ud_email Sample.adaSmall]
      /\ AuthService.register Sample.bcrypt_hash Sample.env (Sample.t0 + 3000)
           "s2" Sample.adaSmall db1
         = (db1, inl (Js.error "User with this email already exists"))).
Proof.
  split.
  - refine (proj1 (register_rejects_registered_email Sample.bcrypt_hash
                     Sample.env Sample.t0 "s" Sample.alice Sample.empty
                     Sample.registered _ _
                     Sample.bcrypt_hash Sample.env (Sample.t0 + 3000) "s2"
                     (AuthService.mkUserData "ALICE@EXAMPLE.COM" "Zz9?zzzz"
                                             "Al" "Ice")
                     _ _ _ _ _ _ _));
      try reflexivity.
    vm_compute. reflexivity.
  - cbv zeta. split; [vm_compute; reflexivity |].
    pose (out := AuthService.register Sample.bcrypt_hash Sample.env
                   Sample.t0 "s" Sample.ada Sample.empty).
    assert (Hout : exists resp, out = (fst out, inr resp)).
    { vm_compute. eexists. reflexivity. }
    destruct Hout as [resp Hout].
    refine (proj1 (register_rejects_registered_email Sample.bcrypt_hash
                     Sample.env Sample.t0 "s" Sample.ada Sample.empty
                     (fst out) resp Hout
                     Sample.bcrypt_hash Sample.env (Sample.t0 + 3000) "s2"
                     Sample.adaSmall _ _ _ _ _ _ _));
      reflexivity.
Defined.

(** X12: [register] is not atomic.  When it throws, the refresh-token
    table is as it was; the users are as they were too, or one account
    with the lower-cased email has been added and the error is a
    [Registration failed: ...]: then the account exists without a
    session. *)
Theorem register_failure_may_leave_an_account :
  forall bcrypt_hash env now salt d db db' e,
    AuthService.register bcrypt_hash env now salt d db = (db', inl e) ->
    Prisma.refreshTokens db' = Prisma.refreshTokens db
    /\ (db' = db
        \/ exists u m,
            Prisma.users db' = (Prisma.users db ++ [u])%list
            /\ Prisma.email u = Js.toLowerCase (AuthService.ud_email d)
            /\ Js.message e = "Registration failed: " ++ m).
Proof.
  intros h env now salt d db db' e. apply register_failure_effects.
Qed.

Lemma register_failure_may_leave_an_account_witness :
  let noSecret := mkEnv "" "test-refresh-secret-key" None None Js.utc in
  exists db' e,
    AuthService.register Sample.bcrypt_hash noSecret Sample.t0 "s"
      Sample.alice Sample.empty = (db', inl e)
    /\ Js.message e
       = "Registration failed: JWT_ACCESS_SECRET environment variable is required"
    /\ map Prisma.email (Prisma.users db') = ["alice@example.com"]
    /\ Prisma.refreshTokens db' = [].
Proof.
  cbv zeta. eexists. eexists.
  split; [vm_compute; reflexivity |].
  split; [reflexivity |]. split; [reflexivity |].
  exact (proj1 (register_failure_may_leave_an_account Sample.bcrypt_hash
                  (mkEnv "" "test-refresh-secret-key" None None Js.utc)
                  Sample.t0 "s" Sample.alice Sample.empty _ _ eq_refl)).
Defined.

(** ** Register, then log in *)

Lemma toLowerCase_empty s : Js.toLowerCase s = "" -> s = "".
Proof. destruct s; simpl; [reflexivity | discriminate]. Qed.

Lemma find_after_append {A} (p : A -> bool) (l : list A) (x : A) :
  find p l = None -> p x = true -> find p (l ++ [x]) = Some x.
Proof.
  induction l as [| a l IH]; simpl; intros Hnone Hp.
  - rewrite Hp. reflexivity.
  - destruct (p a); [discriminate | apply IH; assumption].
Qed.

Lemma register_success_inv bcrypt_hash env now salt d db db1 resp :
  AuthService.register bcrypt_hash env now salt d db = (db1, inr resp) ->
  exists u tp,
    Js.falsy (AuthService.ud_email d) = false
    /\ Js.falsy (AuthService.ud_password d) = false
    /\ find (fun x => (Prisma.email x
                       =? Js.toLowerCase (AuthService.ud_email d))%string)
            (Prisma.users db) = None
    /\ PasswordService.hashPassword bcrypt_hash salt (AuthService.ud_password d)
       = inr (Prisma.password u)
    /\ Prisma.email u = Js.toLowerCase (AuthService.ud_email d)
    /\ Prisma.id u = Prisma.cuid (Prisma.nextId db)
    /\ JWTService.generateTokenPair env now
         (JWTService.mkPayload (Prisma.id u) (Prisma.email u) "") = inr tp
    /\ db1 = Prisma.mkDb (Prisma.users db ++ [u])
               (Prisma.refreshTokens db
                  ++ [Prisma.mkRefreshToken (S (Prisma.nextId db))
                        (JWTService.refreshToken tp) (Prisma.id u)
                        (AuthService.refreshTokenExpiry env now) false now])
               (S (S (Prisma.nextId db)))
    /\ resp = AuthService.mkResponse "User registered successfully"
                (Some (AuthService.withoutPassword u)) (Some tp) None.
Proof.
  unfold AuthService.register.
  destruct (Js.falsy (AuthService.ud_email d)) eqn:Hm; [discriminate |].
  destruct (Js.falsy (AuthService.ud_password d)) eqn:Hp; [discriminate |].
  destruct (_ || _ || _ || _); [discriminate |].
  destruct (negb (AuthService.emailRegex_test _)); [discriminate |].
  destruct (negb (PasswordService.isValid _)); [discriminate |].
  run_client.
  destruct (find _ (Prisma.users db)) eqn:Hfind; simpl; [discriminate |].
  destruct (PasswordService.hashPassword bcrypt_hash salt _)
    as [e | hashed] eqn:Hhash; simpl;
    [destruct (_ || _ || _); discriminate |].
  unfold Prisma.user_create. simpl.
  destruct (List.existsb _ (Prisma.users db)); simpl; [discriminate |].
  destruct (JWTService.generateTokenPair _ _ _) as [e | tp] eqn:Hgen; simpl;
    [destruct (_ || _ || _); discriminate |].
  unfold Prisma.refreshToken_create. simpl.
  destruct (List.existsb _ (Prisma.refreshTokens db)); simpl;
    [discriminate |].
  destruct (negb (List.existsb _ (Prisma.users db ++ _))); simpl;
    [discriminate |].
  intros H. injection H as <- <-.
  exists (Prisma.mkUser (Prisma.cuid (Prisma.nextId db))
            (Js.toLowerCase (AuthService.ud_email d)) hashed
            (Js.trim (AuthService.ud_firstName d))
            (Js.trim (AuthService.ud_lastName d))
            "" "local" "" false None now now), tp.
  simpl.
  repeat (split; [first [reflexivity | assumption] |]). reflexivity.
Qed.

(** X13: what has been registered cannot be logged in.  After a
    successful [register], a [login] under an email of the same
    lower-casing throws [Login failed: Cannot access 'password' before
    initialization] (status 500), at any time and with any password, the
    registered one included, provided only that the stored bcrypt hash is
    not empty; the database stays as the registration left it. *)
Theorem registered_account_cannot_log_in :
  forall bcrypt_hash bcrypt_compare env now salt d db db1 resp now' c,
    AuthService.register bcrypt_hash env now salt d db = (db1, inr resp) ->
    Js.falsy (bcrypt_hash salt (AuthService.ud_password d) 12) = false ->
    Js.toLowerCase (AuthService.cr_email c)
    = Js.toLowerCase (AuthService.ud_email d) ->
    Js.falsy (AuthService.cr_password c) = false ->
    exists e,
      AuthService.login bcrypt_compare env now' c db1 = (db1, inl e)
      /\ Js.message e
         = "Login failed: Cannot access 'password' before initialization"
      /\ AuthController.loginStatus e = 500.
Proof.
  intros h cmp env now salt d db db1 resp now' c Hreg Hne Hmail Hp.
  destruct (register_success_inv _ _ _ _ _ _ _ _ Hreg)
    as (u & tp & Hm & _ & Hnone & Hhash & Hu & _ & _ & Hdb1 & _).
  assert (Hstored : Prisma.password u
                    = h salt (AuthService.ud_password d) 12).
  { unfold PasswordService.hashPassword in Hhash.
    destruct (Js.falsy (AuthService.ud_password d)); [discriminate |].
    destruct (Z.of_nat _ <? 6); [discriminate |].
    injection Hhash as <-. reflexivity. }
  assert (Hfind : find (fun x => (Prisma.email x
                                  =? Js.toLowerCase (AuthService.cr_email c))%string)
                       (Prisma.users db1) = Some u).
  { rewrite Hdb1, Hmail. simpl. apply find_after_append; [exact Hnone |].
    apply String.eqb_eq, Hu. }
  assert (He : Js.falsy (AuthService.cr_email c) = false).
  { destruct (Js.falsy (AuthService.cr_email c)) eqn:E; [| reflexivity].
    apply String.eqb_eq in E. rewrite E in Hmail. simpl in Hmail.
    symmetry in Hmail. apply toLowerCase_empty in Hmail.
    rewrite Hmail in Hm. discriminate Hm. }
  eexists. split.
  - apply (login_password_account cmp env now' c db1 u He Hp Hfind).
    rewrite Hstored. exact Hne.
  - split; reflexivity.
Qed.

Lemma registered_account_cannot_log_in_witness :
  exists e,
    AuthService.login Sample.bcrypt_compare Sample.env (Sample.t0 + 5000)
      (AuthService.mkCredentials "ALICE@Example.COM" "Aa1!aaaa")
      Sample.registered = (Sample.registered, inl e)
    /\ Js.message e
       = "Login failed: Cannot access 'password' before initialization"
    /\ AuthController.loginStatus e = 500.
Proof.
  pose (resp := match snd Sample.registration with
                | inr resp => resp
                | inl _ => AuthService.mkResponse "" None None None
                end).
  apply (registered_account_cannot_log_in Sample.bcrypt_hash
           Sample.bcrypt_compare Sample.env Sample.t0 "s" Sample.alice
           Sample.empty Sample.registered resp (Sample.t0 + 5000)
           (AuthService.mkCredentials "ALICE@Example.COM" "Aa1!aaaa")).
  - vm_compute. reflexivity.
  - reflexivity.
  - reflexivity.
  - reflexivity.
Defined.

(** ** What a login does *)

(** X14: [login] never succeeds and never writes.  Whatever the
    credentials and the database, it throws and leaves the database as it
    was: [Email and password are required] (status 400) when one of the
    two is missing, [Invalid email or password] (401) when no account has
    the lower-cased email, the message that points to Google (401) when
    the account has no password, and [Login failed: Cannot access
    'password' before initialization] (500) when it has one. *)
Theorem login_always_throws :
  forall bcrypt_compare env now c db,
    exists e,
      AuthService.login bcrypt_compare env now c db = (db, inl e)
      /\ (Js.message e, AuthController.loginStatus e)
         = (if Js.falsy (AuthService.cr_email c)
               || Js.falsy (AuthService.cr_password c)
            then ("Email and password are required", 400)
            else
              match find (fun x => (Prisma.email x
                                    =? Js.toLowerCase
                                         (AuthService.cr_email c))%string)
                         (Prisma.users db) with
              | None => ("Invalid email or password", 401)
              | Some u =>
                  if Js.falsy (Prisma.password u)
                  then ("This account uses OAuth authentication. Please login with Google.",
                        401)
                  else ("Login failed: Cannot access 'password' before initialization",
                        500)
              end).
Proof.
  intros cmp env now c db.
  destruct (Js.falsy (AuthService.cr_email c)) eqn:He.
  { eexists. unfold AuthService.login. rewrite He. simpl.
    split; reflexivity. }
  destruct (Js.falsy (AuthService.cr_password c)) eqn:Hp.
  { eexists. unfold AuthService.login. rewrite He, Hp. simpl.
    split; reflexivity. }
  simpl.
  destruct (find _ (Prisma.users db)) as [u |] eqn:Hfind.
  - destruct (Js.falsy (Prisma.password u)) eqn:Hpw.
    + eexists. split;
        [apply (login_oauth_only_account cmp env now c db u He Hp Hfind Hpw) |].
      reflexivity.
    + eexists. split;
        [apply (login_password_account cmp env now c db u He Hp Hfind Hpw) |].
      reflexivity.
  - eexists. split; [apply (login_unknown_email cmp env now c db He Hp Hfind) |].
    reflexivity.
Qed.

(** ** When a refresh fails *)

(** X15: a [refreshToken] that throws has either left the database as it
    was, or has revoked the rows of the presented token and nothing else
    and throws a [Token refresh failed: ...], to which the controller
    answers 500.  So a refresh that is refused with status 401 (unknown,
    revoked, expired or forged token) never changes the database. *)
Theorem refreshToken_failure_effects :
  forall env now t db db' e,
    AuthService.refreshToken env now t db = (db', inl e) ->
    (db' = db
     \/ (db' = Prisma.mkDb (Prisma.users db)
                 (map (fun r => if Jwt.eqb (Prisma.token r) t
                                then Prisma.revoke r else r)
                      (Prisma.refreshTokens db))
                 (Prisma.nextId db)
         /\ AuthController.refreshStatus e = 500
         /\ exists m, Js.message e = "Token refresh failed: " ++ m))
    /\ (AuthController.refreshStatus e = 401 -> db' = db).
Proof.
  intros env now t db db' e H.
  assert (Hcases :
            db' = db
            \/ (db' = Prisma.mkDb (Prisma.users db)
                        (map (fun r => if Jwt.eqb (Prisma.token r) t
                                       then Prisma.revoke r else r)
                             (Prisma.refreshTokens db))
                        (Prisma.nextId db)
                /\ AuthController.refreshStatus e = 500
                /\ exists m, Js.message e = "Token refresh failed: " ++ m)).
  { revert H. unfold AuthService.refreshToken.
    destruct (Jwt.falsy t); [intros H; injection H as <- _; auto |].
    run_client.
    unfold Prisma.refreshToken_update_revoke, Prisma.refreshToken_create.
    destruct (JWTService.verifyRefreshToken env now t) as [e0 | c]; simpl.
    { destruct (_ || _ || _); intros H; injection H as <- _; auto. }
    destruct (find _ (Prisma.refreshTokens db)) as [r |] eqn:Hfind; simpl;
      [| intros H; injection H as <- _; auto].
    destruct (Prisma.isRevoked r); simpl;
      [intros H; injection H as <- _; auto |].
    destruct (Prisma.expiresAt r <? now); simpl;
      [intros H; injection H as <- _; auto |].
    rewrite Hfind. simpl.
    destruct (find _ (Prisma.users db)) as [u |]; simpl.
    2:{ intros H; injection H as <- <-. right.
        split; [reflexivity |]. split; [reflexivity |].
        eexists. reflexivity. }
    destruct (JWTService.generateTokenPair _ _ _) as [e0 | tp] eqn:Hgen; simpl.
    { apply generateTokenPair_error in Hgen.
      destruct Hgen as [-> | [-> | [-> | ->]]]; simpl;
        intros H; injection H as <- <-; right;
        (split; [reflexivity |]); (split; [reflexivity |]);
        eexists; reflexivity. }
    rewrite existsb_token_map_revoke.
    destruct (List.existsb _ (Prisma.refreshTokens db)); simpl.
    { intros H; injection H as <- <-. right.
      split; [reflexivity |]. split; [reflexivity |].
      eexists. reflexivity. }
    destruct (negb (List.existsb _ (Prisma.users db))); simpl;
      [| discriminate].
    intros H; injection H as <- <-. right.
    split; [reflexivity |]. split; [reflexivity |].
    eexists. reflexivity. }
  split; [exact Hcases |].
  intros H401. destruct Hcases as [-> | (_ & H500 & _)]; [reflexivity |].
  rewrite H500 in H401. discriminate H401.
Qed.

Lemma refreshToken_failure_effects_witness :
  (exists e,
      AuthService.refreshToken Sample.env (Sample.t0 + 7000) Sample.token1
        Sample.oneRevoked = (Sample.oneRevoked, inl e)
      /\ AuthController.refreshStatus e = 401)
  /\ (exists db' e,
         AuthService.refreshToken Sample.env (Sample.t0 + 500) Sample.token1
           Sample.registered = (db', inl e)
         /\ AuthController.refreshStatus e = 500
         /\ db' <> Sample.registered).
Proof.
  split.
  - exists (Js.error "Refresh token has been revoked").
    assert (Hrun : AuthService.refreshToken Sample.env (Sample.t0 + 7000)
                     Sample.token1 Sample.oneRevoked
                   = (fst (AuthService.refreshToken Sample.env
                             (Sample.t0 + 7000) Sample.token1
                             Sample.oneRevoked),
                      inl (Js.error "Refresh token has been revoked")))
      by (vm_compute; reflexivity).
    rewrite Hrun.
    rewrite (proj2 (refreshToken_failure_effects _ _ _ _ _ _ Hrun) eq_refl).
    split; reflexivity.
  - eexists. eexists. split; [vm_compute; reflexivity |].
    split; [reflexivity |]. vm_compute. discriminate.
Defined.

(** ** Accounts that come from a provider *)

Lemma find_by_unique_id (users : list Prisma.User) (u : Prisma.User) :
  NoDup (map Prisma.id users) -> In u users ->
  find (fun x => (Prisma.id x =? Prisma.id u)%string) users = Some u.
Proof.
  induction users as [| a l IH]; simpl; intros Hnd Hin; [contradiction |].
  inversion Hnd as [| i rest Hnotin Hnd']; subst.
  destruct Hin as [-> | Hin].
  - rewrite String.eqb_refl. reflexivity.
  - destruct (String.eqb_spec (Prisma.id a) (Prisma.id u)) as [E | _].
    + exfalso. apply Hnotin. rewrite E. apply in_map, Hin.
    + apply IH; assumption.
Qed.

Lemma find_updated_user (users : list Prisma.User) i old v :
  find (fun x => (Prisma.id x =? i)%string) users = Some old ->
  Prisma.id v = i ->
  find (fun x => (Prisma.id x =? i)%string)
       (map (fun x => if (Prisma.id x =? i)%string then v else x) users)
  = Some v.
Proof.
  intros Hfind Hv. induction users as [| a l IH]; simpl in *; [discriminate |].
  destruct (Prisma.id a =? i)%string eqn:E; simpl.
  - rewrite Hv, String.eqb_refl. reflexivity.
  - rewrite E. apply IH, Hfind.
Qed.

Lemma unlinkOAuthAccount_success now userId db u :
  find (fun x => (Prisma.id x =? userId)%string) (Prisma.users db) = Some u ->
  Js.falsy (Prisma.password u) = false ->
  let row := Prisma.mkUser (Prisma.id u) (Prisma.email u) (Prisma.password u)
               (Prisma.firstName u) (Prisma.lastName u)
               (Prisma.profilePicture u) "local" ""
               (Prisma.isEmailVerified u) (Prisma.lastLoginAt u)
               (Prisma.createdAt u) now in
  OAuthService.unlinkOAuthAccount now userId db
  = (Prisma.mkDb
       (map (fun x => if (Prisma.id x =? userId)%string then row else x)
            (Prisma.users db))
       (Prisma.refreshTokens db) (Prisma.nextId db),
     inr (AuthService.withoutPassword row)).
Proof.
  intros Hfind Hpw row. unfold OAuthService.unlinkOAuthAccount.
  unfold Prisma.tryCatch, Prisma.bind, Prisma.user_findUnique_id,
    Prisma.user_update, Prisma.ret, Prisma.throw.
  rewrite Hfind. simpl. rewrite Hpw. simpl. rewrite Hfind. reflexivity.
Qed.

(** X16: [unlinkOAuthAccount] turns an account back into a local one only
    if it has a password.  When it succeeds the stored account has the
    provider [local] and no provider id, and keeps its email and its
    password; no refresh-token row is touched.  When it throws, the
    database is unchanged and the controller answers 404 for an unknown
    user id and 400 for an account without a password. *)
Theorem unlinkOAuthAccount_behaviour :
  forall now userId db db',
    (forall u',
        OAuthService.unlinkOAuthAccount now userId db = (db', inr u') ->
        exists u row,
          find (fun x => (Prisma.id x =? userId)%string) (Prisma.users db)
          = Some u
          /\ Js.falsy (Prisma.password u) = false
          /\ find (fun x => (Prisma.id x =? userId)%string) (Prisma.users db')
             = Some row
          /\ Prisma.provider row = "local" /\ Prisma.providerId row = ""
          /\ Prisma.password row = Prisma.password u
          /\ Prisma.email row = Prisma.email u
          /\ u' = AuthService.withoutPassword row
          /\ Prisma.refreshTokens db' = Prisma.refreshTokens db)
    /\ (forall e,
           OAuthService.unlinkOAuthAccount now userId db = (db', inl e) ->
           db' = db
           /\ ((find (fun x => (Prisma.id x =? userId)%string) (Prisma.users db)
                = None
                /\ AuthController.unlinkStatus e = 404)
               \/ (exists u,
                      find (fun x => (Prisma.id x =? userId)%string)
                           (Prisma.users db) = Some u
                      /\ Js.falsy (Prisma.password u) = true
                      /\ AuthController.unlinkStatus e = 400))).
Proof.
  intros now uid db db'.
  destruct (find (fun x => (Prisma.id x =? uid)%string) (Prisma.users db))
    as [u |] eqn:Hfind.
  - destruct (Js.falsy (Prisma.password u)) eqn:Hpw.
    + assert (Hrun : OAuthService.unlinkOAuthAccount now uid db
                     = (db, inl (Js.error
                                   "OAuth account unlinking failed: Cannot unlink OAuth account without setting a password first"))).
      { unfold OAuthService.unlinkOAuthAccount.
        unfold Prisma.tryCatch, Prisma.bind, Prisma.user_findUnique_id,
          Prisma.throw. rewrite Hfind. simpl. rewrite Hpw. reflexivity. }
      rewrite Hrun. split.
      * intros u' H. discriminate H.
      * intros e H. injection H as <- <-. split; [reflexivity |].
        right. exists u. split; [reflexivity |].
        split; [exact Hpw | reflexivity].
    + rewrite (unlinkOAuthAccount_success now uid db u Hfind Hpw). split.
      * intros u' H. injection H as <- <-.
        exists u. eexists. split; [reflexivity |]. split; [exact Hpw |].
        simpl. split.
        { apply (find_updated_user _ _ u); [exact Hfind |].
          simpl. apply find_some in Hfind. apply String.eqb_eq, Hfind. }
        simpl. repeat split.
      * intros e H. discriminate H.
  - assert (Hrun : OAuthService.unlinkOAuthAccount now uid db
                   = (db, inl (Js.error
                                 "OAuth account unlinking failed: User not found"))).
    { unfold OAuthService.unlinkOAuthAccount.
      unfold Prisma.tryCatch, Prisma.bind, Prisma.user_findUnique_id,
        Prisma.throw. rewrite Hfind. reflexivity. }
    rewrite Hrun. split.
    + intros u' H. discriminate H.
    + intros e H. injection H as <- <-. split; [reflexivity |].
      left. split; reflexivity.
Qed.

Lemma unlinkOAuthAccount_behaviour_witness :
  (exists db' u',
      OAuthService.unlinkOAuthAccount (Sample.t0 + 3000) "c0"
        Sample.aliceLinked = (db', inr u')
      /\ map Prisma.provider (Prisma.users Sample.aliceLinked) = ["google"]
      /\ map Prisma.provider (Prisma.users db') = ["local"]
      /\ map Prisma.password (Prisma.users db') = ["$2b$s$Aa1!aaaa"])
  /\ (exists e,
         OAuthService.unlinkOAuthAccount (Sample.t0 + 3000) "c2"
           Sample.withBob = (Sample.withBob, inl e)
         /\ AuthController.unlinkStatus e = 400).
Proof.
  split.
  - eexists. eexists. split; [vm_compute; reflexivity |].
    split; [reflexivity |]. split; reflexivity.
  - pose (e := Js.error
                 "OAuth account unlinking failed: Cannot unlink OAuth account without setting a password first").
    assert (Hrun : OAuthService.unlinkOAuthAccount (Sample.t0 + 3000) "c2"
                     Sample.withBob
                   = (fst (OAuthService.unlinkOAuthAccount (Sample.t0 + 3000)
                             "c2" Sample.withBob), inl e))
      by (vm_compute; reflexivity).
    destruct (proj2 (unlinkOAuthAccount_behaviour (Sample.t0 + 3000) "c2"
                       Sample.withBob _) e Hrun) as [Hsame _].
    exists e. rewrite Hrun, Hsame. split; reflexivity.
Defined.

Ltac run_oauth :=
  unfold OAuthService.processOAuthProfile, OAuthService.findOrCreateOAuthUser,
    OAuthService.linkOAuthAccount, OAuthService.updateOAuthUser,
    OAuthService.createOAuthUser, Prisma.tryCatch, Prisma.bind, Prisma.ret,
    Prisma.throw, Prisma.lift, Prisma.user_findFirst_provider,
    Prisma.user_findUnique_email, Prisma.user_findUnique_id,
    Prisma.user_update, Prisma.user_create.

Lemma processOAuthProfile_links now profile provider db u :
  Js.falsy (hd "" (OAuthService.emails profile)) = false ->
  Js.falsy (OAuthService.p_id profile) = false ->
  find (fun x => (Prisma.providerId x =? OAuthService.p_id profile)%string
                 && (Prisma.provider x =? provider)%string)
       (Prisma.users db) = None ->
  find (fun x => (Prisma.email x =? hd "" (OAuthService.emails profile))%string)
       (Prisma.users db) = Some u ->
  NoDup (map Prisma.id (Prisma.users db)) ->
  let row := Prisma.mkUser (Prisma.id u) (Prisma.email u) (Prisma.password u)
               (Prisma.firstName u) (Prisma.lastName u)
               (JWTService.orElse (OAuthService.photo profile)
                                  (Prisma.profilePicture u))
               provider (OAuthService.p_id profile) true (Some now)
               (Prisma.createdAt u) now in
  OAuthService.processOAuthProfile now profile provider db
  = (Prisma.mkDb
       (map (fun x => if (Prisma.id x =? Prisma.id u)%string then row else x)
            (Prisma.users db))
       (Prisma.refreshTokens db) (Prisma.nextId db),
     inr (AuthService.withoutPassword row)).
Proof.
  intros Hmail Hpid Hprov Hfind Hnd row.
  pose proof (find_by_unique_id _ u Hnd (proj1 (find_some _ _ Hfind))) as Hid.
  run_oauth. rewrite Hmail. simpl. rewrite Hpid. simpl.
  rewrite Hprov. simpl. rewrite Hfind. simpl.
  rewrite Hid. reflexivity.
Qed.

(** X17: signing in with a provider, with a profile that carries an id,
    under the email of an existing account, when no account carries that
    provider identity yet, links the account: its stored row takes the provider and the provider's id
    (replacing whatever provider it had), has its email marked verified,
    and keeps its id, its email and its password.  If the account has a
    password, [unlinkOAuthAccount] afterwards makes it local again, with
    the same email and password. *)
Theorem link_then_unlink :
  forall now now' profile provider db u,
    Js.falsy (hd "" (OAuthService.emails profile)) = false ->
    Js.falsy (OAuthService.p_id profile) = false ->
    find (fun x => (Prisma.providerId x =? OAuthService.p_id profile)%string
                   && (Prisma.provider x =? provider)%string)
         (Prisma.users db) = None ->
    find (fun x => (Prisma.email x
                    =? hd "" (OAuthService.emails profile))%string)
         (Prisma.users db) = Some u ->
    NoDup (map Prisma.id (Prisma.users db)) ->
    exists db1 u1 row,
      OAuthService.processOAuthProfile now profile provider db = (db1, inr u1)
      /\ u1 = AuthService.withoutPassword row
      /\ find (fun x => (Prisma.id x =? Prisma.id u)%string) (Prisma.users db1)
         = Some row
      /\ Prisma.provider row = provider
      /\ Prisma.providerId row = OAuthService.p_id profile
      /\ Prisma.isEmailVerified row = true
      /\ Prisma.email row = Prisma.email u
      /\ Prisma.password row = Prisma.password u
      /\ Prisma.refreshTokens db1 = Prisma.refreshTokens db
      /\ (Js.falsy (Prisma.password u) = false ->
          exists db2 u2 row2,
            OAuthService.unlinkOAuthAccount now' (Prisma.id u) db1
            = (db2, inr u2)
            /\ find (fun x => (Prisma.id x =? Prisma.id u)%string)
                    (Prisma.users db2) = Some row2
            /\ Prisma.provider row2 = "local"
            /\ Prisma.providerId row2 = ""
            /\ Prisma.email row2 = Prisma.email u
            /\ Prisma.password row2 = Prisma.password u).
Proof.
  intros now now' profile provider db u Hmail Hpid Hprov Hfind Hnd.
  pose proof (find_by_unique_id _ u Hnd (proj1 (find_some _ _ Hfind))) as Hid.
  rewrite (processOAuthProfile_links now profile provider db u
             Hmail Hpid Hprov Hfind Hnd).
  set (row := Prisma.mkUser (Prisma.id u) (Prisma.email u) (Prisma.password u)
                (Prisma.firstName u) (Prisma.lastName u)
                (JWTService.orElse (OAuthService.photo profile)
                                   (Prisma.profilePicture u))
                provider (OAuthService.p_id profile) true (Some now)
                (Prisma.createdAt u) now).
  set (db1 := Prisma.mkDb
                (map (fun x => if (Prisma.id x =? Prisma.id u)%string
                               then row else x) (Prisma.users db))
                (Prisma.refreshTokens db) (Prisma.nextId db)).
  assert (Hfind1 : find (fun x => (Prisma.id x =? Prisma.id u)%string)
                        (Prisma.users db1) = Some row).
  { apply (find_updated_user _ _ u); [exact Hid | reflexivity]. }
  exists db1, (AuthService.withoutPassword row), row.
  split; [reflexivity |]. split; [reflexivity |]. split; [exact Hfind1 |].
  repeat (split; [reflexivity |]).
  intros Hpw.
  pose proof (unlinkOAuthAccount_success now' (Prisma.id u) db1 row
                Hfind1 Hpw) as Hun.
  cbv zeta in Hun. rewrite Hun.
  eexists. eexists. eexists. split; [reflexivity |]. simpl.
  split;
    [apply (find_updated_user _ _ row); [exact Hfind1 | reflexivity]
    | repeat split].
Qed.

Lemma link_then_unlink_witness :
  exists db2 u2,
    OAuthService.unlinkOAuthAccount (Sample.t0 + 3000) "c0" Sample.aliceLinked
    = (db2, inr u2)
    /\ map Prisma.provider (Prisma.users Sample.registered) = ["local"]
    /\ map Prisma.provider (Prisma.users Sample.aliceLinked) = ["google"]
    /\ map Prisma.isEmailVerified (Prisma.users Sample.aliceLinked) = [true]
    /\ map Prisma.provider (Prisma.users db2) = ["local"]
    /\ map Prisma.password (Prisma.users db2)
       = map Prisma.password (Prisma.users Sample.registered).
Proof.
  destruct (link_then_unlink (Sample.t0 + 2000) (Sample.t0 + 3000)
              Sample.aliceGoogle "google" Sample.registered
              (Prisma.mkUser "c0" "alice@example.com" "$2b$s$Aa1!aaaa"
                             "Alice" "A" "" "local" "" false None
                             Sample.t0 Sample.t0))
    as (db1 & u1 & row & Hlink & _ & _ & _ & _ & _ & _ & _ & _ & Hunlink).
  - reflexivity.
  - reflexivity.
  - vm_compute. reflexivity.
  - vm_compute. reflexivity.
  - vm_compute. repeat constructor. simpl. tauto.
  - destruct (Hunlink eq_refl) as (db2 & u2 & row2 & Hun & _).
    assert (Hdb1 : db1 = Sample.aliceLinked).
    { unfold Sample.aliceLinked. rewrite Hlink. reflexivity. }
    rewrite Hdb1 in Hun. simpl in Hun.
    exists db2, u2. split; [exact Hun |].
    vm_compute in Hun. injection Hun as <- _.
    repeat split; vm_compute; reflexivity.
Defined.

Lemma processOAuthProfile_creates now profile provider db :
  Js.falsy (hd "" (OAuthService.emails profile)) = false ->
  Js.falsy (OAuthService.p_id profile) = false ->
  find (fun x => (Prisma.providerId x =? OAuthService.p_id profile)%string
                 && (Prisma.provider x =? provider)%string)
       (Prisma.users db) = None ->
  find (fun x => (Prisma.email x =? hd "" (OAuthService.emails profile))%string)
       (Prisma.users db) = None ->
  let row :=
    Prisma.mkUser (Prisma.cuid (Prisma.nextId db))
      (hd "" (OAuthService.emails profile)) ""
      (JWTService.orElse (OAuthService.givenName profile)
         (JWTService.orElse
            (hd "" (OAuthService.split (OAuthService.displayName profile)))
            "User"))
      (JWTService.orElse (OAuthService.familyName profile)
         (Js.join " " (tl (OAuthService.split
                             (OAuthService.displayName profile)))))
      (OAuthService.photo profile) provider (OAuthService.p_id profile)
      true (Some now) now now in
  OAuthService.processOAuthProfile now profile provider db
  = (Prisma.mkDb (Prisma.users db ++ [row]) (Prisma.refreshTokens db)
                 (S (Prisma.nextId db)),
     inr row).
Proof.
  intros Hmail Hpid Hprov Hnone row.
  assert (Hfree : List.existsb
                    (fun x => (Prisma.email x
                               =? hd "" (OAuthService.emails profile))%string)
                    (Prisma.users db) = false).
  { destruct (List.existsb _ (Prisma.users db)) eqn:E; [| reflexivity].
    apply existsb_exists in E. destruct E as (x & Hin & Hx).
    pose proof (find_none _ _ Hnone x Hin) as Hno. simpl in Hno. congruence. }
  run_oauth. rewrite Hmail. simpl. rewrite Hpid. simpl.
  rewrite Hprov. simpl. rewrite Hnone. simpl.
  rewrite Hfree. reflexivity.
Qed.



(** ** Tokens for an account that came from a provider *)

Lemma generateOAuthTokens_throws env now u db :
  OAuthService.generateOAuthTokens env now u db
  = (db, inl (Js.error "Token generation failed: Payload must include userId")).
Proof. reflexivity. Qed.

(** X19: [generateOAuthTokens] hands the user object itself to the token
    generators, which look for a [userId] property the object does not
    have.  So it throws [Token generation failed: Payload must include
    userId] for every user and stores nothing, and
    [handleOAuthAuthentication] never succeeds: it throws after the
    profile has been processed, leaving whatever account that created or
    updated, without a session. *)
Theorem handleOAuthAuthentication_never_succeeds :
  forall env now profile provider db,
    let processed := OAuthService.processOAuthProfile now profile provider db in
    exists e,
      OAuthService.handleOAuthAuthentication env now profile provider db
      = (fst processed, inl e)
      /\ (forall u, snd processed = inr u ->
                    e = Js.error
                          "OAuth authentication failed: Token generation failed: Payload must include userId")
      /\ (forall e0, snd processed = inl e0 ->
                     e = Js.error ("OAuth authentication failed: "
                                     ++ Js.message e0))
      /\ (forall u, OAuthService.generateOAuthTokens env now u db
                    = (db, inl (Js.error
                                  "Token generation failed: Payload must include userId"))).
Proof.
  intros env now profile provider db processed.
  unfold OAuthService.handleOAuthAuthentication.
  unfold Prisma.tryCatch at 1. unfold Prisma.bind at 1.
  fold processed.
  destruct processed as [db1 [e0 | u]].
  - simpl. eexists. split; [reflexivity |]. split; [| split].
    + intros u H. discriminate H.
    + intros e1 H. injection H as <-. reflexivity.
    + intros u. reflexivity.
  - rewrite generateOAuthTokens_throws. simpl.
    eexists. split; [reflexivity |]. split; [| split].
    + intros u0 _. reflexivity.
    + intros e0 H. discriminate H.
    + intros u0. reflexivity.
Qed.

Lemma handleOAuthAuthentication_never_succeeds_witness :
  exists db' e,
    OAuthService.handleOAuthAuthentication Sample.env (Sample.t0 + 1000)
      Sample.bob "google" Sample.registered = (db', inl e)
    /\ db' = Sample.withBob
    /\ Js.message e
       = "OAuth authentication failed: Token generation failed: Payload must include userId"
    /\ Prisma.refreshTokens db' = Prisma.refreshTokens Sample.registered.
Proof.
  destruct (handleOAuthAuthentication_never_succeeds Sample.env
              (Sample.t0 + 1000) Sample.bob "google" Sample.registered)
    as (e & Hrun & Hmsg & _).
  eexists. exists e. split; [exact Hrun |]. split; [reflexivity |].
  split.
  - rewrite (Hmsg (Prisma.mkUser "c2" "bob@example.com" "" "Bob" "Builder"
                                 "https://pic/bob" "google" "google-bob" true
                                 (Some (Sample.t0 + 1000)) (Sample.t0 + 1000)
                                 (Sample.t0 + 1000)));
      [reflexivity | vm_compute; reflexivity].
  - vm_compute. reflexivity.
Defined.

(** ** The middleware in front of the protected routes *)

Lemma authenticateToken_signed env now req c :
  AuthMiddleware.tokenOf req = Jwt.Signed c (JWT_ACCESS_SECRET env) ->
  Js.falsy (JWT_ACCESS_SECRET env) = false ->
  Jwt.seconds now < Jwt.exp c ->
  AuthMiddleware.authenticateToken env now req
  = AuthMiddleware.Next (Some (AuthMiddleware.reqUser c)).
Proof.
  intros Ht Hs Hlive. unfold AuthMiddleware.authenticateToken.
  cbv zeta. rewrite Ht. simpl. rewrite Hs, String.eqb_refl. simpl.
  replace (Jwt.exp c <=? Jwt.seconds now) with false; [reflexivity |].
  symmetry. apply Z.leb_gt. exact Hlive.
Qed.

Lemma authenticateToken_inv env now req out :
  AuthMiddleware.authenticateToken env now req = AuthMiddleware.Next out ->
  exists c,
    out = Some (AuthMiddleware.reqUser c)
    /\ AuthMiddleware.tokenOf req = Jwt.Signed c (JWT_ACCESS_SECRET env)
    /\ Js.falsy (JWT_ACCESS_SECRET env) = false
    /\ Jwt.seconds now < Jwt.exp c.
Proof.
  unfold AuthMiddleware.authenticateToken. cbv zeta.
  destruct (Jwt.falsy (AuthMiddleware.tokenOf req)); [discriminate |].
  destruct (AuthMiddleware.tokenOf req) as [c key | s]; simpl;
    [| discriminate].
  destruct (Js.falsy (JWT_ACCESS_SECRET env)); simpl; [discriminate |].
  destruct (String.eqb_spec key (JWT_ACCESS_SECRET env)) as [-> | _]; simpl;
    [| discriminate].
  destruct (Z.leb_spec (Jwt.exp c) (Jwt.seconds now)) as [_ | Hlive]; simpl;
    [discriminate |].
  intros H. injection H as <-. exists c. repeat split. exact Hlive.
Qed.

(** X20: [authenticateToken] lets a request through exactly when its
    token (the bearer token or, failing that, the cookie) is signed with
    the non-empty access secret and has not reached its expiry; it looks
    at nothing else.  So it accepts every token [verifyAccessToken]
    accepts, with the same subject, and it does not look at the type, the
    issuer or the audience: where one secret signs both kinds, a refresh
    token of this service passes as an access credential although
    [verifyAccessToken] refuses it. *)
Theorem authenticateToken_checks_signature_and_expiry_only :
  forall env now req,
    (forall out,
        AuthMiddleware.authenticateToken env now req = AuthMiddleware.Next out
        <-> exists c,
            out = Some (AuthMiddleware.reqUser c)
            /\ AuthMiddleware.tokenOf req
               = Jwt.Signed c (JWT_ACCESS_SECRET env)
            /\ Js.falsy (JWT_ACCESS_SECRET env) = false
            /\ Jwt.seconds now < Jwt.exp c)
    /\ (forall c,
           JWTService.verifyAccessToken env now (AuthMiddleware.tokenOf req)
           = inr c ->
           AuthMiddleware.authenticateToken env now req
           = AuthMiddleware.Next (Some (AuthMiddleware.reqUser c)))
    /\ (forall issued payload c,
           JWT_ACCESS_SECRET env = JWT_REFRESH_SECRET env ->
           JWTService.generateRefreshToken env issued payload
           = inr (AuthMiddleware.tokenOf req) ->
           AuthMiddleware.tokenOf req = Jwt.Signed c (JWT_REFRESH_SECRET env) ->
           Jwt.seconds now < Jwt.exp c ->
           AuthMiddleware.authenticateToken env now req
           = AuthMiddleware.Next (Some (AuthMiddleware.reqUser c))
           /\ JWTService.verifyAccessToken env now (AuthMiddleware.tokenOf req)
              = inl (Js.error
                       "Failed to verify access token: Invalid token type")).
Proof.
  intros env now req. split; [| split].
  - intros out. split.
    + apply authenticateToken_inv.
    + intros (c & -> & Ht & Hs & Hlive).
      apply authenticateToken_signed; assumption.
  - intros c Hv.
    destruct (verifyAccessToken_inv _ _ _ _ Hv) as (Hs & Ht & _ & Hlive & _).
    apply authenticateToken_signed; assumption.
  - intros issued payload c Hshared Hgen Ht Hlive.
    destruct (generateRefreshToken_inv _ _ _ _ Hgen)
      as (Hs & c0 & Ht0 & Hty & _ & _ & _ & _ & Hiss & Haud).
    assert (c0 = c) by congruence. subst c0.
    split.
    + apply authenticateToken_signed; [congruence | congruence | exact Hlive].
    + rewrite Ht, <- Hshared.
      unfold JWTService.verifyAccessToken, Jwt.verify. simpl.
      rewrite Hshared, Hs, String.eqb_refl, Haud, Hiss. simpl.
      replace (Jwt.exp c <=? Jwt.seconds now) with false.
      * simpl. rewrite Hty. reflexivity.
      * symmetry. apply Z.leb_gt. exact Hlive.
Qed.

Lemma authenticateToken_checks_signature_and_expiry_only_witness :
  let stolen :=
    Jwt.sign Sample.t0 (Jwt.mkBody "u1" "u1@example.com" None "refresh")
             "one-secret" (7 * 24 * 60 * 60) "auth-service" "auth-client" in
  AuthMiddleware.authenticateToken Sample.env (Sample.t0 + 60000)
    (AuthMiddleware.mkRequest Sample.access1 (Jwt.Opaque ""))
  = AuthMiddleware.Next
      (Some (AuthMiddleware.mkReqUser "c0" "alice@example.com"
                                      1700000000 1700000900))
  /\ AuthMiddleware.authenticateToken Sample.sharedEnv (Sample.t0 + 86400000)
       (AuthMiddleware.mkRequest (Jwt.Opaque "") stolen)
     = AuthMiddleware.Next
         (Some (AuthMiddleware.mkReqUser "u1" "u1@example.com"
                                         1700000000 1700604800))
  /\ JWTService.verifyAccessToken Sample.sharedEnv (Sample.t0 + 86400000) stolen
     = inl (Js.error "Failed to verify access token: Invalid token type").
Proof.
  cbv zeta. split.
  - apply (proj1 (proj2 (authenticateToken_checks_signature_and_expiry_only
                           Sample.env (Sample.t0 + 60000)
                           (AuthMiddleware.mkRequest Sample.access1
                                                     (Jwt.Opaque ""))))
             (Jwt.mkClaims "c0" "alice@example.com" (Some "user") "access"
                           1700000000 1700000900 "auth-service" "auth-client")).
    vm_compute. reflexivity.
  - apply (proj2 (proj2 (authenticateToken_checks_signature_and_expiry_only
                           Sample.sharedEnv (Sample.t0 + 86400000)
                           (AuthMiddleware.mkRequest (Jwt.Opaque "")
                              (Jwt.sign Sample.t0
                                 (Jwt.mkBody "u1" "u1@example.com" None
                                             "refresh")
                                 "one-secret" (7 * 24 * 60 * 60)
                                 "auth-service" "auth-client"))))
             Sample.t0 (JWTService.mkPayload "u1" "u1@example.com" "")
             (Jwt.mkClaims "u1" "u1@example.com" None "refresh"
                           1700000000 1700604800 "auth-service" "auth-client"));
      reflexivity.
Defined.

(** X21: [optionalAuth] never answers the request itself.  It hands it on
    with a user exactly when [authenticateToken] would let it through, and
    then with the same user; in every other case, a missing, forged or
    expired token alike, it hands it on without one. *)
Theorem optionalAuth_never_rejects :
  forall env now req,
    exists out,
      AuthMiddleware.optionalAuth env now req = AuthMiddleware.Next out
      /\ (forall u,
             out = Some u
             <-> AuthMiddleware.authenticateToken env now req
                 = AuthMiddleware.Next (Some u)).
Proof.
  intros env now req.
  unfold AuthMiddleware.optionalAuth, AuthMiddleware.authenticateToken.
  cbv zeta.
  destruct (Jwt.falsy (AuthMiddleware.tokenOf req)).
  - exists None. split; [reflexivity |]. intros u. split; discriminate.
  - destruct (Jwt.verifyPlain now (AuthMiddleware.tokenOf req)
                (JWT_ACCESS_SECRET env)) as [err | c].
    + exists None. split; [reflexivity |]. intros u. split; [discriminate |].
      destruct (Js.name err =? "TokenExpiredError")%string;
        [discriminate |].
      destruct (Js.name err =? "JsonWebTokenError")%string; discriminate.
    + exists (Some (AuthMiddleware.reqUser c)). split; [reflexivity |].
      intros u. split; intros H; injection H as <-; reflexivity.
Qed.

(** ** The constraints of the schema are kept *)

Section Integrity.

Import Prisma Protocol.

Lemma keeps_read I {A} (f : Db -> Js.Result A) :
  keeps I (fun db => (db, f db)).
Proof. intros db H. exact H. Qed.

Lemma keeps_ret I {A} (a : A) : keeps I (ret a).
Proof. apply (keeps_read I (fun _ => inr a)). Qed.

Lemma keeps_throw I {A} (e : Js.Error) : keeps I (@throw A e).
Proof. apply (keeps_read I (fun _ => inl e)). Qed.

Lemma keeps_lift I {A} (r : Js.Result A) : keeps I (lift r).
Proof. apply (keeps_read I (fun _ => r)). Qed.

Lemma keeps_bind I {A B} (m : M A) (k : A -> M B) :
  keeps I m -> (forall a, keeps I (k a)) -> keeps I (bind m k).
Proof.
  intros Hm Hk db H. unfold bind. specialize (Hm db H).
  destruct (m db) as [db1 [e | a]]; simpl in *; [exact Hm |].
  apply Hk, Hm.
Qed.

Lemma keeps_tryCatch I {A} (body : M A) (handler : Js.Error -> M A) :
  keeps I body -> (forall e, keeps I (handler e)) ->
  keeps I (tryCatch body handler).
Proof.
  intros Hm Hk db H. unfold tryCatch. specialize (Hm db H).
  destruct (body db) as [db1 [e | a]]; simpl in *; [| exact Hm].
  apply Hk, Hm.
Qed.

Lemma integrity_users db us n :
  integrity db ->
  (forall u, In u (users db) -> exists u', In u' us /\ id u' = id u) ->
  integrity (mkDb us (refreshTokens db) n).
Proof.
  intros [Hfk Hnd] Hus. split; simpl; [| exact Hnd].
  intros r Hr. destruct (Hfk r Hr) as (u & Hu & Hid).
  destruct (Hus u Hu) as (u' & Hu' & Hid'). exists u'. split; congruence.
Qed.

Lemma integrity_revoke_some db (p : RefreshToken -> bool) :
  integrity db ->
  integrity (mkDb (users db)
               (map (fun r => if p r then revoke r else r) (refreshTokens db))
               (nextId db)).
Proof.
  intros [Hfk Hnd]. split; simpl.
  - intros r' Hr'. apply in_map_iff in Hr'. destruct Hr' as (r & <- & Hr).
    destruct (Hfk r Hr) as (u & Hu & Hid). exists u.
    destruct (p r); simpl; auto.
  - rewrite map_map. rewrite (map_ext _ token); [exact Hnd |].
    intros r. destruct (p r); reflexivity.
Qed.

Lemma distinct_tokens_of_kept_rows (keep : RefreshToken -> bool) rows :
  NoDup (map token rows) -> NoDup (map token (filter keep rows)).
Proof.
  induction rows as [| row rows IH]; simpl; intros Hd; [constructor |].
  apply NoDup_cons_iff in Hd. destruct Hd as [Hnew Hrest].
  destruct (keep row); simpl; [| exact (IH Hrest)].
  apply NoDup_cons; [| exact (IH Hrest)].
  rewrite in_map_iff. intros (other & Htok & Hother).
  apply filter_In in Hother. apply Hnew.
  rewrite <- Htok. apply in_map, Hother.
Qed.

Lemma integrity_delete_some db (p : RefreshToken -> bool) :
  integrity db ->
  integrity (mkDb (users db) (filter p (refreshTokens db)) (nextId db)).
Proof.
  intros [Hfk Hnd]. split; simpl.
  - intros r Hr. apply filter_In in Hr. apply Hfk, Hr.
  - apply distinct_tokens_of_kept_rows, Hnd.
Qed.

Lemma keeps_integrity_user_create now d : keeps integrity (user_create now d).
Proof.
  intros db H. unfold user_create.
  destruct (List.existsb _ (users db)); simpl; [exact H |].
  apply integrity_users; [exact H |].
  intros u Hu. exists u. split; [apply in_or_app; auto | reflexivity].
Qed.

Lemma keeps_integrity_user_update now i f :
  keeps integrity (user_update now i f).
Proof.
  intros db H. unfold user_update.
  destruct (find _ (users db)) as [old |] eqn:Hold; simpl; [| exact H].
  apply integrity_users; [exact H |].
  intros u Hu. eexists. split; [apply in_map, Hu |].
  destruct (String.eqb_spec (id u) i) as [E | _]; [| reflexivity].
  simpl. apply find_some in Hold. destruct Hold as [_ Hid].
  apply String.eqb_eq in Hid. congruence.
Qed.

Lemma keeps_integrity_refreshToken_create now t uid expires :
  keeps integrity (refreshToken_create now t uid expires).
Proof.
  intros db [Hfk Hnd]. unfold refreshToken_create.
  destruct (List.existsb _ (refreshTokens db)) eqn:Hdup; simpl;
    [split; assumption |].
  destruct (List.existsb _ (users db)) eqn:Hown; simpl;
    [| split; assumption].
  split; simpl.
  - intros r Hr. apply in_app_iff in Hr. destruct Hr as [Hr | [<- | []]].
    + apply Hfk, Hr.
    + apply existsb_exists in Hown. destruct Hown as (u & Hu & Hid).
      exists u. split; [exact Hu |]. simpl. apply String.eqb_eq, Hid.
  - rewrite map_app. simpl. apply NoDup_app.
    + exact Hnd.
    + repeat constructor. simpl. tauto.
    + intros k Hk [<- | []]. apply in_map_iff in Hk.
      destruct Hk as (r & Htok & Hr).
      assert (Hex : List.existsb (fun r => Jwt.eqb (token r) t)
                                 (refreshTokens db) = true).
      { apply existsb_exists. exists r. split; [exact Hr |].
        apply token_eqb_eq, Htok. }
      congruence.
Qed.

Lemma keeps_integrity_refreshToken_update_revoke t :
  keeps integrity (refreshToken_update_revoke t).
Proof.
  intros db H. unfold refreshToken_update_revoke.
  destruct (find _ (refreshTokens db)); simpl; [| exact H].
  apply (integrity_revoke_some db (fun r => Jwt.eqb (token r) t) H).
Qed.

Lemma keeps_integrity_refreshToken_updateMany_revoke uid :
  keeps integrity (refreshToken_updateMany_revoke uid).
Proof.
  intros db H. unfold refreshToken_updateMany_revoke. simpl.
  apply (integrity_revoke_some db
           (fun r => (userId r =? uid)%string && negb (isRevoked r)) H).
Qed.

Lemma keeps_integrity_refreshToken_deleteMany_stale now :
  keeps integrity (refreshToken_deleteMany_stale now).
Proof.
  intros db H. unfold refreshToken_deleteMany_stale. simpl.
  apply (integrity_delete_some db
           (fun r => negb ((expiresAt r <? now) || isRevoked r)) H).
Qed.

End Integrity.

Ltac keep_by primitive :=
  repeat first
    [ apply keeps_ret
    | apply keeps_throw
    | apply keeps_lift
    | primitive
    | apply keeps_bind; [| intros ?]
    | apply keeps_tryCatch; [| intros ?]
    | match goal with
      | |- Protocol.keeps _ (Prisma.user_findUnique_email _) =>
          unfold Prisma.user_findUnique_email; apply keeps_read
      | |- Protocol.keeps _ (Prisma.user_findUnique_id _) =>
          unfold Prisma.user_findUnique_id; apply keeps_read
      | |- Protocol.keeps _ (Prisma.user_findFirst_provider _ _) =>
          unfold Prisma.user_findFirst_provider; apply keeps_read
      | |- Protocol.keeps _ (Prisma.refreshToken_findUnique _) =>
          unfold Prisma.refreshToken_findUnique; apply keeps_read
      | |- Protocol.keeps _ (Prisma.refreshToken_findUnique_user _) =>
          unfold Prisma.refreshToken_findUnique_user; apply keeps_read
      | |- Protocol.keeps _ (if ?c then _ else _) => destruct c
      | |- Protocol.keeps _ (match ?x with _ => _ end) => destruct x
      end ].

Ltac keep_integrity :=
  keep_by ltac:(first
    [ apply keeps_integrity_user_create
    | apply keeps_integrity_user_update
    | apply keeps_integrity_refreshToken_create
    | apply keeps_integrity_refreshToken_update_revoke
    | apply keeps_integrity_refreshToken_updateMany_revoke
    | apply keeps_integrity_refreshToken_deleteMany_stale ]).

Lemma step_keeps_integrity bcrypt_hash bcrypt_compare env op :
  Protocol.keeps Protocol.integrity
    (Protocol.step bcrypt_hash bcrypt_compare env op).
Proof.
  destruct op; simpl.
  - unfold AuthService.register. cbv zeta. keep_integrity.
  - unfold AuthService.login. cbv zeta. keep_integrity.
  - unfold AuthService.logout. keep_integrity.
  - unfold AuthService.refreshToken. keep_integrity.
  - unfold AuthService.revokeAllTokens. keep_integrity.
  - unfold AuthService.cleanupExpiredTokens. keep_integrity.
Qed.

Lemma oauth_keeps_integrity now profile provider :
  Protocol.keeps Protocol.integrity
    (OAuthService.processOAuthProfile now profile provider).
Proof.
  unfold OAuthService.processOAuthProfile, OAuthService.findOrCreateOAuthUser,
    OAuthService.updateOAuthUser, OAuthService.linkOAuthAccount,
    OAuthService.createOAuthUser.
  cbv zeta. keep_integrity.
Qed.

Lemma unlink_keeps_integrity now userId :
  Protocol.keeps Protocol.integrity (OAuthService.unlinkOAuthAccount now userId).
Proof. unfold OAuthService.unlinkOAuthAccount. keep_integrity. Qed.

(** X22: the two constraints on the refresh-token table, an existing owner
    for every row and a different token in every row, survive every
    sequence of register, login, logout, refresh, revoke-all and purge
    calls, whatever each call answers, and every sign-in through a
    provider and every unlinking. *)
Theorem integrity_is_invariant :
  forall bcrypt_hash bcrypt_compare env ops db,
    Protocol.integrity db ->
    Protocol.integrity (Protocol.run bcrypt_hash bcrypt_compare env ops db)
    /\ (forall now profile provider,
           Protocol.integrity
             (fst (OAuthService.processOAuthProfile now profile provider db)))
    /\ (forall now userId,
           Protocol.integrity
             (fst (OAuthService.unlinkOAuthAccount now userId db))).
Proof.
  intros h cmp env ops db H. split; [| split].
  - revert db H. induction ops as [| op ops IH]; intros db H; simpl.
    + exact H.
    + apply IH. apply (step_keeps_integrity h cmp env op db H).
  - intros now profile provider.
    apply (oauth_keeps_integrity now profile provider db H).
  - intros now uid. apply (unlink_keeps_integrity now uid db H).
Qed.

Lemma integrity_is_invariant_witness :
  Protocol.integrity Sample.empty
  /\ Protocol.integrity Sample.oneRevoked
  /\ Protocol.integrity Sample.withBob.
Proof.
  assert (H0 : Protocol.integrity Sample.empty).
  { split; [intros r [] | constructor]. }
  split; [exact H0 |]. split.
  - exact (proj1 (integrity_is_invariant Sample.bcrypt_hash
                    Sample.bcrypt_compare Sample.env
                    [Protocol.Register Sample.t0 "s" Sample.alice;
                     Protocol.Login (Sample.t0 + 4000)
                       (AuthService.mkCredentials "alice@example.com"
                                                  "Aa1!aaaa");
                     Protocol.Register (Sample.t0 + 5000) "s" Sample.carol;
                     Protocol.Logout (Sample.t0 + 6000) Sample.token1]
                    Sample.empty H0)).
  - pose proof (proj1 (integrity_is_invariant Sample.bcrypt_hash
                         Sample.bcrypt_compare Sample.env
                         [Protocol.Register Sample.t0 "s" Sample.alice]
                         Sample.empty H0)) as H1.
    exact (proj1 (proj2 (integrity_is_invariant Sample.bcrypt_hash
                           Sample.bcrypt_compare Sample.env []
                           Sample.registered H1))
             (Sample.t0 + 1000) Sample.bob "google").
Defined.

(** ** One row per token *)

Lemma revoke_by_token_flips_one_row t rows r :
  NoDup (map Prisma.token rows) ->
  find (fun x => Jwt.eqb (Prisma.token x) t) rows = Some r ->
  exists before after,
    rows = (before ++ r :: after)%list
    /\ map (fun x => if Jwt.eqb (Prisma.token x) t then Prisma.revoke x else x)
           rows
       = (before ++ Prisma.revoke r :: after)%list
    /\ Prisma.token r = t.
Proof.
  intros Hnd Hfind. apply find_some in Hfind. destruct Hfind as [Hin Htok].
  apply token_eqb_eq in Htok.
  destruct (in_split _ _ Hin) as (before & after & ->).
  exists before, after. split; [reflexivity |]. split; [| exact Htok].
  rewrite map_app in Hnd. simpl in Hnd.
  apply NoDup_remove_2 in Hnd.
  assert (Hother : forall x, In x (before ++ after)%list ->
                             Jwt.eqb (Prisma.token x) t = false).
  { intros x Hx. apply token_eqb_neq. intros E. apply Hnd.
    rewrite <- map_app, Htok, <- E. apply in_map, Hx. }
  rewrite map_app. simpl.
  replace (Jwt.eqb (Prisma.token r) t) with true
    by (symmetry; apply token_eqb_eq, Htok).
  f_equal; [| f_equal].
  - rewrite <- (map_id before) at 2. apply map_ext_in. intros x Hx.
    rewrite Hother; [reflexivity | apply in_or_app; auto].
  - rewrite <- (map_id after) at 2. apply map_ext_in. intros x Hx.
    rewrite Hother; [reflexivity | apply in_or_app; auto].
Qed.

Lemma owner_is_found db r :
  Protocol.integrity db ->
  In r (Prisma.refreshTokens db) ->
  find (fun u => (Prisma.id u =? Prisma.userId r)%string) (Prisma.users db)
  <> None.
Proof.
  intros [Hfk _] Hr Hnone. destruct (Hfk r Hr) as (u & Hu & Hid).
  pose proof (find_none _ _ Hnone u Hu) as Hno. simpl in Hno.
  rewrite Hid, String.eqb_refl in Hno. discriminate Hno.
Qed.

Lemma verifyRefreshToken_error env now t e :
  JWTService.verifyRefreshToken env now t = inl e ->
  e = Js.error "Token must be a non-empty string"
  \/ e = Js.error "JWT_REFRESH_SECRET environment variable is required"
  \/ e = Js.error "Refresh token has expired"
  \/ e = Js.error "Invalid refresh token"
  \/ e = Js.error "Failed to verify refresh token: Invalid token type".
Proof.
  unfold JWTService.verifyRefreshToken, Jwt.verify, Js.bind, Js.throw, Js.ret.
  destruct (Jwt.falsy t); [intros H; injection H as <-; auto |].
  destruct (Js.falsy (JWT_REFRESH_SECRET env));
    [intros H; injection H as <-; auto |].
  destruct t as [c key | s]; [| intros H; injection H as <-; auto 6].
  destruct (negb (key =? _)%string); [intros H; injection H as <-; auto 6 |].
  destruct (Jwt.exp c <=? Jwt.seconds now);
    [intros H; injection H as <-; auto 6 |].
  destruct (negb (Jwt.aud c =? _)%string);
    [intros H; injection H as <-; auto 6 |].
  destruct (negb (Jwt.iss c =? _)%string);
    [intros H; injection H as <-; auto 6 |].
  destruct (negb (Jwt.type c =? _)%string);
    [intros H; injection H as <-; auto 6 | discriminate].
Qed.

(** X23: in a database that meets the constraints of the schema, a
    successful [logout] turns exactly one row, the one of the presented
    token, which was open, into its revoked copy and leaves every other
    row and the users as they were; a successful [refreshToken] does the
    same and appends one open row of the same owner holding the new
    refresh token; and a [refreshToken], whatever it answers, never fails
    on a missing owner of the row. *)
Theorem logout_and_refresh_flip_one_row :
  forall env now t db,
    Protocol.integrity db ->
    (forall db' resp,
        AuthService.logout env now t db = (db', inr resp) ->
        exists before r after,
          Prisma.refreshTokens db = (before ++ r :: after)%list
          /\ Prisma.token r = t /\ Prisma.isRevoked r = false
          /\ Prisma.refreshTokens db'
             = (before ++ Prisma.revoke r :: after)%list
          /\ Prisma.users db' = Prisma.users db)
    /\ (forall db' resp,
           AuthService.refreshToken env now t db = (db', inr resp) ->
           exists before r after fresh tp,
             Prisma.refreshTokens db = (before ++ r :: after)%list
             /\ Prisma.token r = t /\ Prisma.isRevoked r = false
             /\ Prisma.refreshTokens db'
                = (before ++ Prisma.revoke r :: after ++ [fresh])%list
             /\ AuthService.tokens resp = Some tp
             /\ Prisma.token fresh = JWTService.refreshToken tp
             /\ Prisma.userId fresh = Prisma.userId r
             /\ Prisma.isRevoked fresh = false
             /\ Prisma.users db' = Prisma.users db)
    /\ (forall db' e,
           AuthService.refreshToken env now t db = (db', inl e) ->
           Js.name e <> "TypeError"
           /\ Js.message e
              <> "Token refresh failed: Cannot read properties of null (reading 'id')").
Proof.
  intros env now t db Hint. split; [| split].
  - intros db' resp H.
    destruct (logout_success_inv _ _ _ _ _ _ H)
      as [_ [[r [Hfind Hrev]] ->]].
    destruct (revoke_by_token_flips_one_row t _ r (proj2 Hint) Hfind)
      as (before & after & Hrows & Hmap & Htok).
    exists before, r, after. simpl. auto.
  - intros db' resp H.
    destruct (refreshToken_success_inv _ _ _ _ _ _ H)
      as (c & r & u & tp & _ & Hfind & Hrev & _ & Hu & _ & _ & -> & ->).
    destruct (revoke_by_token_flips_one_row t _ r (proj2 Hint) Hfind)
      as (before & after & Hrows & Hmap & Htok).
    exists before, r, after. eexists. exists tp. simpl.
    split; [exact Hrows |]. split; [exact Htok |]. split; [exact Hrev |].
    split; [rewrite Hmap, <- app_assoc; reflexivity |].
    split; [reflexivity |]. split; [reflexivity |].
    split; [| auto].
    apply find_some in Hu. destruct Hu as [_ Hid].
    apply String.eqb_eq, Hid.
  - intros db' e. unfold AuthService.refreshToken.
    destruct (Jwt.falsy t);
      [intros H; injection H as _ <-; split; discriminate |].
    run_client.
    unfold Prisma.refreshToken_update_revoke, Prisma.refreshToken_create.
    destruct (JWTService.verifyRefreshToken env now t) as [e0 | c] eqn:Hv;
      simpl.
    { apply verifyRefreshToken_error in Hv.
      destruct Hv as [-> | [-> | [-> | [-> | ->]]]]; simpl;
        intros H; injection H as _ <-; split; discriminate. }
    destruct (find _ (Prisma.refreshTokens db)) as [r |] eqn:Hfind; simpl;
      [| intros H; injection H as _ <-; split; discriminate].
    destruct (Prisma.isRevoked r); simpl;
      [intros H; injection H as _ <-; split; discriminate |].
    destruct (Prisma.expiresAt r <? now); simpl;
      [intros H; injection H as _ <-; split; discriminate |].
    rewrite Hfind. simpl.
    destruct (find _ (Prisma.users db)) as [u |] eqn:Hu; simpl.
    2:{ exfalso. apply find_some in Hfind.
        exact (owner_is_found db r Hint (proj1 Hfind) Hu). }
    destruct (JWTService.generateTokenPair _ _ _) as [e0 | tp] eqn:Hgen; simpl.
    { apply generateTokenPair_error in Hgen.
      destruct Hgen as [-> | [-> | [-> | ->]]]; simpl;
        intros H; injection H as _ <-; split; discriminate. }
    rewrite existsb_token_map_revoke.
    destruct (List.existsb _ (Prisma.refreshTokens db)); simpl;
      [intros H; injection H as _ <-; split; discriminate |].
    destruct (negb (List.existsb _ (Prisma.users db))); simpl;
      [| discriminate].
    intros H; injection H as _ <-; split; discriminate.
Qed.

Lemma logout_and_refresh_flip_one_row_witness :
  Protocol.integrity Sample.registered
  /\ exists before r after,
      Prisma.refreshTokens Sample.registered = (before ++ r :: after)%list
      /\ Prisma.token r = Sample.token1
      /\ Prisma.isRevoked r = false
      /\ Prisma.refreshTokens
           (fst (AuthService.logout Sample.env (Sample.t0 + 6000)
                   Sample.token1 Sample.registered))
         = (before ++ Prisma.revoke r :: after)%list.
Proof.
  assert (H0 : Protocol.integrity Sample.empty).
  { split; [intros r [] | constructor]. }
  assert (H1 : Protocol.integrity Sample.registered).
  { exact (step_keeps_integrity Sample.bcrypt_hash Sample.bcrypt_compare
             Sample.env (Protocol.Register Sample.t0 "s" Sample.alice)
             Sample.empty H0). }
  split; [exact H1 |].
  pose (out := AuthService.logout Sample.env (Sample.t0 + 6000)
                 Sample.token1 Sample.registered).
  assert (Hout : out = (fst out,
                        inr (AuthService.mkResponse "Logout successful"
                               None None None)))
    by (vm_compute; reflexivity).
  destruct (proj1 (logout_and_refresh_flip_one_row Sample.env
                     (Sample.t0 + 6000) Sample.token1 Sample.registered H1)
              _ _ Hout)
    as (before & r & after & Hrows & Htok & Hrev & Hrows' & _).
  exists before, r, after. auto.
Defined.

(** ** The ids of the users *)

Lemma to_uint_is_a_numeral n : Nat.to_uint n <> Decimal.Nil.
Proof.
  rewrite <- (DecimalNat.Unsigned.of_to n) at 1.
  rewrite DecimalNat.Unsigned.to_of. apply DecimalFacts.unorm_nonnil.
Qed.

Lemma cuid_inj n m : Prisma.cuid n = Prisma.cuid m -> n = m.
Proof.
  unfold Prisma.cuid. intros E. injection E as E.
  apply DecimalNat.Unsigned.to_uint_inj.
  pose proof (NilZero.usu _ (to_uint_is_a_numeral n)) as Hn.
  pose proof (NilZero.usu _ (to_uint_is_a_numeral m)) as Hm.
  rewrite E in Hn. congruence.
Qed.

Section UserKeys.

Import Prisma Protocol.

Lemma userKeyed_rows db rows n :
  userKeyed db -> (nextId db <= n)%nat -> userKeyed (mkDb (users db) rows n).
Proof.
  intros [Hkey Hnd] Hle. split; simpl; [| exact Hnd].
  intros u Hu. destruct (Hkey u Hu) as (k & Hk & Hid).
  exists k. split; [lia | exact Hid].
Qed.

Lemma keeps_userKeyed_user_create now d : keeps userKeyed (user_create now d).
Proof.
  intros db [Hkey Hnd]. unfold user_create.
  destruct (List.existsb _ (users db)); simpl; [split; assumption |].
  split; simpl.
  - intros u Hu. apply in_app_iff in Hu. destruct Hu as [Hu | [<- | []]].
    + destruct (Hkey u Hu) as (k & Hk & Hid). exists k. split; [lia | exact Hid].
    + exists (nextId db). split; [lia | reflexivity].
  - rewrite map_app. simpl. apply NoDup_app.
    + exact Hnd.
    + repeat constructor. simpl. tauto.
    + intros i Hi [<- | []]. apply in_map_iff in Hi.
      destruct Hi as (u & Hid & Hu).
      destruct (Hkey u Hu) as (k & Hk & Hid').
      rewrite Hid' in Hid. apply cuid_inj in Hid. lia.
Qed.

Lemma update_keeps_the_id (us : list User) i old v x :
  find (fun u => (id u =? i)%string) us = Some old ->
  id v = id old ->
  id (if (id x =? i)%string then v else x) = id x.
Proof.
  intros Hold Hv. apply find_some in Hold. destruct Hold as [_ Hid].
  apply String.eqb_eq in Hid.
  destruct (String.eqb_spec (id x) i); congruence.
Qed.

Lemma keeps_userKeyed_user_update now i f :
  keeps userKeyed (user_update now i f).
Proof.
  intros db [Hkey Hnd]. unfold user_update.
  destruct (find _ (users db)) as [old |] eqn:Hold; simpl;
    [| split; assumption].
  split; simpl.
  - intros u' Hu'. apply in_map_iff in Hu'. destruct Hu' as (x & <- & Hx).
    destruct (Hkey x Hx) as (k & Hk & Hid). exists k. split; [exact Hk |].
    rewrite <- Hid. apply (update_keeps_the_id _ _ _ _ _ Hold). reflexivity.
  - rewrite map_map. rewrite (map_ext _ id); [exact Hnd |].
    intros x. apply (update_keeps_the_id _ _ _ _ _ Hold). reflexivity.
Qed.

Lemma keeps_userKeyed_refreshToken_create now t uid expires :
  keeps userKeyed (refreshToken_create now t uid expires).
Proof.
  intros db H. unfold refreshToken_create.
  destruct (List.existsb _ (refreshTokens db)); simpl; [exact H |].
  destruct (negb (List.existsb _ (users db))); simpl; [exact H |].
  apply userKeyed_rows; [exact H | lia].
Qed.

Lemma keeps_userKeyed_refreshToken_update_revoke t :
  keeps userKeyed (refreshToken_update_revoke t).
Proof.
  intros db H. unfold refreshToken_update_revoke.
  destruct (find _ (refreshTokens db)); simpl; [| exact H].
  apply userKeyed_rows; [exact H | lia].
Qed.

Lemma keeps_userKeyed_refreshToken_updateMany_revoke uid :
  keeps userKeyed (refreshToken_updateMany_revoke uid).
Proof.
  intros db H. unfold refreshToken_updateMany_revoke. simpl.
  apply userKeyed_rows; [exact H | lia].
Qed.

Lemma keeps_userKeyed_refreshToken_deleteMany_stale now :
  keeps userKeyed (refreshToken_deleteMany_stale now).
Proof.
  intros db H. unfold refreshToken_deleteMany_stale. simpl.
  apply userKeyed_rows; [exact H | lia].
Qed.

End UserKeys.

Ltac keep_userKeyed :=
  keep_by ltac:(first
    [ apply keeps_userKeyed_user_create
    | apply keeps_userKeyed_user_update
    | apply keeps_userKeyed_refreshToken_create
    | apply keeps_userKeyed_refreshToken_update_revoke
    | apply keeps_userKeyed_refreshToken_updateMany_revoke
    | apply keeps_userKeyed_refreshToken_deleteMany_stale ]).

Lemma step_keeps_userKeyed bcrypt_hash bcrypt_compare env op :
  Protocol.keeps Protocol.userKeyed
    (Protocol.step bcrypt_hash bcrypt_compare env op).
Proof.
  destruct op; simpl.
  - unfold AuthService.register. cbv zeta. keep_userKeyed.
  - unfold AuthService.login. cbv zeta. keep_userKeyed.
  - unfold AuthService.logout. keep_userKeyed.
  - unfold AuthService.refreshToken. keep_userKeyed.
  - unfold AuthService.revokeAllTokens. keep_userKeyed.
  - unfold AuthService.cleanupExpiredTokens. keep_userKeyed.
Qed.

Lemma oauth_keeps_userKeyed now profile provider :
  Protocol.keeps Protocol.userKeyed
    (OAuthService.processOAuthProfile now profile provider).
Proof.
  unfold OAuthService.processOAuthProfile, OAuthService.findOrCreateOAuthUser,
    OAuthService.updateOAuthUser, OAuthService.linkOAuthAccount,
    OAuthService.createOAuthUser.
  cbv zeta. keep_userKeyed.
Qed.

Lemma unlink_keeps_userKeyed now userId :
  Protocol.keeps Protocol.userKeyed
    (OAuthService.unlinkOAuthAccount now userId).
Proof. unfold OAuthService.unlinkOAuthAccount. keep_userKeyed. Qed.

(** X24: the ids of the users are taken from the counter of the database
    and no two users share an id, and this survives every sequence of
    register, login, logout, refresh, revoke-all and purge calls, whatever
    each call answers, and every sign-in through a provider and every
    unlinking. *)
Theorem user_ids_stay_unique :
  forall bcrypt_hash bcrypt_compare env ops db,
    Protocol.userKeyed db ->
    Protocol.userKeyed (Protocol.run bcrypt_hash bcrypt_compare env ops db)
    /\ (forall now profile provider,
           Protocol.userKeyed
             (fst (OAuthService.processOAuthProfile now profile provider db)))
    /\ (forall now userId,
           Protocol.userKeyed
             (fst (OAuthService.unlinkOAuthAccount now userId db))).
Proof.
  intros h cmp env ops db H. split; [| split].
  - revert db H. induction ops as [| op ops IH]; intros db H; simpl.
    + exact H.
    + apply IH. apply (step_keeps_userKeyed h cmp env op db H).
  - intros now profile provider.
    apply (oauth_keeps_userKeyed now profile provider db H).
  - intros now uid. apply (unlink_keeps_userKeyed now uid db H).
Qed.

Lemma user_ids_stay_unique_witness :
  Protocol.userKeyed Sample.empty
  /\ Protocol.userKeyed Sample.oneRevoked
  /\ NoDup (map Prisma.id (Prisma.users Sample.withBob)).
Proof.
  assert (H0 : Protocol.userKeyed Sample.empty).
  { split; [intros r [] | constructor]. }
  split; [exact H0 |]. split.
  - exact (proj1 (user_ids_stay_unique Sample.bcrypt_hash
                    Sample.bcrypt_compare Sample.env
                    [Protocol.Register Sample.t0 "s" Sample.alice;
                     Protocol.Login (Sample.t0 + 4000)
                       (AuthService.mkCredentials "alice@example.com"
                                                  "Aa1!aaaa");
                     Protocol.Register (Sample.t0 + 5000) "s" Sample.carol;
                     Protocol.Logout (Sample.t0 + 6000) Sample.token1]
                    Sample.empty H0)).
  - pose proof (step_keeps_userKeyed Sample.bcrypt_hash
                  Sample.bcrypt_compare Sample.env
                  (Protocol.Register Sample.t0 "s" Sample.alice)
                  Sample.empty H0) as H1.
    exact (proj2 (proj1 (proj2 (user_ids_stay_unique Sample.bcrypt_hash
                                  Sample.bcrypt_compare Sample.env []
                                  Sample.registered H1))
                    (Sample.t0 + 1000) Sample.bob "google")).
Defined.

(** ** A returning user of a provider *)

Lemma processOAuthProfile_returns now profile provider db u :
  Js.falsy (hd "" (OAuthService.emails profile)) = false ->
  Js.falsy (OAuthService.p_id profile) = false ->
  find (fun x => (Prisma.providerId x =? OAuthService.p_id profile)%string
                 && (Prisma.provider x =? provider)%string)
       (Prisma.users db) = Some u ->
  NoDup (map Prisma.id (Prisma.users db)) ->
  let row := Prisma.mkUser (Prisma.id u) (Prisma.email u) (Prisma.password u)
               (JWTService.orElse (OAuthService.givenName profile)
                                  (Prisma.firstName u))
               (JWTService.orElse (OAuthService.familyName profile)
                                  (Prisma.lastName u))
               (JWTService.orElse (OAuthService.photo profile)
                                  (Prisma.profilePicture u))
               (Prisma.provider u) (Prisma.providerId u)
               (Prisma.isEmailVerified u) (Some now)
               (Prisma.createdAt u) now in
  OAuthService.processOAuthProfile now profile provider db
  = (Prisma.mkDb
       (map (fun x => if (Prisma.id x =? Prisma.id u)%string then row else x)
            (Prisma.users db))
       (Prisma.refreshTokens db) (Prisma.nextId db),
     inr (AuthService.withoutPassword row)).
Proof.
  intros Hmail Hpid Hprov Hnd row.
  pose proof (find_by_unique_id _ u Hnd (proj1 (find_some _ _ Hprov))) as Hid.
  run_oauth. rewrite Hmail. simpl. rewrite Hpid. simpl. rewrite Hprov. simpl.
  rewrite Hid. reflexivity.
Qed.

Lemma first_match_after_its_update (p : Prisma.User -> bool) users u row :
  find p users = Some u ->
  NoDup (map Prisma.id users) ->
  p row = true ->
  find p (map (fun x => if (Prisma.id x =? Prisma.id u)%string then row else x)
              users)
  = Some row.
Proof.
  intros Hfind Hnd Hrow.
  induction users as [| a l IH]; simpl in *; [discriminate |].
  inversion Hnd as [| i rest Hnotin Hnd']; subst.
  destruct (p a) eqn:Hpa.
  - injection Hfind as ->. rewrite String.eqb_refl, Hrow. reflexivity.
  - destruct (String.eqb_spec (Prisma.id a) (Prisma.id u)) as [E | _].
    + exfalso. apply Hnotin. rewrite E.
      apply in_map, (proj1 (find_some _ _ Hfind)).
    + rewrite Hpa. apply IH; assumption.
Qed.

Lemma first_match_after_linking (p : Prisma.User -> bool) users i old row :
  find p users = None ->
  find (fun x => (Prisma.id x =? i)%string) users = Some old ->
  p row = true ->
  find p (map (fun x => if (Prisma.id x =? i)%string then row else x) users)
  = Some row.
Proof.
  intros Hnone Hold Hrow.
  induction users as [| a l IH]; simpl in *; [discriminate |].
  destruct (p a) eqn:Hpa; [discriminate |].
  destruct (Prisma.id a =? i)%string.
  - rewrite Hrow. reflexivity.
  - rewrite Hpa. apply IH; assumption.
Qed.

Lemma signed_in_account_is_found now profile provider db db1 u :
  Js.falsy (OAuthService.p_id profile) = false ->
  NoDup (map Prisma.id (Prisma.users db)) ->
  OAuthService.processOAuthProfile now profile provider db = (db1, inr u) ->
  Js.falsy (hd "" (OAuthService.emails profile)) = false
  /\ Prisma.refreshTokens db1 = Prisma.refreshTokens db
  /\ exists row,
      find (fun x => (Prisma.providerId x =? OAuthService.p_id profile)%string
                     && (Prisma.provider x =? provider)%string)
           (Prisma.users db1) = Some row
      /\ u = AuthService.withoutPassword row.
Proof.
  intros Hpid Hnd H.
  destruct (Js.falsy (hd "" (OAuthService.emails profile))) eqn:Hmail.
  { exfalso. revert H. run_oauth. rewrite Hmail. simpl. discriminate. }
  split; [reflexivity |].
  destruct (find (fun x => (Prisma.providerId x
                            =? OAuthService.p_id profile)%string
                           && (Prisma.provider x =? provider)%string)
                 (Prisma.users db)) as [u0 |] eqn:Hprov.
  - rewrite (processOAuthProfile_returns now _ _ _ _ Hmail Hpid Hprov Hnd) in H.
    injection H as <- <-. split; [reflexivity |].
    eexists. split; [| reflexivity]. simpl.
    apply (first_match_after_its_update _ _ _ _ Hprov Hnd).
    simpl. exact (proj2 (find_some _ _ Hprov)).
  - destruct (find (fun x => (Prisma.email x
                              =? hd "" (OAuthService.emails profile))%string)
                   (Prisma.users db)) as [ue |] eqn:Hue.
    + rewrite (processOAuthProfile_links now _ _ _ _ Hmail Hpid Hprov Hue Hnd)
        in H.
      injection H as <- <-. split; [reflexivity |].
      eexists. split; [| reflexivity]. simpl.
      apply (first_match_after_linking _ _ _ ue _ Hprov).
      * apply (find_by_unique_id _ ue Hnd (proj1 (find_some _ _ Hue))).
      * simpl. rewrite !String.eqb_refl. reflexivity.
    + rewrite (processOAuthProfile_creates now _ _ _ Hmail Hpid Hprov Hue) in H.
      injection H as <- <-. split; [reflexivity |].
      eexists. split.
      * simpl. apply find_after_append; [exact Hprov |].
        simpl. rewrite !String.eqb_refl. reflexivity.
      * reflexivity.
Qed.

(** X25: a user who has signed in through a provider is recognised when
    signing in again.  In a database whose user ids are unique, after a
    successful [processOAuthProfile] for a profile that carries an id, a
    further [processOAuthProfile] for the same profile and provider
    succeeds, answers the account of the first sign-in (same id, same
    email, still tied to that provider identity) with its last login set
    to the time of the second call, creates no user, and leaves the ids
    of the users, the refresh-token rows and the counter as they were. *)
Theorem returning_oauth_user_is_recognised :
  forall now now' profile provider db db1 u,
    Protocol.userKeyed db ->
    Js.falsy (OAuthService.p_id profile) = false ->
    OAuthService.processOAuthProfile now profile provider db = (db1, inr u) ->
    exists db2 u',
      OAuthService.processOAuthProfile now' profile provider db1
      = (db2, inr u')
      /\ Prisma.id u' = Prisma.id u
      /\ Prisma.email u' = Prisma.email u
      /\ Prisma.provider u' = provider
      /\ Prisma.providerId u' = OAuthService.p_id profile
      /\ Prisma.lastLoginAt u' = Some now'
      /\ map Prisma.id (Prisma.users db2) = map Prisma.id (Prisma.users db1)
      /\ Prisma.refreshTokens db2 = Prisma.refreshTokens db1
      /\ Prisma.nextId db2 = Prisma.nextId db1.
Proof.
  intros now now' profile provider db db1 u Hk Hpid H.
  pose proof (oauth_keeps_userKeyed now profile provider db Hk) as Hk1.
  rewrite H in Hk1. simpl in Hk1.
  destruct (signed_in_account_is_found _ _ _ _ _ _ Hpid (proj2 Hk) H)
    as (Hmail & _ & row & Hrow & ->).
  pose proof (processOAuthProfile_returns now' _ _ _ _ Hmail Hpid Hrow
                (proj2 Hk1)) as Hagain.
  cbv zeta in Hagain.
  apply find_some in Hrow. destruct Hrow as [_ Hp].
  apply andb_prop in Hp. destruct Hp as [Hsame Hpr].
  apply String.eqb_eq in Hsame, Hpr.
  eexists. eexists. split; [exact Hagain |]. simpl.
  repeat split; try assumption.
  rewrite map_map. apply map_ext. intros x.
  destruct (String.eqb_spec (Prisma.id x) (Prisma.id row)) as [E | _];
    [simpl; congruence | reflexivity].
Qed.

Lemma returning_oauth_user_is_recognised_witness :
  exists db2 u',
    OAuthService.processOAuthProfile (Sample.t0 + 9000) Sample.bob "google"
      Sample.withBob = (db2, inr u')
    /\ Prisma.id u' = "c2"
    /\ Prisma.lastLoginAt u' = Some (Sample.t0 + 9000)
    /\ map Prisma.id (Prisma.users db2) = ["c0"; "c2"].
Proof.
  assert (H0 : Protocol.userKeyed Sample.empty).
  { split; [intros r [] | constructor]. }
  pose proof (step_keeps_userKeyed Sample.bcrypt_hash
                Sample.bcrypt_compare Sample.env
                (Protocol.Register Sample.t0 "s" Sample.alice)
                Sample.empty H0) as H1.
  pose (out := OAuthService.processOAuthProfile (Sample.t0 + 1000)
                 Sample.bob "google" Sample.registered).
  assert (Hout : exists u, out = (Sample.withBob, inr u)
                           /\ Prisma.id u = "c2").
  { vm_compute. eexists. split; reflexivity. }
  destruct Hout as (u & Hout & Hu).
  destruct (returning_oauth_user_is_recognised (Sample.t0 + 1000)
              (Sample.t0 + 9000) Sample.bob "google" Sample.registered
              _ _ H1 eq_refl Hout)
    as (db2 & u' & Hrun & Hid & _ & _ & _ & Hlast & Hids & _).
  exists db2, u'. split; [exact Hrun |].
  split; [rewrite Hid; exact Hu |].
  split; [exact Hlast |].
  rewrite Hids. vm_compute. reflexivity.
Defined.
